(** * deepaffects_summary_api.py: a shallow embedding and its properties

    The script parses a call transcript (plain text or JSON), posts it to an
    asynchronous summarisation service, polls the status endpoint and writes
    the summary to disk.  This development embeds the script's functions in
    Rocq and proves the properties stated about them.

    Conventions of the model.
    - A Python [str] is a Rocq [string]; a character stands for the code
      point of the same number, so the model covers texts whose code points
      are below 256.
    - A Python value of the kinds the script handles (what [json.load] and
      [Response.json] produce) is a [pyval]; a dict with string keys is a
      [gmap string pyval].
    - Effects are threaded through an explicit [world] (file system, the
      chronological trace of observable events, the number of status requests
      made so far); exceptions and fuel exhaustion are outcomes.
    - The network, the JSON codec and the directory test are parameters. *)

From Stdlib Require Import ZArith NArith Ascii String List Bool Lia.
From stdpp Require Import base option list gmap strings fin_maps.

Local Open Scope string_scope.
Local Open Scope list_scope.

(* String concatenation unfolds under [simpl] when its first argument is a
   constructor. *)
#[local] Arguments String.append !s1 s2 : simpl nomatch.
#[local] Arguments Ascii.eqb : simpl never.

(** ** Python strings *)

Module PyString.

(** [str.isspace] on one character, for code points below 256. *)
Definition isspace (c : ascii) : bool :=
  let n := N_of_ascii c in
  (((9 <=? n) && (n <=? 13)) || ((28 <=? n) && (n <=? 32))
   || (n =? 133) || (n =? 160))%N.

(** [str.lower] on one character, for code points below 256. *)
Definition lower_char (c : ascii) : ascii :=
  let n := N_of_ascii c in
  if (((65 <=? n) && (n <=? 90))
      || ((192 <=? n) && (n <=? 222) && negb (n =? 215)))%N
  then ascii_of_N (n + 32) else c.

Fixpoint lower (s : string) : string :=
  match s with
  | EmptyString => EmptyString
  | String c s' => String (lower_char c) (lower s')
  end.

Fixpoint lstrip (s : string) : string :=
  match s with
  | EmptyString => EmptyString
  | String c s' => if isspace c then lstrip s' else s
  end.

Fixpoint rstrip (s : string) : string :=
  match s with
  | EmptyString => EmptyString
  | String c s' =>
      match rstrip s' with
      | EmptyString => if isspace c then EmptyString else String c EmptyString
      | r => String c r
      end
  end.

(** [s.strip()] *)
Definition strip (s : string) : string := rstrip (lstrip s).

(** [s[:n]] and [s[n:]] for [0 <= n]. *)
Fixpoint take (n : nat) (s : string) : string :=
  match n, s with
  | S n', String c s' => String c (take n' s')
  | _, _ => EmptyString
  end.

Fixpoint drop (n : nat) (s : string) : string :=
  match n, s with
  | S n', String _ s' => drop n' s'
  | _, _ => s
  end.

(** [s.startswith(p)] *)
Fixpoint startswith (p s : string) : bool :=
  match p, s with
  | EmptyString, _ => true
  | String a p', String b s' => Ascii.eqb a b && startswith p' s'
  | String _ _, EmptyString => false
  end.

(** [s.endswith(p)] *)
Definition endswith (p s : string) : bool :=
  (String.length p <=? String.length s)%nat
  && String.eqb (drop (String.length s - String.length p) s) p.

(** [s.find(sep)]: index of the first occurrence, [None] for -1. *)
Fixpoint find (sep s : string) : option nat :=
  if startswith sep s then Some 0%nat
  else match s with
       | EmptyString => None
       | String _ s' => option_map S (find sep s')
       end.

(** [s.rfind(sep)]: index of the last occurrence, [None] for -1. *)
Fixpoint rfind (sep s : string) : option nat :=
  match s with
  | EmptyString => if startswith sep s then Some 0%nat else None
  | String _ s' =>
      match rfind sep s' with
      | Some i => Some (S i)
      | None => if startswith sep s then Some 0%nat else None
      end
  end.

(** [sub in s] *)
Definition contains (sub s : string) : bool :=
  match find sub s with Some _ => true | None => false end.

(** [s] has no occurrence of the character [c]. *)
Fixpoint lacks (c : ascii) (s : string) : bool :=
  match s with
  | EmptyString => true
  | String d s' => negb (Ascii.eqb c d) && lacks c s'
  end.

(** [s.split(sep, 1)] for a non-empty [sep]. *)
Definition split1 (sep s : string) : list string :=
  match find sep s with
  | None => [s]
  | Some i => [take i s; drop (i + String.length sep) s]
  end.

(** [s.rsplit(sep, 1)] for a non-empty [sep]. *)
Definition rsplit1 (sep s : string) : list string :=
  match rfind sep s with
  | None => [s]
  | Some i => [take i s; drop (i + String.length sep) s]
  end.

(** The lines a text-mode file yields when iterated, with universal
    newlines: a line ends at LF, CR or CR LF and is delivered with a
    terminating LF; a last line without terminator is delivered as it is. *)
Fixpoint lines_from (cur : string) (s : string) : list string :=
  match s with
  | EmptyString =>
      match cur with EmptyString => [] | _ => [cur] end
  | String c s' =>
      if Ascii.eqb c "010" then (cur +:+ String "010" "") :: lines_from "" s'
      else if Ascii.eqb c "013" then
        match s' with
        | String c' s'' =>
            if Ascii.eqb c' "010"
            then (cur +:+ String "010" "") :: lines_from "" s''
            else (cur +:+ String "010" "") :: lines_from "" s'
        | EmptyString => [cur +:+ String "010" ""]
        end
      else lines_from (cur +:+ String c "") s'
  end.

Definition file_lines (content : string) : list string :=
  lines_from "" content.

End PyString.

(** ** POSIX paths ([os.path] of a POSIX Python) *)

Module PosixPath.
Import PyString.

(** [os.path.basename(p)]: what follows the last slash. *)
Definition basename (p : string) : string :=
  match rfind "/" p with
  | None => p
  | Some i => drop (S i) p
  end.

(** [os.path.join(a, b)] *)
Definition join (a b : string) : string :=
  if startswith "/" b then b
  else if String.eqb a "" || endswith "/" a then a +:+ b
  else a +:+ "/" +:+ b.

(** The index scan of [genericpath._splitext]: is some character of
    [p[i:dot]] not a dot? *)
Fixpoint has_non_dot (s : string) : bool :=
  match s with
  | EmptyString => false
  | String c s' => negb (Ascii.eqb c ".") || has_non_dot s'
  end.

(** [os.path.splitext(p)] *)
Definition splitext (p : string) : string * string :=
  match rfind "." p with
  | None => (p, "")
  | Some dotIndex =>
      let filenameIndex :=
        match rfind "/" p with None => 0%nat | Some i => S i end in
      if (filenameIndex <=? dotIndex)%nat
         && has_non_dot (take (dotIndex - filenameIndex) (drop filenameIndex p))
      then (take dotIndex p, drop dotIndex p)
      else (p, "")
  end.

End PosixPath.

(** ** Python values, exceptions and results *)

(** The values [json.load] and [Response.json] produce.  A float is kept as
    its textual form: the script never computes with numbers. *)
#[warnings="-register-all"]
Inductive pyval : Type :=
| PyNone
| PyBool (b : bool)
| PyInt (z : Z)
| PyFloat (repr : string)
| PyStr (s : string)
| PyList (l : list pyval)
| PyDict (d : gmap string pyval).

(** The exception classes that can arise.  A JSON decoding error is a
    [ValueError]; [RequestException] stands for every error of the
    [requests] package (connection, HTTP, time-out). *)
Inductive exn : Type :=
| IndexError
| KeyError (key : string)
| TypeError (msg : string)
| AttributeError
| ValueError
| OSError
| RequestException
| GetoptError (msg : string) (opt : string)
| SystemExit (code : Z)
| KeyboardInterrupt.

(** [isinstance(e, Exception)]: [SystemExit] and [KeyboardInterrupt] derive
    from [BaseException] only, so [except Exception] lets them through. *)
Definition is_Exception (e : exn) : bool :=
  match e with
  | SystemExit _ | KeyboardInterrupt => false
  | _ => true
  end.

Inductive result (A : Type) : Type :=
| Ok (a : A)
| Err (e : exn).
Arguments Ok {A} a.
Arguments Err {A} e.

Definition rbind {A B} (r : result A) (k : A -> result B) : result B :=
  match r with
  | Ok a => k a
  | Err e => Err e
  end.

Notation "x <-? r ; k" := (rbind r (fun x => k))
  (at level 20, r at level 100, k at level 200, only parsing).

Module PyVal.

(** [isinstance(v, dict)] *)
Definition is_dict (v : pyval) : bool :=
  match v with PyDict _ => true | _ => false end.

(** [v == s] for a string literal [s] *)
Definition eq_str (v : pyval) (s : string) : bool :=
  match v with PyStr t => String.eqb t s | _ => false end.

(** [v[k]] for a string key [k] *)
Definition getitem (v : pyval) (k : string) : result pyval :=
  match v with
  | PyDict d => match d !! k with Some x => Ok x | None => Err (KeyError k) end
  | PyList _ => Err (TypeError "list indices must be integers or slices, not str")
  | PyStr _ => Err (TypeError "string indices must be integers")
  | _ => Err (TypeError "object is not subscriptable")
  end.

(** [v.get(k, default)] *)
Definition get (v : pyval) (k : string) (default : pyval) : result pyval :=
  match v with
  | PyDict d => Ok (match d !! k with Some x => x | None => default end)
  | _ => Err AttributeError
  end.

(** [v.lower().strip()] *)
Definition lower_strip (v : pyval) : result string :=
  match v with
  | PyStr s => Ok (PyString.strip (PyString.lower s))
  | _ => Err AttributeError
  end.

Fixpoint chars (s : string) : list pyval :=
  match s with
  | EmptyString => []
  | String c s' => PyStr (String c EmptyString) :: chars s'
  end.

(** The elements [for x in v] visits. *)
Definition iter (v : pyval) : result (list pyval) :=
  match v with
  | PyList l => Ok l
  | PyDict d => Ok (PyStr <$> (map_to_list d).*1)
  | PyStr s => Ok (chars s)
  | _ => Err (TypeError "object is not iterable")
  end.

(** [seq[i]] on a list of strings, for [0 <= i]. *)
Definition index (l : list string) (i : nat) : result string :=
  match nth_error l i with
  | Some x => Ok x
  | None => Err IndexError
  end.

End PyVal.

(** ** [getopt.getopt] of the Python standard library *)

Module Getopt.
Import PyString.

Definition optlist : Type := list (string * string).

Fixpoint short_has_arg (opt : ascii) (shortopts : string) : result bool :=
  match shortopts with
  | EmptyString =>
      Err (GetoptError ("option -" +:+ String opt "" +:+ " not recognized")
                       (String opt ""))
  | String c rest =>
      if Ascii.eqb opt c && negb (Ascii.eqb c ":")
      then Ok (startswith ":" rest)
      else short_has_arg opt rest
  end.

Fixpoint do_shorts (opts : optlist) (optstring shortopts : string)
         (args : list string) : result (optlist * list string) :=
  match optstring with
  | EmptyString => Ok (opts, args)
  | String opt optstring =>
      has_arg <-? short_has_arg opt shortopts;
      if has_arg : bool then
        if String.eqb optstring "" then
          match args with
          | [] => Err (GetoptError ("option -" +:+ String opt ""
                                      +:+ " requires argument") (String opt ""))
          | optarg :: args => Ok (opts ++ [("-" +:+ String opt "", optarg)], args)
          end
        else Ok (opts ++ [("-" +:+ String opt "", optstring)], args)
      else do_shorts (opts ++ [("-" +:+ String opt "", "")]) optstring shortopts args
  end.

Definition long_has_args (opt : string) (longopts : list string)
  : result (bool * string) :=
  let possibilities := List.filter (fun o => startswith opt o) longopts in
  match possibilities with
  | [] => Err (GetoptError ("option --" +:+ opt +:+ " not recognized") opt)
  | unique_match :: others =>
      if existsb (String.eqb opt) possibilities then Ok (false, opt)
      else if existsb (String.eqb (opt +:+ "=")) possibilities then Ok (true, opt)
      else
        match others with
        | _ :: _ =>
            Err (GetoptError ("option --" +:+ opt +:+ " not a unique prefix") opt)
        | [] =>
            let has_arg := endswith "=" unique_match in
            Ok (has_arg,
                if has_arg
                then take (String.length unique_match - 1) unique_match
                else unique_match)
        end
  end.

Definition do_longs (opts : optlist) (opt : string) (longopts : list string)
           (args : list string) : result (optlist * list string) :=
  let '(opt, optarg) :=
    match find "=" opt with
    | None => (opt, None)
    | Some i => (take i opt, Some (drop (S i) opt))
    end in
  found <-? long_has_args opt longopts;
  let '(has_arg, opt) := found in
  if has_arg : bool then
    match optarg with
    | None =>
        match args with
        | [] => Err (GetoptError ("option --" +:+ opt +:+ " requires argument") opt)
        | optarg :: args => Ok (opts ++ [("--" +:+ opt, optarg)], args)
        end
    | Some optarg => Ok (opts ++ [("--" +:+ opt, optarg)], args)
    end
  else
    match optarg with
    | Some _ =>
        Err (GetoptError ("option --" +:+ opt +:+ " must not have an argument") opt)
    | None => Ok (opts ++ [("--" +:+ opt, "")], args)
    end.

(** The [while] loop of [getopt]; every turn removes at least one word of
    [args], so [length args] turns are enough ([None]: fuel exhausted). *)
Fixpoint getopt_loop (fuel : nat) (opts : optlist) (args : list string)
         (shortopts : string) (longopts : list string)
  : option (result (optlist * list string)) :=
  match args with
  | [] => Some (Ok (opts, args))
  | arg0 :: rest =>
      if startswith "-" arg0 && negb (String.eqb arg0 "-") then
        if String.eqb arg0 "--" then Some (Ok (opts, rest))
        else
          match fuel with
          | O => None
          | S fuel =>
              match (if startswith "--" arg0
                     then do_longs opts (drop 2 arg0) longopts rest
                     else do_shorts opts (drop 1 arg0) shortopts rest) with
              | Err e => Some (Err e)
              | Ok (opts, args) => getopt_loop fuel opts args shortopts longopts
              end
          end
      else Some (Ok (opts, args))
  end.

Definition getopt (args : list string) (shortopts : string)
           (longopts : list string) : option (result (optlist * list string)) :=
  getopt_loop (length args) [] args shortopts longopts.

End Getopt.

(** ** The world the script runs in *)

(** An HTTP request as the script hands it to [requests]. *)
Record request : Type := Request {
  rq_method : string;
  rq_url : string;
  rq_params : gmap string pyval;
  rq_headers : gmap string string;
  rq_json : option pyval;
  rq_data : option string
}.

(** What an observer of a run sees, in order.  [Call] is a ghost event: it
    marks the entry into [process_summary_request] and [send_request], the
    two functions that receive the model. *)
Inductive event : Type :=
| Print (fmt : string) (args : list pyval)
| PrintExn (e : exn)
| Sleep (secs : Z)
| Http (rq : request)
| FileWrite (path : string) (content : string)
| Call (fname : string) (args : list pyval).   (* entry into a function *)

Record world : Type := World {
  w_fs : gmap string string;     (* regular files and their text *)
  w_trace : list event;          (* events so far, oldest first *)
  w_gets : nat                   (* status requests made so far *)
}.

(** How a computation ends: a value, an exception on its way up, or the fuel
    of a loop used up (the loop is still running). *)
Inductive outcome (A : Type) : Type :=
| Return (a : A)
| Raise (e : exn)
| OutOfFuel.
Arguments Return {A} a.
Arguments Raise {A} e.
Arguments OutOfFuel {A}.

Definition M (A : Type) : Type := world -> world * outcome A.

Definition ret {A} (a : A) : M A := fun w => (w, Return a).

Definition raise {A} (e : exn) : M A := fun w => (w, Raise e).

Definition out_of_fuel {A} : M A := fun w => (w, OutOfFuel).

Definition bind {A B} (m : M A) (k : A -> M B) : M B :=
  fun w =>
    match m w with
    | (w', Return a) => k a w'
    | (w', Raise e) => (w', Raise e)
    | (w', OutOfFuel) => (w', OutOfFuel)
    end.

Notation "x <~ c ; k" := (bind c (fun x => k))
  (at level 20, c at level 100, k at level 200, only parsing).

Definition lift {A} (r : result A) : M A :=
  match r with
  | Ok a => ret a
  | Err e => raise e
  end.

(** [try: body except Exception as ex: handler ex] *)
Definition try_except {A} (body : M A) (handler : exn -> M A) : M A :=
  fun w =>
    match body w with
    | (w', Raise e) => if is_Exception e then handler e w' else (w', Raise e)
    | r => r
    end.

Definition emit (e : event) : M unit :=
  fun w => (World (w_fs w) (w_trace w ++ [e]) (w_gets w), Return tt).

Definition print (fmt : string) (args : list pyval) : M unit := emit (Print fmt args).
Definition print_exn (e : exn) : M unit := emit (PrintExn e).
Definition sleep (secs : Z) : M unit := emit (Sleep secs).

(** [sys.exit(code)] and the builtin [exit(code)] *)
Definition sys_exit {A} (code : Z) : M A := raise (SystemExit code).

(** [with open(path) as f]: the text of the file. *)
Definition open_read (path : string) : M string :=
  fun w =>
    match w_fs w !! path with
    | Some content => (w, Return content)
    | None => (w, Raise OSError)
    end.

(** The exit status of the interpreter for the outcome of the main block. *)
Definition exit_status (o : outcome unit) : option Z :=
  match o with
  | Return _ => Some 0%Z
  | Raise (SystemExit code) => Some code
  | Raise _ => Some 1%Z
  | OutOfFuel => None
  end.

(** ** The script *)

Section Script.

(** The module constant [APIKEY]; the docstring asks to replace it. *)
Variable APIKEY : string.
(** [json.load] on the text of a file, and [json.dump]'s output. *)
Variable json_loads : string -> result pyval.
Variable json_dumps : pyval -> string.
(** The service: what [requests.post] does with a request, and what the
    [n]-th [requests.get] of the run does.  A response is represented by
    the outcome of its [.json()] method, the only use the script makes of
    it. *)
Variable post_oracle : request -> result (result pyval).
Variable get_oracle : nat -> request -> result (result pyval).
(** [os.path.isdir], and whether [open(path, 'w')] succeeds. *)
Variable isdir : string -> bool.
Variable writable : string -> bool.

Definition requests_post (rq : request) : M (result pyval) :=
  _ <~ emit (Http rq) ; lift (post_oracle rq).

Definition requests_get (rq : request) : M (result pyval) :=
  fun w =>
    let n := w_gets w in
    let w' := World (w_fs w) (w_trace w ++ [Http rq]) (S n) in
    lift (get_oracle n rq) w'.

(** [with open(path, 'w') as f: json.dump(v, f)] *)
Definition dump_to_file (path : string) (v : pyval) : M unit :=
  fun w =>
    if writable path then
      let content := json_dumps v in
      (World (<[path := content]> (w_fs w))
             (w_trace w ++ [FileWrite path content]) (w_gets w),
       Return tt)
    else (w, Raise OSError).

Import PyString PyVal.

Definition get_speaker_id (label : string) : string :=
  let label := strip label in
  drop (if startswith "speaker_" label then 8 else 0) label.

Definition segment (speaker_id text : string) : pyval :=
  PyDict {[ "speakerId" := PyStr speaker_id; "text" := PyStr text ]}.

(** The body of [for line in f] in [read_text_to_segments] below the
    blank-line test: the segment of a stripped, non-empty line. *)
Definition line_segment (line : string) : result pyval :=
  let text := "" in
  let line := split1 ": " line in
  label <-? index line 0;
  let speaker_id := get_speaker_id label in
  remainder <-? index line 1;
  let line := rsplit1 ": " remainder in
  let text := if (1 <=? length line)%nat then strip (List.last line "")
              else text in
  Ok (segment speaker_id text).

(** [for line in f] in [read_text_to_segments]. *)
Fixpoint text_loop (lines : list string) (output_segments : list pyval)
  : result (list pyval) :=
  match lines with
  | [] => Ok output_segments
  | line :: rest =>
      let line := strip line in
      if String.eqb line "" then text_loop rest output_segments
      else
        seg <-? line_segment line;
        text_loop rest (output_segments ++ [seg])
  end.

Definition read_text_to_segments (file_path : string) : M pyval :=
  content <~ open_read file_path ;
  output_segments <~ lift (text_loop (file_lines content) []) ;
  ret (PyList output_segments).

(** The body of [for x in output_segments] in [read_json_to_segments]:
    the elements are updated in place; the list of updated elements is
    what the list holds afterwards. *)
Fixpoint json_loop (xs : list pyval) : result (list pyval) :=
  match xs with
  | [] => Ok []
  | x :: rest =>
      v <-? getitem x "speaker_id";
      match x with
      | PyDict d =>
          rest' <-? json_loop rest;
          Ok (PyDict (<["speakerId" := v]> d) :: rest')
      | _ => Err (TypeError "object does not support item assignment")
      end
  end.

Definition read_json_to_segments (file_path : string) : M pyval :=
  content <~ open_read file_path ;
  document <~ lift (json_loads content) ;
  output_segments <~ lift (getitem document "segments") ;
  xs <~ lift (iter output_segments) ;
  xs' <~ lift (json_loop xs) ;
  ret (match output_segments with
       | PyList _ => PyList xs'
       | other => other
       end).

(** The request [send_request] posts for the segments [segments]. *)
Definition summary_request (segments model : pyval) : request :=
  let url := "https://proxy.api.deepaffects.com/text/generic/api/v1/async/summary" in
  let querystring : gmap string pyval := {[ "apikey" := PyStr APIKEY ]} in
  let payload :=
    PyDict {[ "summaryType" := PyStr "abstractive";
              "summaryData" := segments;
              "model" := model ]} in
  let headers : gmap string string := {[ "Content-Type" := "application/json" ]} in
  Request "POST" url querystring headers (Some payload) None.

(** The parser [send_request] selects by the extension of the path. *)
Definition read_segments (file_path : string) : M pyval :=
  if String.eqb (snd (PosixPath.splitext file_path)) ".json"
  then read_json_to_segments file_path
  else read_text_to_segments file_path.

Definition send_request (file_path : string) (model : pyval) : M pyval :=
  _ <~ emit (Call "send_request" [PyStr file_path; model]) ;
  try_except
    (segments <~ read_segments file_path ;
     response <~ requests_post (summary_request segments model) ;
     response <~ lift response ;
     request_id <~ lift (get response "request_id" PyNone) ;
     ret request_id)
    (fun ex => _ <~ print_exn ex ; ret PyNone).

(** The request [get_response] sends for [request_id]. *)
Definition status_request (request_id : pyval) : request :=
  let url := "https://proxy.api.deepaffects.com/transaction/generic/api/v1/async/status" in
  let querystring : gmap string pyval :=
    {[ "apikey" := PyStr APIKEY; "request_id" := request_id ]} in
  let payload := "" in
  let headers : gmap string string := {[ "cache-control" := "no-cache" ]} in
  Request "GET" url querystring headers None (Some payload).

Definition get_response (request_id : pyval) : M pyval :=
  response <~ requests_get (status_request request_id) ;
  try_except
    (response <~ lift response ;
     status <~ lift (s <-? getitem response "status"; lower_strip s) ;
     if contains "progress" status then
       _ <~ sleep 10 ;
       ret (PyStr "IN PROGRESS")
     else if contains "completed" status then
       lift (r <-? getitem response "response"; getitem r "response")
     else
       _ <~ print "request_id: {} status: {}" [request_id; PyStr status] ;
       ret (PyStr "FAILED"))
    (fun ex => _ <~ print_exn ex ; ret (PyStr "FAILED")).

Definition out_filename (file_name out_folder : string) : string :=
  PosixPath.join out_folder (PosixPath.basename file_name +:+ ".output.json").

(** The [while completed] loop of [process_summary_request]; [fuel] bounds
    the number of turns the model follows. *)
Fixpoint poll_loop (fuel : nat) (request_id : pyval)
         (file_name out_folder : string) : M unit :=
  match fuel with
  | O => out_of_fuel
  | S fuel =>
      response <~ get_response request_id ;
      if is_dict response then
        let out_filename := out_filename file_name out_folder in
        _ <~ dump_to_file out_filename (PyDict {[ "response" := response ]}) ;
        _ <~ print "Completed summary for  file :: {}" [PyStr file_name] ;
        _ <~ print "Output written to {}" [PyStr out_filename] ;
        ret tt
      else if eq_str response "FAILED" then ret tt
      else
        _ <~ print "Summarization is in progress" [] ;
        poll_loop fuel request_id file_name out_folder
  end.

Definition process_summary_request (fuel : nat) (file_name out_folder : string)
           (model : pyval) : M unit :=
  _ <~ emit (Call "process_summary_request"
                  [PyStr file_name; PyStr out_folder; model]) ;
  _ <~ print "Processing file : {}" [PyStr file_name] ;
  request_id <~ send_request file_name model ;
  poll_loop fuel request_id file_name out_folder.

(** A call of [process_summary_request] with the positional arguments
    [posargs]: the function has three required parameters. *)
Definition call_process_summary_request (fuel : nat) (posargs : list pyval)
  : M unit :=
  match posargs with
  | [PyStr file_name; PyStr out_folder; model] =>
      process_summary_request fuel file_name out_folder model
  | [_; _; _] => raise (TypeError "expected str, bytes or os.PathLike object")
  | [_; _] =>
      raise (TypeError "process_summary_request() missing 1 required positional argument: 'model'")
  | _ => raise (TypeError "process_summary_request() takes 3 positional arguments")
  end.

Definition usage (argv0 : string) : M unit :=
  _ <~ print ("Usage: " +:+ argv0 +:+ " [options]") [] ;
  _ <~ print "Options:" [] ;
  _ <~ print "-i --input_file_path=    Must be valid txt or json file path of the transcript" [] ;
  _ <~ print "-o --output_folder=      Must be valid directory where the summary output json would be written" [] ;
  print "-m --model=              [default: iamus]. Must be iamus or cassandra" [].

(** The variables the option loop of the main block assigns. *)
Record options : Type := Options {
  input_file_path : option string;
  output_folder : option string;
  model : option string
}.

Definition str_in (s : string) (l : list string) : bool := existsb (String.eqb s) l.

(** One turn of [for opt, arg in opts]. *)
Definition set_option (o : options) (oa : string * string) : options :=
  let '(opt, arg) := oa in
  if str_in opt ["-i"; "--input_file_path"]
  then Options (Some arg) (output_folder o) (model o)
  else if str_in opt ["-o"; "--output_folder"]
  then Options (input_file_path o) (Some arg) (model o)
  else if str_in opt ["-m"; "--model"]
  then Options (input_file_path o) (output_folder o) (Some arg)
  else o.

Definition scan_options (opts : Getopt.optlist) : options :=
  fold_left set_option opts (Options None None None).

(** [x is None or len(x) <= 0] *)
Definition none_or_empty (x : option string) : bool :=
  match x with
  | None => true
  | Some s => (String.length s <=? 0)%nat
  end.

(** [model not in ["cassandra", "iamus"]] *)
Definition model_not_in (m : option string) : bool :=
  match m with
  | None => true
  | Some s => negb (str_in s ["cassandra"; "iamus"])
  end.

Definition py_of (x : option string) : pyval :=
  match x with None => PyNone | Some s => PyStr s end.

(** The checks between the option loop and the final call; each branch
    that fires leaves through [sys.exit(2)]. *)
Definition validate (argv0 : string) (o : options) : M unit :=
  if none_or_empty (input_file_path o) || none_or_empty (output_folder o) then
    _ <~ usage argv0 ; sys_exit 2
  else
    let input := default "" (input_file_path o) in
    if negb (endswith ".json" input || endswith ".txt" input) then
      _ <~ print "Invalid input file. Should be either json or txt file" [] ;
      sys_exit 2
    else if model_not_in (model o) then
      _ <~ print "Invalid model param. Should be either cassandra or iamus" [] ;
      sys_exit 2
    else if negb (isdir (default "" (output_folder o))) then
      _ <~ print "Invalid output folder. Output folder does not exists" [] ;
      sys_exit 2
    else ret tt.

(** The option strings the main block gives to [getopt.getopt]. *)
Definition main_shortopts : string := "i:o:".
Definition main_longopts : list string := ["input_file_path="; "output_folder="].

(** The block under [if __name__ == '__main__'], for [sys.argv] equal to
    [argv0 :: args]. *)
Definition main_block (fuel : nat) (argv0 : string) (args : list string) : M unit :=
  if contains APIKEY "YOUR_API_KEY" then
    _ <~ print "Please update your valid api key" [] ;
    sys_exit 0
  else
    match Getopt.getopt args main_shortopts main_longopts with
    | None => out_of_fuel
    | Some (Err (GetoptError msg _)) =>
        _ <~ match args with
             | arg1 :: _ =>
                 if negb (str_in arg1 ["-h"; "--help"]) then
                   _ <~ print "%s: %s" [PyStr argv0; PyStr msg] ;
                   print "%s: Try --help or -h for usage details." [PyStr argv0]
                 else usage argv0
             | [] => ret tt
             end ;
        sys_exit 2
    | Some (Err e) => raise e
    | Some (Ok (opts, _)) =>
        let o := scan_options opts in
        _ <~ validate argv0 o ;
        call_process_summary_request fuel
          [py_of (input_file_path o); py_of (output_folder o)]
    end.

End Script.

(** ** Observations on traces and on the answers of the status service *)

Definition is_http (e : event) : bool :=
  match e with Http _ => true | _ => false end.

Definition is_write (e : event) : bool :=
  match e with FileWrite _ _ => true | _ => false end.

Definition is_call (e : event) : bool :=
  match e with Call _ _ => true | _ => false end.

(** A call that hands [None] over as one of its arguments. *)
Definition passes_none (e : event) : bool :=
  match e with
  | Call _ args => existsb (fun v => match v with PyNone => true | _ => false end) args
  | _ => false
  end.

(** The status string [get_response] computes from an answer of the status
    service, when it gets that far. *)
Definition answer_status (r : result (result pyval)) : option string :=
  match r with
  | Ok (Ok response) =>
      match (s <-? PyVal.getitem response "status"; PyVal.lower_strip s) with
      | Ok status => Some status
      | Err _ => None
      end
  | _ => None
  end.

(** The answer reports a job in progress. *)
Definition in_progress (r : result (result pyval)) : bool :=
  match answer_status r with
  | Some status => PyString.contains "progress" status
  | None => false
  end.

(** The answer reports a completed job whose result is [v]. *)
Definition completed_with (r : result (result pyval)) (v : pyval) : Prop :=
  exists response status,
    r = Ok (Ok response) /\ answer_status r = Some status /\
    PyString.contains "progress" status = false /\
    PyString.contains "completed" status = true /\
    (x <-? PyVal.getitem response "response"; PyVal.getitem x "response") = Ok v.

(** An answer whose only content is the status [s]. *)
Definition status_answer (s : string) : result (result pyval) :=
  Ok (Ok (PyDict {[ "status" := PyStr s ]})).

(** An answer of a completed job with result [v]. *)
Definition completed_answer (v : pyval) : result (result pyval) :=
  Ok (Ok (PyDict {[ "status" := PyStr "Completed";
                    "response" := PyDict {[ "response" := v ]} ]})).

(** The world before anything has happened, with the files [fs]. *)
Definition initial_world (fs : gmap string string) : world := World fs [] 0.

(** ** Lines of a text transcript *)

(** A line that is not blank once stripped. *)
Definition nonblank (line : string) : bool :=
  negb (String.eqb (PyString.strip line) "").

(** A line the text parser accepts: blank, or with a separator once
    stripped. *)
Definition well_formed_line (line : string) : Prop :=
  nonblank line = true -> PyString.contains ": " (PyString.strip line) = true.

(** A line the text parser rejects: not blank and without separator. *)
Definition malformed_line (line : string) : Prop :=
  nonblank line = true /\ PyString.contains ": " line = false.

(** The content of a text file with the lines [lines], each of them ended
    by a line feed. *)
Definition unlines (lines : list string) : string :=
  List.fold_right (fun line rest => line +:+ String "010" rest) "" lines.

(** A string without a line terminator (LF or CR). *)
Definition one_line (line : string) : bool :=
  PyString.lacks "010" line && PyString.lacks "013" line.

(** The line of a transcript that gives the speaker [speaker_L], a time
    range or none, and the text. *)
Definition transcript_line (L : string) (timerange : option string) (text : string)
  : string :=
  match timerange with
  | Some t => "speaker_" +:+ L +:+ " : " +:+ t +:+ " : " +:+ text
  | None => "speaker_" +:+ L +:+ " : " +:+ text
  end.

(** The line [line] is the utterance [u] (label, time range, text) of a
    transcript: the label has no colon and no blank at its end, the text is
    not blank and has no separator. *)
Definition utters (line : string) (u : string * option string * string) : Prop :=
  let '(L, timerange, text) := u in
  line = transcript_line L timerange text
  /\ PyString.lacks ":" L = true /\ PyString.rstrip L = L
  /\ PyString.contains ": " text = false /\ nonblank text = true.

(** ** Traces of the polling loop *)

(** The world once the status request [rq] has been sent and the events
    [more] have followed it. *)
Definition after_get (rq : request) (w : world) (more : list event) : world :=
  World (w_fs w) (w_trace w ++ Http rq :: more) (S (w_gets w)).

(** What one turn of the polling loop on an in-progress answer adds to the
    trace, and what [k] such turns add. *)
Definition progress_turn (rq : request) : list event :=
  [Http rq; Sleep 10; Print "Summarization is in progress" []].

Fixpoint progress_trace (rq : request) (k : nat) : list event :=
  match k with
  | O => []
  | S k => progress_turn rq ++ progress_trace rq k
  end.

(** What the turn on a completed answer adds: the request, the write, the
    two messages. *)
Definition completed_turn (rq : request) (file_name path content : string)
  : list event :=
  [Http rq; FileWrite path content;
   Print "Completed summary for  file :: {}" [PyStr file_name];
   Print "Output written to {}" [PyStr path]].

(** ** Options and computations *)

(** An option as the option loop of the main block knows it. *)
Definition known_option (oa : string * string) : bool :=
  str_in (fst oa) ["-i"; "-o"; "--input_file_path"; "--output_folder"].

Definition is_getopt_error (e : exn) : bool :=
  match e with GetoptError _ _ => true | _ => false end.

Definition is_print (e : event) : bool :=
  match e with Print _ _ => true | _ => false end.

(** A computation that never runs out of fuel. *)
Definition halts {A} (m : M A) : Prop := forall w, snd (m w) <> OutOfFuel.

(** ** A sample installation

    Concrete files and services on which the properties below are
    instantiated. *)

Module Sample.

Definition apikey : string := "4c2f9a61-demo".

Definition newline : string := String "010" "".
Definition dq : string := String "034" "".

(** Two utterances with a blank line between them. *)
Definition transcript : string :=
  "speaker_3 : 00:00:01.0 - 00:00:02.0 : hello world" +:+ newline
  +:+ newline
  +:+ "speaker_1 : hi there" +:+ newline.

(** The text [{"segments":[{"speaker_id":"0","text":"hi"}]}]. *)
Definition json_text : string :=
  "{" +:+ dq +:+ "segments" +:+ dq +:+ ":[{" +:+ dq +:+ "speaker_id" +:+ dq +:+ ":"
  +:+ dq +:+ "0" +:+ dq +:+ "," +:+ dq +:+ "text" +:+ dq +:+ ":" +:+ dq +:+ "hi"
  +:+ dq +:+ "}]}".

Definition json_document : pyval :=
  PyDict {[ "segments" :=
              PyList [PyDict {[ "speaker_id" := PyStr "0"; "text" := PyStr "hi" ]}] ]}.

Definition files : gmap string string :=
  {[ "calls/call1.txt" := transcript;
     "calls/bad.txt" := "hello";
     "calls/call1.json" := json_text;
     "calls/empty.json" := "{}" ]}.

(** A decoder that knows the two sample documents. *)
Definition json_loads (text : string) : result pyval :=
  if String.eqb text json_text then Ok json_document
  else if String.eqb text "{}" then Ok (PyDict ∅)
  else Err ValueError.

(** An encoder that tells the kind of the value only. *)
Definition json_dumps (v : pyval) : string :=
  match v with
  | PyDict _ => "{...}"
  | PyList _ => "[...]"
  | PyStr _ => "<str>"
  | _ => "<scalar>"
  end.

Definition summary : gmap string pyval := {[ "summary" := PyStr "greetings" ]}.

(** A service that accepts the job and completes it at the third poll. *)
Definition post_oracle (rq : request) : result (result pyval) :=
  Ok (Ok (PyDict {[ "request_id" := PyStr "req-1" ]})).

Definition get_oracle (n : nat) (rq : request) : result (result pyval) :=
  if (n <? 2)%nat then status_answer "In Progress"
  else completed_answer (PyDict summary).

(** A service that is never done, one that reports an error status, and
    one that cannot be reached. *)
Definition get_busy (n : nat) (rq : request) : result (result pyval) :=
  status_answer "IN PROGRESS".

Definition get_errored (n : nat) (rq : request) : result (result pyval) :=
  status_answer "errored".

Definition get_down (n : nat) (rq : request) : result (result pyval) :=
  Err RequestException.

Definition post_down (rq : request) : result (result pyval) :=
  Err RequestException.

Definition isdir (path : string) : bool := String.eqb path "/tmp/out".

Definition writable (path : string) : bool := PyString.startswith "/tmp/out/" path.

Definition world0 : world := initial_world files.

End Sample.

(** ** Further observations *)


(** The requests of a trace with the given method, in order. *)
Definition requests_of (method : string) (t : list event) : list request :=
  omap (fun e => match e with
                 | Http rq => if String.eqb (rq_method rq) method then Some rq else None
                 | _ => None
                 end) t.

(** The files a trace writes, in order. *)
Definition writes_of (t : list event) : list (string * string) :=
  omap (fun e => match e with
                 | FileWrite path content => Some (path, content)
                 | _ => None
                 end) t.

(** The messages of the usage text for the program name [argv0]. *)
Definition usage_lines (argv0 : string) : list event :=
  [Print ("Usage: " +:+ argv0 +:+ " [options]") [];
   Print "Options:" [];
   Print "-i --input_file_path=    Must be valid txt or json file path of the transcript" [];
   Print "-o --output_folder=      Must be valid directory where the summary output json would be written" [];
   Print "-m --model=              [default: iamus]. Must be iamus or cassandra" []].

(** ** More of the sample installation *)

Module SampleMore.

(** A JSON transcript whose second element lacks [speaker_id] and one whose
    element is not an object. *)
Definition doc_missing_id : pyval :=
  PyDict {[ "segments" :=
              PyList [PyDict {[ "speaker_id" := PyStr "0"; "text" := PyStr "hi" ]};
                      PyDict {[ "text" := PyStr "there" ]}] ]}.

Definition doc_bad_element : pyval :=
  PyDict {[ "segments" := PyList [PyStr "hi"] ]}.

Definition files : gmap string string :=
  {[ "calls/missing.json" := "missing";
     "calls/bad.json" := "bad";
     "calls/blank.txt" := Sample.newline +:+ "   " +:+ Sample.newline ]}.

Definition json_loads (text : string) : result pyval :=
  if String.eqb text "missing" then Ok doc_missing_id
  else if String.eqb text "bad" then Ok doc_bad_element
  else Err ValueError.

Definition world0 : world := initial_world files.

(** A post that is interrupted. *)
Definition post_interrupted (rq : request) : result (result pyval) :=
  Err KeyboardInterrupt.

(** Status services: one that shouts, one that whispers, and one whose
    answer has no status. *)
Definition get_shouting (n : nat) (rq : request) : result (result pyval) :=
  Ok (Ok (PyDict (<["status" := PyStr "  IN PROGRESS "]> ∅))).

Definition get_whispering (n : nat) (rq : request) : result (result pyval) :=
  Ok (Ok (PyDict (<["status" := PyStr "in progress"]> ∅))).

Definition get_no_status (n : nat) (rq : request) : result (result pyval) :=
  Ok (Ok (PyDict ∅)).

End SampleMore.

(** * Properties *)

(** ** Facts about the string operations *)

Module PyStringFacts.
Import PyString.

Lemma prefix_app (p a t : string) :
  startswith p a = true -> startswith p (a +:+ t) = true.
Proof.
  revert a. induction p as [|c p IH]; intros a; [reflexivity|].
  destruct a as [|d a]; simpl; [discriminate|].
  destruct (Ascii.eqb c d); [apply IH | discriminate].
Qed.

Lemma prefix_refl_app (a b : string) : startswith a (a +:+ b) = true.
Proof.
  induction a as [|c a IH]; simpl; [reflexivity|].
  now rewrite Ascii.eqb_refl.
Qed.

Lemma find_cons_None (sep : string) (c : ascii) (s : string) :
  find sep (String c s) = None -> find sep s = None.
Proof.
  simpl. destruct (startswith sep (String c s)); [discriminate|].
  destruct (find sep s); [discriminate | reflexivity].
Qed.

Lemma find_nonempty_nil (c : ascii) (sep : string) : find (String c sep) "" = None.
Proof. reflexivity. Qed.

Lemma find_app_None (sep a t : string) :
  find sep (a +:+ t) = None -> find sep a = None.
Proof.
  induction a as [|c a IH]; intros H.
  - destruct sep as [|d sep]; [|reflexivity].
    simpl in H. destruct t; discriminate.
  - change (String c a +:+ t) with (String c (a +:+ t)) in H.
    pose proof (find_cons_None _ _ _ H) as Ht.
    cbn [find] in H |- *.
    destruct (startswith sep (String c a)) eqn:Hp.
    + apply (prefix_app _ _ t) in Hp.
      change (String c a +:+ t) with (String c (a +:+ t)) in Hp.
      rewrite Hp in H. discriminate.
    + rewrite (IH Ht). reflexivity.
Qed.

Lemma find_lstrip_None (sep s : string) :
  find sep s = None -> find sep (lstrip s) = None.
Proof.
  induction s as [|c s IH]; intros H; [exact H|].
  simpl lstrip. destruct (isspace c); [|exact H].
  apply IH. eapply find_cons_None, H.
Qed.

Lemma rstrip_prefix (s : string) : exists t, s = rstrip s +:+ t.
Proof.
  induction s as [|c s [t Ht]]; [now exists ""|].
  simpl. destruct (rstrip s) as [|d r] eqn:Hr.
  - destruct (isspace c).
    + now exists (String c s).
    + exists s. reflexivity.
  - exists t. simpl. simpl in Ht. now rewrite <- Ht.
Qed.

Lemma find_rstrip_None (sep s : string) :
  find sep s = None -> find sep (rstrip s) = None.
Proof.
  destruct (rstrip_prefix s) as [t Ht]. intros H.
  rewrite Ht in H. eapply find_app_None, H.
Qed.

Lemma find_strip_None (sep s : string) :
  find sep s = None -> find sep (strip s) = None.
Proof. intros H. now apply find_rstrip_None, find_lstrip_None. Qed.

Lemma rstrip_app (a b : string) :
  rstrip (a +:+ b) =
    match rstrip b with
    | EmptyString => rstrip a
    | _ => a +:+ rstrip b
    end.
Proof.
  induction a as [|c a IH]; simpl.
  - now destruct (rstrip b).
  - rewrite IH. destruct (rstrip b) as [|d r]; [reflexivity|].
    destruct a; reflexivity.
Qed.

Lemma rstrip_idem (s : string) : rstrip (rstrip s) = rstrip s.
Proof.
  induction s as [|c s IH]; [reflexivity|].
  cbn [rstrip]. destruct (rstrip s) as [|d r] eqn:Hr.
  - destruct (isspace c) eqn:Hc; cbn [rstrip]; [reflexivity | now rewrite Hc].
  - cbn [rstrip] in IH |- *. now rewrite IH.
Qed.

Lemma lstrip_rstrip (s : string) : lstrip (rstrip s) = rstrip (lstrip s).
Proof.
  induction s as [|c s IH]; [reflexivity|].
  cbn [lstrip]. destruct (isspace c) eqn:Hc.
  - rewrite <- IH. cbn [rstrip].
    destruct (rstrip s); cbn [lstrip]; now rewrite Hc.
  - cbn [rstrip]. destruct (rstrip s); rewrite ?Hc; cbn [lstrip]; now rewrite Hc.
Qed.

Lemma strip_rstrip (s : string) : strip (rstrip s) = strip s.
Proof. unfold strip. now rewrite lstrip_rstrip, rstrip_idem. Qed.

Lemma lacks_app (c : ascii) (a b : string) :
  lacks c (a +:+ b) = lacks c a && lacks c b.
Proof.
  induction a as [|d a IH]; simpl; [reflexivity|].
  now rewrite IH, andb_assoc.
Qed.

Lemma find_after_colonless (a b : string) :
  lacks ":" a = true -> find ": " (a +:+ ": " +:+ b) = Some (String.length a).
Proof.
  induction a as [|d a IH]; intros H; [reflexivity|].
  simpl in H. apply andb_true_iff in H as [Hd Ha].
  change (find ": " (String d (a +:+ ": " +:+ b)) = Some (S (String.length a))).
  cbn [find]. rewrite (IH Ha).
  assert (startswith ": " (String d (a +:+ ": " +:+ b)) = false) as ->; [|reflexivity].
  simpl. apply negb_true_iff in Hd. now rewrite Hd.
Qed.

Lemma rfind_None (sep s : string) : find sep s = None -> rfind sep s = None.
Proof.
  induction s as [|c s IH]; simpl.
  - now destruct (startswith sep "").
  - destruct (startswith sep (String c s)); [discriminate|].
    destruct (find sep s); [discriminate|]. intros _. now rewrite IH.
Qed.

Lemma rfind_cons (sep : string) (c : ascii) (s : string) :
  rfind sep (String c s) =
    match rfind sep s with
    | Some i => Some (S i)
    | None => if startswith sep (String c s) then Some 0%nat else None
    end.
Proof. reflexivity. Qed.

Lemma rfind_last_sep (p t : string) :
  find ": " t = None -> rfind ": " (p +:+ ": " +:+ t) = Some (String.length p).
Proof.
  intros H. apply rfind_None in H.
  induction p as [|c p IH].
  - change (rfind ": " (String ":" (String " " t)) = Some 0%nat).
    rewrite !rfind_cons, H. reflexivity.
  - change (rfind ": " (String c (p +:+ ": " +:+ t)) = Some (S (String.length p))).
    now rewrite rfind_cons, IH.
Qed.

Lemma take_app (a b : string) : take (String.length a) (a +:+ b) = a.
Proof.
  induction a as [|c a IH]; simpl; [now destruct b | now rewrite IH].
Qed.

Lemma drop_app (a b : string) (n : nat) :
  drop (String.length a + n) (a +:+ b) = drop n b.
Proof. induction a as [|c a IH]; simpl; [reflexivity | exact IH]. Qed.

End PyStringFacts.

(** ** The text transcript parser *)

Module TextFacts.
Import PyString PyStringFacts PyVal.

Lemma append_assoc (a b c : string) : (a +:+ b) +:+ c = a +:+ (b +:+ c).
Proof. induction a as [|x a IH]; simpl; [reflexivity | now rewrite IH]. Qed.

Lemma contains_false (sub s : string) :
  contains sub s = false <-> find sub s = None.
Proof. unfold contains. destruct (find sub s); split; congruence. Qed.

Lemma contains_true (sub s : string) :
  contains sub s = true <-> exists i, find sub s = Some i.
Proof.
  unfold contains. destruct (find sub s) as [i|]; split; try congruence.
  - intros _. now exists i.
  - now intros [i Hi].
Qed.

Lemma line_segment_no_sep (line : string) :
  find ": " line = None -> line_segment line = Err IndexError.
Proof. intros H. unfold line_segment, split1. now rewrite H. Qed.

Lemma line_segment_sep (line : string) (i : nat) :
  find ": " line = Some i -> exists seg, line_segment line = Ok seg.
Proof.
  intros H. unfold line_segment, split1. rewrite H. simpl. eauto.
Qed.

Lemma text_loop_cons (line : string) (rest : list string) (acc : list pyval) :
  text_loop (line :: rest) acc =
    if nonblank line
    then (seg <-? line_segment (strip line); text_loop rest (acc ++ [seg]))
    else text_loop rest acc.
Proof.
  unfold nonblank. cbn [text_loop]. now destruct (String.eqb (strip line) "").
Qed.

(** The loop stops with an [IndexError] at the first non-blank line without
    separator; so it does whenever the file has such a line. *)
Lemma text_loop_malformed (lines : list string) (acc : list pyval) :
  (exists line, In line lines /\ malformed_line line) ->
  text_loop lines acc = Err IndexError.
Proof.
  revert acc. induction lines as [|l rest IH]; intros acc (line & Hin & Hnb & Hsep).
  - destruct Hin.
  - rewrite text_loop_cons. destruct (nonblank l) eqn:Hl.
    + destruct (find ": " (strip l)) as [i|] eqn:Hf.
      * destruct (line_segment_sep _ _ Hf) as [seg ->]. simpl.
        apply IH. exists line. repeat split; try assumption.
        destruct Hin as [->|Hin]; [|exact Hin].
        apply contains_false, (find_strip_None ": ") in Hsep. congruence.
      * now rewrite (line_segment_no_sep _ Hf).
    + apply IH. exists line. repeat split; try assumption.
      destruct Hin as [->|Hin]; [congruence | exact Hin].
Qed.

(** On a file whose non-blank lines all have a separator the loop appends
    one segment per non-blank line, in order. *)
Lemma text_loop_well_formed (lines : list string) (acc : list pyval) :
  Forall well_formed_line lines ->
  exists segs,
    text_loop lines acc = Ok (acc ++ segs) /\
    Forall2 (fun line seg => line_segment (strip line) = Ok seg)
            (List.filter nonblank lines) segs.
Proof.
  intros H. revert acc. induction H as [|l rest Hl _ IH]; intros acc.
  - exists []. split; [now rewrite app_nil_r | constructor].
  - rewrite text_loop_cons. cbn [List.filter].
    destruct (nonblank l) eqn:Hnb.
    + apply Hl, contains_true in Hnb as [i Hi].
      destruct (line_segment_sep _ _ Hi) as [seg Hseg]. rewrite Hseg. simpl.
      destruct (IH (acc ++ [seg])) as (segs & -> & Hall).
      exists (seg :: segs). split; [now rewrite <- app_assoc | now constructor].
    + apply IH.
Qed.

Lemma text_loop_skip_blank (l1 l2 : list string) (blank : string) (acc : list pyval) :
  nonblank blank = false ->
  text_loop (l1 ++ blank :: l2) acc = text_loop (l1 ++ l2) acc.
Proof.
  intros Hb. revert acc. induction l1 as [|l l1 IH]; intros acc.
  - simpl app. now rewrite text_loop_cons, Hb.
  - rewrite <- !app_comm_cons, !text_loop_cons.
    destruct (nonblank l); [|apply IH].
    destruct (line_segment (strip l)); simpl; [apply IH | reflexivity].
Qed.

Lemma rstrip_nonblank (t : string) : strip t <> "" -> rstrip t <> "".
Proof.
  intros H Hr. apply H. unfold strip. now rewrite <- lstrip_rstrip, Hr.
Qed.

Lemma lstrip_speaker (s : string) : lstrip ("speaker_" +:+ s) = "speaker_" +:+ s.
Proof. reflexivity. Qed.

(** Stripping a line that starts with a label and ends with the non-blank
    text [t] only trims the end of [t]. *)
Lemma strip_labelled (x t : string) :
  strip t <> "" ->
  strip ("speaker_" +:+ x +:+ t) = "speaker_" +:+ x +:+ rstrip t.
Proof.
  intros H. apply rstrip_nonblank in H.
  unfold strip. rewrite lstrip_speaker, <- !append_assoc, rstrip_app.
  now destruct (rstrip t).
Qed.

Lemma get_speaker_id_label (L : string) :
  rstrip L = L -> get_speaker_id ("speaker_" +:+ L +:+ " ") = L.
Proof.
  intros HL. unfold get_speaker_id, strip.
  rewrite lstrip_speaker, <- append_assoc, rstrip_app.
  change (rstrip " ") with "". rewrite rstrip_app, HL.
  destruct L; reflexivity.
Qed.

Lemma split1_label (L rest : string) :
  lacks ":" L = true ->
  split1 ": " ("speaker_" +:+ L +:+ " : " +:+ rest)
  = ["speaker_" +:+ L +:+ " "; rest].
Proof.
  intros HL. unfold split1.
  assert (("speaker_" +:+ L +:+ " : " +:+ rest)
          = ("speaker_" +:+ L +:+ " ") +:+ ": " +:+ rest) as ->.
  { now rewrite !append_assoc. }
  rewrite find_after_colonless.
  - now rewrite take_app, drop_app.
  - rewrite !lacks_app, HL. reflexivity.
Qed.

(** The segment of a stripped line [speaker_L : rest]. *)
Lemma line_segment_label (L rest : string) :
  lacks ":" L = true -> rstrip L = L ->
  line_segment ("speaker_" +:+ L +:+ " : " +:+ rest)
  = Ok (segment L (strip (List.last (rsplit1 ": " rest) ""))).
Proof.
  intros Hc Hr. unfold line_segment. rewrite (split1_label _ _ Hc).
  cbn [index nth_error rbind]. rewrite (get_speaker_id_label _ Hr).
  unfold rsplit1. now destruct (rfind ": " rest).
Qed.

End TextFacts.

Module TextParser.
Import PyString PyStringFacts TextFacts.

Lemma read_text_to_segments_run (path content : string) (w : world) :
  w_fs w !! path = Some content ->
  read_text_to_segments path w =
    match text_loop (file_lines content) [] with
    | Ok segs => (w, Return (PyList segs))
    | Err e => (w, Raise e)
    end.
Proof.
  intros H. unfold read_text_to_segments, bind, open_read. rewrite H.
  now destruct (text_loop (file_lines content) []).
Qed.

Lemma nonblank_strip (t : string) : nonblank t = true -> strip t <> "".
Proof.
  unfold nonblank. intros H Hs. rewrite Hs in H. discriminate.
Qed.

(** The lines of a file written line by line. *)
Lemma lines_from_line (cur line rest : string) :
  one_line line = true ->
  lines_from cur (line +:+ String "010" rest)
  = (cur +:+ line +:+ String "010" "") :: lines_from "" rest.
Proof.
  revert cur. induction line as [|c line IH]; intros cur H.
  - change ("" +:+ String "010" rest) with (String "010" rest).
    cbn [lines_from]. now rewrite Ascii.eqb_refl.
  - unfold one_line in H. cbn [lacks] in H.
    apply andb_true_iff in H as [[Hlf Hl]%andb_true_iff [Hcr Hr]%andb_true_iff].
    apply negb_true_iff in Hlf, Hcr.
    change (String c line +:+ String "010" rest)
      with (String c (line +:+ String "010" rest)).
    cbn [lines_from]. rewrite (Ascii.eqb_sym c "010"), Hlf, (Ascii.eqb_sym c "013"), Hcr.
    rewrite IH; [|unfold one_line; now rewrite Hl, Hr].
    now rewrite append_assoc.
Qed.

Lemma file_lines_unlines (lines : list string) :
  Forall (fun line => one_line line = true) lines ->
  file_lines (unlines lines) = List.map (fun line => line +:+ String "010" "") lines.
Proof.
  induction 1 as [|line lines Hl _ IH]; [reflexivity|].
  cbn [unlines List.fold_right List.map]. unfold file_lines.
  rewrite (lines_from_line "" line _ Hl). f_equal. exact IH.
Qed.

Lemma strip_line_feed (line : string) : strip (line +:+ String "010" "") = strip line.
Proof.
  unfold strip. rewrite <- !lstrip_rstrip, rstrip_app.
  now change (rstrip (String "010" "")) with "".
Qed.

Lemma text_loop_line_feeds (lines : list string) (acc : list pyval) :
  text_loop (List.map (fun line => line +:+ String "010" "") lines) acc
  = text_loop lines acc.
Proof.
  revert acc. induction lines as [|l lines IH]; intros acc; [reflexivity|].
  cbn [List.map]. rewrite !text_loop_cons. unfold nonblank.
  rewrite strip_line_feed. destruct (negb _); [|apply IH].
  destruct (line_segment (strip l)); cbn; [apply IH | reflexivity].
Qed.

(** The segment of a line whose text follows a last separator. *)
Lemma line_segment_after_last_sep (L before text : string) :
  lacks ":" L = true -> rstrip L = L ->
  contains ": " text = false -> nonblank text = true ->
  line_segment (strip ("speaker_" +:+ L +:+ " : " +:+ before +:+ ": " +:+ text))
  = Ok (PyDict {[ "speakerId" := PyStr L; "text" := PyStr (strip text) ]}).
Proof.
  intros Hc Hr Hsep Hnb.
  apply nonblank_strip in Hnb. apply contains_false in Hsep.
  assert (("speaker_" +:+ L +:+ " : " +:+ before +:+ ": " +:+ text)
          = "speaker_" +:+ (L +:+ " : " +:+ before +:+ ": ") +:+ text) as ->.
  { now rewrite !append_assoc. }
  rewrite (strip_labelled _ _ Hnb), !append_assoc.
  rewrite (line_segment_label _ _ Hc Hr). unfold rsplit1.
  rewrite (rfind_last_sep _ _ (find_rstrip_None _ _ Hsep)).
  rewrite take_app, drop_app. cbn [List.last].
  change (drop (String.length ": ") (": " +:+ rstrip text)) with (rstrip text).
  now rewrite strip_rstrip.
Qed.

(** The segment of a line whose text follows the only separator. *)
Lemma line_segment_plain (L text : string) :
  lacks ":" L = true -> rstrip L = L ->
  contains ": " text = false -> nonblank text = true ->
  line_segment (strip ("speaker_" +:+ L +:+ " : " +:+ text))
  = Ok (PyDict {[ "speakerId" := PyStr L; "text" := PyStr (strip text) ]}).
Proof.
  intros Hc Hr Hsep Hnb.
  apply nonblank_strip in Hnb. apply contains_false in Hsep.
  assert (("speaker_" +:+ L +:+ " : " +:+ text)
          = "speaker_" +:+ (L +:+ " : ") +:+ text) as ->.
  { now rewrite !append_assoc. }
  rewrite (strip_labelled _ _ Hnb), !append_assoc.
  rewrite (line_segment_label _ _ Hc Hr). unfold rsplit1.
  rewrite (rfind_None _ _ (find_rstrip_None _ _ Hsep)).
  cbn [List.last]. now rewrite strip_rstrip.
Qed.

Lemma line_segment_utterance (line : string) (u : string * option string * string) :
  utters line u ->
  line_segment (strip line)
  = Ok (PyDict {[ "speakerId" := PyStr (fst (fst u)); "text" := PyStr (strip (snd u)) ]}).
Proof.
  destruct u as [[L timerange] text]. intros (-> & Hc & Hr & Hsep & Hnb).
  cbn [fst snd]. destruct timerange as [t|]; cbn [transcript_line].
  - pose proof (line_segment_after_last_sep L (t +:+ " ") text Hc Hr Hsep Hnb) as H.
    now rewrite !append_assoc in H.
  - now apply line_segment_plain.
Qed.

(** The loop on a list of lines each of which is blank or an utterance:
    one segment per utterance, in the order of the lines. *)
Lemma text_loop_utterances (lines : list string)
      (us : list (string * option string * string)) (acc : list pyval) :
  Forall2 utters (List.filter nonblank lines) us ->
  text_loop lines acc
  = Ok (acc ++ List.map (fun u => PyDict {[ "speakerId" := PyStr (fst (fst u));
                                            "text" := PyStr (strip (snd u)) ]}) us).
Proof.
  revert us acc. induction lines as [|l lines IH]; intros us acc H.
  - cbn [List.filter] in H. inversion H. cbn. now rewrite app_nil_r.
  - rewrite text_loop_cons. cbn [List.filter] in H.
    destruct (nonblank l); [|now apply IH].
    inversion H as [|? u ? us' Hu Hrest]; subst.
    rewrite (line_segment_utterance _ _ Hu). cbn [rbind].
    rewrite (IH _ _ Hrest). cbn [List.map]. now rewrite <- app_assoc.
Qed.

(** C5. [read_text_to_segments] returns one segment per non-blank line, in
    file order, and a blank line contributes nothing.  The segment is the
    dict with the two keys speakerId and text.  A line
    [speaker_L : timerange : text] yields speakerId [L] and the text after
    the last separator; so does a line [speaker_L : text] without time
    range: it yields [text] when [text] holds no separator, and what
    follows the last separator of [text] otherwise.  The sample lines yield
    the sample segments, alone and in one file with a blank line between
    them.  The lines are those of a transcript: each non-blank line has a
    separator, the label [L] has no colon and no trailing blank, the text
    is not blank and is delivered stripped. *)
Theorem C5_read_text_to_segments_per_line :
  (forall (path content : string) (w : world),
      w_fs w !! path = Some content ->
      Forall well_formed_line (file_lines content) ->
      exists segs,
        read_text_to_segments path w = (w, Return (PyList segs)) /\
        length segs = length (List.filter nonblank (file_lines content)) /\
        Forall2 (fun line seg => line_segment (strip line) = Ok seg)
                (List.filter nonblank (file_lines content)) segs)
  /\ (forall lines : list string,
         Forall (fun line => one_line line = true) lines ->
         file_lines (unlines lines)
         = List.map (fun line => line +:+ String "010" "") lines)
  /\ file_lines ("a" +:+ String "013" (String "010" ("b" +:+ String "013"
                   ("c" +:+ String "010" (String "010" "d")))))
     = ["a" +:+ String "010" ""; "b" +:+ String "010" ""; "c" +:+ String "010" "";
        String "010" ""; "d"]
  /\ (forall (path : string) (lines : list string)
             (us : list (string * option string * string)) (w : world),
         w_fs w !! path = Some (unlines lines) ->
         Forall (fun line => one_line line = true) lines ->
         Forall2 utters (List.filter nonblank lines) us ->
         read_text_to_segments path w
         = (w, Return (PyList (List.map
                                 (fun u => PyDict {[ "speakerId" := PyStr (fst (fst u));
                                                     "text" := PyStr (strip (snd u)) ]})
                                 us))))
  /\ (forall (l1 l2 : list string) (blank : string) (acc : list pyval),
         nonblank blank = false ->
         text_loop (l1 ++ blank :: l2) acc = text_loop (l1 ++ l2) acc)
  /\ (forall L before text : string,
         lacks ":" L = true -> rstrip L = L ->
         contains ": " text = false -> nonblank text = true ->
         line_segment (strip ("speaker_" +:+ L +:+ " : " +:+ before +:+ ": " +:+ text))
         = Ok (PyDict {[ "speakerId" := PyStr L; "text" := PyStr (strip text) ]}))
  /\ (forall L timerange text : string,
         lacks ":" L = true -> rstrip L = L ->
         contains ": " text = false -> nonblank text = true ->
         line_segment (strip ("speaker_" +:+ L +:+ " : " +:+ timerange +:+ " : " +:+ text))
         = Ok (PyDict {[ "speakerId" := PyStr L; "text" := PyStr (strip text) ]}))
  /\ (forall L text : string,
         lacks ":" L = true -> rstrip L = L ->
         contains ": " text = false -> nonblank text = true ->
         line_segment (strip ("speaker_" +:+ L +:+ " : " +:+ text))
         = Ok (PyDict {[ "speakerId" := PyStr L; "text" := PyStr (strip text) ]}))
  /\ text_loop (file_lines "speaker_3 : 00:00:01.0 - 00:00:02.0 : hello world") []
     = Ok [PyDict {[ "speakerId" := PyStr "3"; "text" := PyStr "hello world" ]}]
  /\ text_loop (file_lines "speaker_1 : hi there") []
     = Ok [PyDict {[ "speakerId" := PyStr "1"; "text" := PyStr "hi there" ]}]
  /\ text_loop (file_lines "speaker_1 : note: hi there") []
     = Ok [PyDict {[ "speakerId" := PyStr "1"; "text" := PyStr "hi there" ]}]
  /\ read_text_to_segments "calls/call1.txt"
       (initial_world
          {[ "calls/call1.txt" :=
               "speaker_3 : 00:00:01.0 - 00:00:02.0 : hello world"
               +:+ String "010" (String "010" ("speaker_1 : hi there" +:+ String "010" "")) ]})
     = (initial_world
          {[ "calls/call1.txt" :=
               "speaker_3 : 00:00:01.0 - 00:00:02.0 : hello world"
               +:+ String "010" (String "010" ("speaker_1 : hi there" +:+ String "010" "")) ]},
        Return (PyList [PyDict {[ "speakerId" := PyStr "3"; "text" := PyStr "hello world" ]};
                        PyDict {[ "speakerId" := PyStr "1"; "text" := PyStr "hi there" ]}])).
Proof.
  split; [|split; [|split; [|split; [|split; [|split; [|split; [|split;
    [|split; [|split; [|split]]]]]]]]]].
  - intros path content w Hfs Hwf.
    destruct (text_loop_well_formed _ [] Hwf) as (segs & Hrun & Hall).
    exists segs. rewrite (read_text_to_segments_run _ _ _ Hfs), Hrun.
    repeat split; [|exact Hall].
    symmetry. eapply Forall2_length, Hall.
  - apply file_lines_unlines.
  - vm_compute. reflexivity.
  - intros path lines us w Hfs Hone Hus.
    rewrite (read_text_to_segments_run _ _ _ Hfs), (file_lines_unlines _ Hone).
    now rewrite text_loop_line_feeds, (text_loop_utterances _ _ [] Hus).
  - apply text_loop_skip_blank.
  - apply line_segment_after_last_sep.
  - intros L timerange text Hc Hr Hsep Hnb.
    pose proof (line_segment_after_last_sep L (timerange +:+ " ") text Hc Hr Hsep Hnb) as H.
    now rewrite !append_assoc in H.
  - apply line_segment_plain.
  - vm_compute. reflexivity.
  - vm_compute. reflexivity.
  - vm_compute. reflexivity.
  - vm_compute. reflexivity.
Qed.

End TextParser.

(** ** Computations without loops *)

Module MonadFacts.

Lemma halts_ret {A} (a : A) : halts (ret a).
Proof. intros w. discriminate. Qed.

Lemma halts_raise {A} (e : exn) : halts (raise (A:=A) e).
Proof. intros w. discriminate. Qed.

Lemma halts_lift {A} (r : result A) : halts (lift r).
Proof. destruct r; [apply halts_ret | apply halts_raise]. Qed.

Lemma halts_emit (e : event) : halts (emit e).
Proof. intros w. discriminate. Qed.

Lemma halts_open_read (path : string) : halts (open_read path).
Proof. intros w. unfold open_read. destruct (w_fs w !! path); discriminate. Qed.

Lemma halts_bind {A B} (m : M A) (k : A -> M B) :
  halts m -> (forall a, halts (k a)) -> halts (bind m k).
Proof.
  intros Hm Hk w. unfold bind. specialize (Hm w).
  destruct (m w) as [w' [a| |]]; cbn in *; [apply Hk | discriminate | congruence].
Qed.

Lemma halts_try_except {A} (body : M A) (handler : exn -> M A) :
  halts body -> (forall e, halts (handler e)) -> halts (try_except body handler).
Proof.
  intros Hb Hh w. unfold try_except. specialize (Hb w).
  destruct (body w) as [w' [a|e|]]; cbn in *; [discriminate | | congruence].
  destruct (is_Exception e); [apply Hh | discriminate].
Qed.

End MonadFacts.

(** ** The status poller and the polling loop *)

Section Poller.

Variable APIKEY : string.
Variable json_dumps : pyval -> string.
Variable get_oracle : nat -> request -> result (result pyval).
Variable writable : string -> bool.

Local Abbreviation get_response' := (get_response APIKEY get_oracle).
Local Abbreviation status_request' := (status_request APIKEY).
Local Abbreviation poll_loop' := (poll_loop APIKEY json_dumps get_oracle writable).

Implicit Types (w : world) (request_id : pyval).

Local Abbreviation sent request_id := (after_get (status_request' request_id)).

Lemma get_response_unfold request_id w :
  get_response' request_id w =
    match get_oracle (w_gets w) (status_request' request_id) with
    | Err e => (sent request_id w [], Raise e)
    | Ok response =>
        try_except
          (response <~ lift response ;
           status <~ lift (s <-? PyVal.getitem response "status"; PyVal.lower_strip s) ;
           if PyString.contains "progress" status then
             _ <~ sleep 10 ;
             ret (PyStr "IN PROGRESS")
           else if PyString.contains "completed" status then
             lift (r <-? PyVal.getitem response "response"; PyVal.getitem r "response")
           else
             _ <~ print "request_id: {} status: {}" [request_id; PyStr status] ;
             ret (PyStr "FAILED"))
          (fun ex => _ <~ print_exn ex ; ret (PyStr "FAILED"))
          (sent request_id w [])
    end.
Proof.
  unfold get_response, bind at 1, requests_get, after_get.
  destruct (get_oracle (w_gets w) (status_request' request_id)); reflexivity.
Qed.

(** An exception of the status call itself leaves [get_response]. *)
Lemma get_response_call_raises request_id w e :
  get_oracle (w_gets w) (status_request' request_id) = Err e ->
  get_response' request_id w = (sent request_id w [], Raise e).
Proof. intros H. now rewrite get_response_unfold, H. Qed.

(** An exception while the answer is decoded is caught. *)
Lemma get_response_decode_fails request_id w e :
  get_oracle (w_gets w) (status_request' request_id) = Ok (Err e) ->
  is_Exception e = true ->
  get_response' request_id w
  = (sent request_id w [PrintExn e], Return (PyStr "FAILED")).
Proof.
  intros H He. rewrite get_response_unfold, H.
  unfold try_except, bind, lift, raise. cbn. rewrite He.
  unfold after_get, print_exn, emit. cbn. now rewrite <- app_assoc.
Qed.

Lemma get_response_in_progress request_id w :
  in_progress (get_oracle (w_gets w) (status_request' request_id)) = true ->
  get_response' request_id w
  = (sent request_id w [Sleep 10], Return (PyStr "IN PROGRESS")).
Proof.
  intros H. rewrite get_response_unfold. unfold in_progress, answer_status in H.
  destruct (get_oracle _ _) as [[response|]|]; try discriminate.
  unfold try_except, bind, lift. cbn.
  destruct (rbind _ _) as [status|]; [|discriminate].
  cbn. rewrite H. unfold after_get, sleep, emit, ret. cbn. now rewrite <- app_assoc.
Qed.

Lemma get_response_completed request_id w v :
  completed_with (get_oracle (w_gets w) (status_request' request_id)) v ->
  get_response' request_id w = (sent request_id w [], Return v).
Proof.
  intros (response & status & Hr & Hs & Hp & Hc & Hv).
  rewrite get_response_unfold, Hr. rewrite Hr in Hs.
  unfold answer_status in Hs.
  unfold try_except, bind, lift. cbn.
  destruct (rbind _ _) as [status'|] eqn:Hst in Hs |- *; [|discriminate].
  injection Hs as ->. cbn. rewrite Hp, Hc, Hv. reflexivity.
Qed.

Lemma get_response_unrecognized request_id w status :
  answer_status (get_oracle (w_gets w) (status_request' request_id)) = Some status ->
  PyString.contains "progress" status = false ->
  PyString.contains "completed" status = false ->
  get_response' request_id w
  = (sent request_id w [Print "request_id: {} status: {}" [request_id; PyStr status]],
     Return (PyStr "FAILED")).
Proof.
  intros Hs Hp Hc. rewrite get_response_unfold. unfold answer_status in Hs.
  destruct (get_oracle _ _) as [[response|]|]; try discriminate.
  unfold try_except, bind, lift. cbn.
  destruct (rbind _ _) as [status'|]; [|discriminate].
  injection Hs as ->. cbn. rewrite Hp, Hc.
  unfold after_get, print, emit, ret. cbn. now rewrite <- app_assoc.
Qed.

(** The result of [get_response], whatever the answer: either the call
    itself raised, or a value is returned; the files are not touched and
    one request more has been made. *)
Lemma get_response_total request_id w :
  exists more o,
    get_response' request_id w = (sent request_id w more, o) /\
    Forall (fun e => is_write e = false) more /\
    (o = OutOfFuel -> False).
Proof.
  rewrite get_response_unfold.
  destruct (get_oracle _ _) as [[response|e]|e].
  - unfold try_except, bind, lift. cbn.
    destruct (rbind _ _) as [status|e].
    + cbn. destruct (PyString.contains "progress" status).
      * exists [Sleep 10], (Return (PyStr "IN PROGRESS")).
        unfold after_get, sleep, emit, ret. cbn. rewrite <- app_assoc.
        repeat split; [repeat constructor | discriminate].
      * destruct (PyString.contains "completed" status).
        -- destruct (rbind _ _) as [v|e]; cbn.
           ++ exists [], (Return v). repeat split; [constructor | discriminate].
           ++ destruct (is_Exception e).
              ** exists [PrintExn e], (Return (PyStr "FAILED")).
                 unfold after_get, print_exn, emit, bind, ret. cbn. rewrite <- app_assoc.
                 repeat split; [repeat constructor | discriminate].
              ** exists [], (Raise e). repeat split; [constructor | discriminate].
        -- eexists [_], (Return (PyStr "FAILED")).
           unfold after_get, print, emit, ret. cbn. rewrite <- app_assoc.
           repeat split; [repeat constructor | discriminate].
    + cbn. destruct (is_Exception e).
      * exists [PrintExn e], (Return (PyStr "FAILED")).
        unfold after_get, print_exn, emit, bind, ret. cbn. rewrite <- app_assoc.
        repeat split; [repeat constructor | discriminate].
      * exists [], (Raise e). repeat split; [constructor | discriminate].
  - unfold try_except, bind, lift, raise. cbn. destruct (is_Exception e).
    + exists [PrintExn e], (Return (PyStr "FAILED")).
      unfold after_get, print_exn, emit, bind, ret. cbn. rewrite <- app_assoc.
      repeat split; [repeat constructor | discriminate].
    + exists [], (Raise e). repeat split; [constructor | discriminate].
  - exists [], (Raise e). repeat split; [constructor | discriminate].
Qed.

Lemma poll_loop_unfold fuel request_id file_name out_folder w :
  poll_loop' (S fuel) request_id file_name out_folder w =
    match get_response' request_id w with
    | (w1, Return response) =>
        if PyVal.is_dict response then
          let path := out_filename file_name out_folder in
          (_ <~ dump_to_file json_dumps writable path
                  (PyDict {[ "response" := response ]}) ;
           _ <~ print "Completed summary for  file :: {}" [PyStr file_name] ;
           _ <~ print "Output written to {}" [PyStr path] ;
           ret tt) w1
        else if PyVal.eq_str response "FAILED" then (w1, Return tt)
        else (_ <~ print "Summarization is in progress" [] ;
              poll_loop' fuel request_id file_name out_folder) w1
    | (w1, Raise e) => (w1, Raise e)
    | (w1, OutOfFuel) => (w1, OutOfFuel)
    end.
Proof.
  cbn [poll_loop]. unfold bind at 1.
  destruct (get_response' request_id w) as [w1 [response| |]]; try reflexivity.
  destruct (PyVal.is_dict response); [reflexivity|].
  now destruct (PyVal.eq_str response "FAILED").
Qed.

(** One turn on an in-progress answer: the loop goes round. *)
Lemma poll_loop_progress_turn fuel request_id file_name out_folder w :
  in_progress (get_oracle (w_gets w) (status_request' request_id)) = true ->
  poll_loop' (S fuel) request_id file_name out_folder w
  = poll_loop' fuel request_id file_name out_folder
      (World (w_fs w) (w_trace w ++ progress_turn (status_request' request_id))
             (S (w_gets w))).
Proof.
  intros H. rewrite poll_loop_unfold, (get_response_in_progress _ _ H).
  cbn. unfold bind, print, emit, after_get. cbn.
  now rewrite <- app_assoc.
Qed.

(** [k] turns on in-progress answers. *)
Lemma poll_loop_progress k fuel request_id file_name out_folder w :
  (forall i, (i < k)%nat ->
     in_progress (get_oracle (w_gets w + i) (status_request' request_id)) = true) ->
  poll_loop' (k + fuel) request_id file_name out_folder w
  = poll_loop' fuel request_id file_name out_folder
      (World (w_fs w) (w_trace w ++ progress_trace (status_request' request_id) k)
             (w_gets w + k)).
Proof.
  revert w. induction k as [|k IH]; intros w H.
  - cbn. rewrite app_nil_r, Nat.add_0_r. now destruct w.
  - change (S k + fuel)%nat with (S (k + fuel)).
    rewrite poll_loop_progress_turn.
    + rewrite IH.
      * cbn [w_fs w_trace w_gets progress_trace].
        now rewrite <- app_assoc, Nat.add_succ_r.
      * intros i Hi. cbn [w_gets].
        replace (S (w_gets w) + i)%nat with (w_gets w + S i)%nat by lia.
        apply H. lia.
    + specialize (H 0%nat). rewrite Nat.add_0_r in H. apply H. lia.
Qed.

(** The turn on a completed answer whose result is a dict: the file is
    written and the loop ends. *)
Lemma poll_loop_completed_turn fuel request_id file_name out_folder w d :
  completed_with (get_oracle (w_gets w) (status_request' request_id)) (PyDict d) ->
  writable (out_filename file_name out_folder) = true ->
  let path := out_filename file_name out_folder in
  let content := json_dumps (PyDict {[ "response" := PyDict d ]}) in
  poll_loop' (S fuel) request_id file_name out_folder w
  = (World (<[path := content]> (w_fs w))
           (w_trace w ++ completed_turn (status_request' request_id) file_name path content)
           (S (w_gets w)),
     Return tt).
Proof.
  intros H Hw path content.
  rewrite poll_loop_unfold, (get_response_completed _ _ _ H).
  cbn. unfold bind, dump_to_file, print, emit, ret, after_get. cbn.
  subst path content. rewrite Hw. cbn.
  now rewrite <- !app_assoc.
Qed.

(** The turn on an answer with an unrecognized status: the loop ends and
    nothing is written. *)
Lemma poll_loop_unrecognized_turn fuel request_id file_name out_folder w status :
  answer_status (get_oracle (w_gets w) (status_request' request_id)) = Some status ->
  PyString.contains "progress" status = false ->
  PyString.contains "completed" status = false ->
  poll_loop' (S fuel) request_id file_name out_folder w
  = (after_get (status_request' request_id) w
       [Print "request_id: {} status: {}" [request_id; PyStr status]],
     Return tt).
Proof.
  intros Hs Hp Hc.
  now rewrite poll_loop_unfold, (get_response_unrecognized _ _ _ Hs Hp Hc).
Qed.

Lemma progress_trace_no_write rq k :
  List.filter is_write (progress_trace rq k) = [].
Proof. induction k as [|k IH]; [reflexivity | exact IH]. Qed.

Lemma progress_trace_requests rq k :
  length (List.filter is_http (progress_trace rq k)) = k.
Proof. induction k as [|k IH]; [reflexivity | cbn; now rewrite IH]. Qed.

(** A turn on a value that is neither a dict nor the failed sentinel makes
    the loop poll again. *)
Lemma poll_loop_again fuel request_id file_name out_folder w w1 v :
  get_response' request_id w = (w1, Return v) ->
  PyVal.is_dict v = false -> PyVal.eq_str v "FAILED" = false ->
  poll_loop' (S fuel) request_id file_name out_folder w
  = poll_loop' fuel request_id file_name out_folder
      (World (w_fs w1) (w_trace w1 ++ [Print "Summarization is in progress" []])
             (w_gets w1)).
Proof.
  intros H Hd Hf. rewrite poll_loop_unfold, H, Hd, Hf. reflexivity.
Qed.

(** A turn on the failed sentinel ends the loop. *)
Lemma poll_loop_failed fuel request_id file_name out_folder w w1 :
  get_response' request_id w = (w1, Return (PyStr "FAILED")) ->
  poll_loop' (S fuel) request_id file_name out_folder w = (w1, Return tt).
Proof. intros H. now rewrite poll_loop_unfold, H. Qed.

(** C3, evaluated where it fails.  An exception raised by the status call
    itself ([requests.get] stands before the [try]) leaves [get_response]:
    the failed sentinel is not returned. *)
Theorem C3_get_response_call_exception_propagates request_id w e :
  get_oracle (w_gets w) (status_request' request_id) = Err e ->
  get_response' request_id w
  = (after_get (status_request' request_id) w [], Raise e) /\
  snd (get_response' request_id w) <> Return (PyStr "FAILED").
Proof.
  intros H. rewrite (get_response_call_raises _ _ _ H).
  split; [reflexivity | discriminate].
Qed.

(** C7. When the first completed answer comes after [k] in-progress
    answers, the loop ends after [k+1] status requests, having written
    exactly one file, and the write follows the request that brought the
    completed answer; stopped after any [j <= k] turns it has written
    nothing.  When the answer after [k] in-progress answers has an
    unrecognized status (such as "errored"), the loop ends without writing
    a file. *)
Theorem C7_poll_loop_writes_once_after_completed :
  (forall k fuel request_id file_name out_folder w d,
      (forall i, (i < k)%nat ->
         in_progress (get_oracle (w_gets w + i) (status_request' request_id)) = true) ->
      completed_with (get_oracle (w_gets w + k) (status_request' request_id)) (PyDict d) ->
      writable (out_filename file_name out_folder) = true ->
      let rq := status_request' request_id in
      let path := out_filename file_name out_folder in
      let content := json_dumps (PyDict {[ "response" := PyDict d ]}) in
      let added := progress_trace rq k ++ completed_turn rq file_name path content in
      poll_loop' (k + S fuel) request_id file_name out_folder w
      = (World (<[path := content]> (w_fs w)) (w_trace w ++ added) (w_gets w + k + 1),
         Return tt)
      /\ List.filter is_write added = [FileWrite path content]
      /\ length (List.filter is_http (progress_trace rq k ++ [Http rq])) = S k
      /\ (forall j, (j <= k)%nat ->
            poll_loop' j request_id file_name out_folder w
            = (World (w_fs w) (w_trace w ++ progress_trace rq j) (w_gets w + j),
               OutOfFuel)
            /\ List.filter is_write (progress_trace rq j) = []))
  /\ (forall k fuel request_id file_name out_folder w status,
         (forall i, (i < k)%nat ->
            in_progress (get_oracle (w_gets w + i) (status_request' request_id)) = true) ->
         answer_status (get_oracle (w_gets w + k) (status_request' request_id))
         = Some status ->
         PyString.contains "progress" status = false ->
         PyString.contains "completed" status = false ->
         let rq := status_request' request_id in
         let added :=
           progress_trace rq k
           ++ [Http rq; Print "request_id: {} status: {}" [request_id; PyStr status]] in
         poll_loop' (k + S fuel) request_id file_name out_folder w
         = (World (w_fs w) (w_trace w ++ added) (S (w_gets w + k)), Return tt)
         /\ List.filter is_write added = [])
  /\ answer_status (status_answer "errored") = Some "errored"
  /\ PyString.contains "progress" "errored" = false
  /\ PyString.contains "completed" "errored" = false.
Proof.
  split; [|split; [|repeat split]].
  - intros k fuel request_id file_name out_folder w d Hprog Hdone Hw. cbv zeta.
    split; [|split; [|split]].
    + rewrite (poll_loop_progress _ _ _ _ _ _ Hprog).
      pose proof (poll_loop_completed_turn fuel request_id file_name out_folder
                    (World (w_fs w)
                           (w_trace w ++ progress_trace (status_request' request_id) k)
                           (w_gets w + k))
                    d Hdone Hw) as Hturn.
      cbv zeta in Hturn. rewrite Hturn.
      cbn [w_fs w_trace w_gets].
      now rewrite <- app_assoc, Nat.add_1_r.
    + rewrite List.filter_app, progress_trace_no_write. reflexivity.
    + rewrite List.filter_app, length_app, progress_trace_requests. cbn. lia.
    + intros j Hj. split; [|apply progress_trace_no_write].
      replace j with (j + 0)%nat at 1 by lia.
      rewrite poll_loop_progress; [reflexivity|].
      intros i Hi. apply Hprog. lia.
  - intros k fuel request_id file_name out_folder w status Hprog Hs Hp Hc. cbv zeta.
    split.
    + rewrite (poll_loop_progress _ _ _ _ _ _ Hprog).
      rewrite (poll_loop_unrecognized_turn _ _ _ _ _ status); try assumption.
      unfold after_get. cbn [w_fs w_trace w_gets].
      now rewrite <- app_assoc.
    + rewrite List.filter_app, progress_trace_no_write. reflexivity.
Qed.

(** C9. The loop has no bound on its turns: when every answer is in
    progress, then for every number [n] the loop has made [n] status
    requests after [n] turns and is still running; it never ends.  A turn
    goes round on any value that is neither a dict nor the failed sentinel,
    and ends on the failed sentinel. *)
Theorem C9_poll_loop_unbounded :
  (forall request_id file_name out_folder w,
      (forall n, in_progress (get_oracle n (status_request' request_id)) = true) ->
      forall n,
        poll_loop' n request_id file_name out_folder w
        = (World (w_fs w) (w_trace w ++ progress_trace (status_request' request_id) n)
                 (w_gets w + n),
           OutOfFuel))
  /\ (forall fuel request_id file_name out_folder w w1 v,
         get_response' request_id w = (w1, Return v) ->
         PyVal.is_dict v = false -> PyVal.eq_str v "FAILED" = false ->
         poll_loop' (S fuel) request_id file_name out_folder w
         = poll_loop' fuel request_id file_name out_folder
             (World (w_fs w1) (w_trace w1 ++ [Print "Summarization is in progress" []])
                    (w_gets w1)))
  /\ (forall fuel request_id file_name out_folder w w1,
         get_response' request_id w = (w1, Return (PyStr "FAILED")) ->
         poll_loop' (S fuel) request_id file_name out_folder w = (w1, Return tt)).
Proof.
  split; [|split].
  - intros request_id file_name out_folder w H n.
    replace n with (n + 0)%nat at 1 by lia.
    rewrite poll_loop_progress; [reflexivity|]. intros i _. apply H.
  - apply poll_loop_again.
  - apply poll_loop_failed.
Qed.

End Poller.

(** ** The result writer *)

Module PathFacts.
Import PyString PyStringFacts PosixPath.

Lemma rfind_slash_None (p : string) : rfind "/" p = None -> lacks "/" p = true.
Proof.
  induction p as [|c p IH]; [reflexivity|].
  rewrite rfind_cons. destruct (rfind "/" p); [discriminate|].
  cbn [startswith lacks]. rewrite andb_true_r.
  destruct (Ascii.eqb "/" c); [discriminate|]. intros _. now rewrite IH.
Qed.

(** A base name has no slash. *)
Lemma basename_no_slash (p : string) : lacks "/" (basename p) = true.
Proof.
  unfold basename. induction p as [|c p IH]; [reflexivity|].
  rewrite rfind_cons. destruct (rfind "/" p) as [i|] eqn:Hp.
  - exact IH.
  - cbn [startswith]. rewrite andb_true_r.
    destruct (Ascii.eqb "/" c) eqn:Hc.
    + exact IH.
    + cbn [lacks]. now rewrite Hc, IH.
Qed.

(** In the directory [a], a name without slash is joined with one slash. *)
Lemma join_plain (a b : string) :
  lacks "/" b = true -> a <> "" -> endswith "/" a = false ->
  join a b = a +:+ "/" +:+ b.
Proof.
  intros Hb Ha He. unfold join. rewrite He.
  assert (startswith "/" b = false) as ->.
  { destruct b as [|c b]; [reflexivity|]. cbn [lacks] in Hb. cbn [startswith].
    destruct (Ascii.eqb "/" c); [discriminate | reflexivity]. }
  apply String.eqb_neq in Ha. now rewrite Ha.
Qed.

Lemma lacks_output_name (b : string) :
  lacks "/" b = true -> lacks "/" (b +:+ ".output.json") = true.
Proof. intros H. now rewrite lacks_app, H. Qed.

Lemma lacks_find (c : ascii) (t : string) :
  lacks c t = true -> find (String c "") t = None.
Proof.
  induction t as [|d t IH]; [reflexivity|].
  cbn [lacks find startswith]. intros [Hd Ht]%andb_true_iff.
  apply negb_true_iff in Hd. rewrite Hd. cbn. now rewrite IH.
Qed.

(** The last occurrence of a character that does not occur after it. *)
Lemma rfind_char_last (c : ascii) (a t : string) :
  lacks c t = true ->
  rfind (String c "") (a +:+ String c t) = Some (String.length a).
Proof.
  intros Ht. pose proof (rfind_None _ _ (lacks_find _ _ Ht)) as Hr.
  induction a as [|d a IH].
  - change ("" +:+ String c t) with (String c t).
    rewrite rfind_cons, Hr. cbn [startswith]. now rewrite Ascii.eqb_refl.
  - change (String d a +:+ String c t) with (String d (a +:+ String c t)).
    now rewrite rfind_cons, IH.
Qed.

Lemma lacks_rfind (c : ascii) (t : string) :
  lacks c t = true -> rfind (String c "") t = None.
Proof. intros H. apply rfind_None, lacks_find, H. Qed.

Lemma basename_under_directory (dir name : string) :
  lacks "/" name = true -> basename (dir +:+ "/" +:+ name) = name.
Proof.
  intros H. unfold basename.
  change ("/" +:+ name) with (String "/" name).
  rewrite (rfind_char_last "/" dir name H).
  replace (S (String.length dir)) with (String.length dir + 1)%nat by lia.
  now rewrite drop_app.
Qed.

Lemma basename_plain (name : string) : lacks "/" name = true -> basename name = name.
Proof. intros H. unfold basename. now rewrite (lacks_rfind _ _ H). Qed.

End PathFacts.

Section Writer.

Variable APIKEY : string.
Variable json_dumps : pyval -> string.
Variable get_oracle : nat -> request -> result (result pyval).
Variable writable : string -> bool.

Local Abbreviation status_request' := (status_request APIKEY).
Local Abbreviation poll_loop' := (poll_loop APIKEY json_dumps get_oracle writable).

(** C8. On a completed answer the loop writes the dump of
    [{"response": result}] to the path that joins the output folder and
    [basename(file_name) + ".output.json"]: for a folder name that is not
    empty and has no final slash, and an input whose last component is
    [name], the path is folder, slash, [name], ".output.json", so
    [/tmp/out/call1.txt.output.json] for the input [calls/call1.txt] and
    the folder [/tmp/out].  Whatever the file held before is replaced and
    no other file changes; a later run on the same input and folder
    replaces the file again, and with the same result leaves the file
    system as the first run left it. *)
Theorem C8_result_written_and_overwritten
        fuel request_id file_name out_folder (w : world) (d : gmap string pyval) :
  completed_with (get_oracle (w_gets w) (status_request' request_id)) (PyDict d) ->
  writable (out_filename file_name out_folder) = true ->
  let path := out_filename file_name out_folder in
  let content := json_dumps (PyDict {[ "response" := PyDict d ]}) in
  exists w',
    poll_loop' (S fuel) request_id file_name out_folder w = (w', Return tt)
    /\ w_fs w' = <[path := content]> (w_fs w)
    /\ w_fs w' !! path = Some content
    /\ (forall other : string, other <> path -> w_fs w' !! other = w_fs w !! other)
    /\ List.filter is_write (drop (length (w_trace w)) (w_trace w'))
       = [FileWrite path content]
    /\ path = PosixPath.join out_folder
                (PosixPath.basename file_name +:+ ".output.json")
    /\ (out_folder <> "" -> PyString.endswith "/" out_folder = false ->
        path = out_folder +:+ "/" +:+ PosixPath.basename file_name +:+ ".output.json")
    /\ (forall dir name : string,
           PyString.lacks "/" name = true ->
           file_name = dir +:+ "/" +:+ name \/ file_name = name ->
           PosixPath.basename file_name = name
           /\ (out_folder <> "" -> PyString.endswith "/" out_folder = false ->
               path = out_folder +:+ "/" +:+ name +:+ ".output.json"))
    /\ out_filename "calls/call1.txt" "/tmp/out" = "/tmp/out/call1.txt.output.json"
    /\ out_filename "call1.txt" "/tmp/out/" = "/tmp/out/call1.txt.output.json"
    /\ out_filename "/home/ann/monday/call1.json" "out"
       = "out/call1.json.output.json"
    /\ (forall fuel2 request_id2 (w2 : world) (d2 : gmap string pyval),
           w_fs w2 = w_fs w' ->
           completed_with (get_oracle (w_gets w2) (status_request' request_id2))
                          (PyDict d2) ->
           exists w'',
             poll_loop' (S fuel2) request_id2 file_name out_folder w2
             = (w'', Return tt)
             /\ w_fs w'' !! path = Some (json_dumps (PyDict {[ "response" := PyDict d2 ]}))
             /\ w_fs w'' = <[path := json_dumps (PyDict {[ "response" := PyDict d2 ]})]>
                             (w_fs w)
             /\ (d2 = d -> w_fs w'' = w_fs w')).
Proof.
  intros Hdone Hw path content.
  pose proof (poll_loop_completed_turn APIKEY json_dumps get_oracle writable
                fuel request_id file_name out_folder w d Hdone Hw) as Hrun.
  cbv zeta in Hrun. fold path content in Hrun.
  eexists. split; [exact Hrun|]. cbn [w_fs w_trace].
  split; [reflexivity|].
  split; [apply lookup_insert_eq|].
  split; [intros other Hne; now apply lookup_insert_ne|].
  split; [now rewrite drop_app_length|].
  split; [reflexivity|].
  split.
  { intros Hne Hend. apply PathFacts.join_plain; try assumption.
    apply PathFacts.lacks_output_name, PathFacts.basename_no_slash. }
  split.
  { intros dir name Hname Hfile.
    assert (Hbase : PosixPath.basename file_name = name).
    { destruct Hfile as [-> | ->].
      - now apply PathFacts.basename_under_directory.
      - now apply PathFacts.basename_plain. }
    split; [exact Hbase|]. intros Hne Hend.
    subst path. unfold out_filename. rewrite Hbase.
    apply PathFacts.join_plain; try assumption.
    now apply PathFacts.lacks_output_name. }
  do 3 (split; [reflexivity|]).
  intros fuel2 request_id2 w2 d2 Hfs Hdone2.
  pose proof (poll_loop_completed_turn APIKEY json_dumps get_oracle writable
                fuel2 request_id2 file_name out_folder w2 d2 Hdone2 Hw) as Hrun2.
  cbv zeta in Hrun2. fold path in Hrun2.
  eexists. split; [exact Hrun2|]. cbn [w_fs]. rewrite Hfs.
  split; [apply lookup_insert_eq|].
  split; [apply insert_insert_eq|].
  intros ->. apply insert_insert_eq.
Qed.

End Writer.

(** ** The JSON transcript parser and the request submitter *)

Module ExtFacts.
Import PyString PyStringFacts PosixPath.

Lemma take_drop (n : nat) (s : string) : take n s +:+ drop n s = s.
Proof.
  revert s. induction n as [|n IH]; intros [|c s]; try reflexivity.
  cbn [take drop]. simpl. now rewrite IH.
Qed.

Lemma append_nil_r (s : string) : s +:+ "" = s.
Proof. induction s as [|c s IH]; simpl; [reflexivity | now rewrite IH]. Qed.

Lemma length_append (a b : string) :
  String.length (a +:+ b) = (String.length a + String.length b)%nat.
Proof. induction a as [|c a IH]; simpl; [reflexivity | now rewrite IH]. Qed.

Lemma endswith_app (suf a b : string) :
  (String.length suf <= String.length b)%nat ->
  endswith suf (a +:+ b) = endswith suf b.
Proof.
  intros H. unfold endswith. rewrite length_append.
  replace (String.length a + String.length b - String.length suf)%nat
    with (String.length a + (String.length b - String.length suf))%nat by lia.
  rewrite drop_app. f_equal.
  apply Nat.leb_le in H as Hb. rewrite Hb. apply Nat.leb_le. lia.
Qed.

Lemma splitext_ext_suffix (p : string) : exists a, p = a +:+ snd (splitext p).
Proof.
  unfold splitext. destruct (rfind "." p) as [i|].
  - destruct (_ && _).
    + exists (take i p). cbn [snd]. now rewrite take_drop.
    + exists p. cbn [snd]. now rewrite append_nil_r.
  - exists p. cbn [snd]. now rewrite append_nil_r.
Qed.

(** A path that ends in ".txt" does not have the extension ".json". *)
Lemma txt_not_json (p : string) :
  endswith ".txt" p = true -> String.eqb (snd (splitext p)) ".json" = false.
Proof.
  intros H. destruct (String.eqb_spec (snd (splitext p)) ".json") as [He|]; [|reflexivity].
  destruct (splitext_ext_suffix p) as [a Ha]. rewrite He in Ha.
  rewrite Ha, endswith_app in H; [discriminate | cbn; lia].
Qed.

End ExtFacts.

Section Submitter.

Variable APIKEY : string.
Variable json_loads : string -> result pyval.
Variable post_oracle : request -> result (result pyval).

Local Abbreviation read_json_to_segments' := (read_json_to_segments json_loads).
Local Abbreviation read_segments' := (read_segments json_loads).
Local Abbreviation summary_request' := (summary_request APIKEY).
Local Abbreviation send_request' := (send_request APIKEY json_loads post_oracle).

Import MonadFacts.

Lemma read_json_to_segments_run (path content : string) (w : world) :
  w_fs w !! path = Some content ->
  read_json_to_segments' path w =
    match (document <-? json_loads content;
           output_segments <-? PyVal.getitem document "segments";
           xs <-? PyVal.iter output_segments;
           xs' <-? json_loop xs;
           Ok (match output_segments with
               | PyList _ => PyList xs'
               | other => other
               end)) with
    | Ok v => (w, Return v)
    | Err e => (w, Raise e)
    end.
Proof.
  intros H. unfold read_json_to_segments, bind, open_read. rewrite H.
  destruct (json_loads content) as [document|]; [|reflexivity]. cbn.
  destruct (PyVal.getitem document "segments") as [segs|]; [|reflexivity]. cbn.
  destruct (PyVal.iter segs) as [xs|]; [|reflexivity]. cbn.
  now destruct (json_loop xs).
Qed.

Lemma json_loop_dicts (ds : list (gmap string pyval)) :
  Forall (fun d => is_Some (d !! "speaker_id")) ds ->
  exists out,
    json_loop (PyDict <$> ds) = Ok (PyDict <$> out) /\
    Forall2 (fun d d' : gmap string pyval =>
               exists v, d !! "speaker_id" = Some v /\
                         d' = <["speakerId" := v]> d) ds out.
Proof.
  induction 1 as [|d ds [v Hv] _ (out & Hout & Hall)].
  - exists []. split; [reflexivity | constructor].
  - exists (<["speakerId" := v]> d :: out). split.
    + cbn. rewrite Hv. cbn. fold (fmap (M:=list) PyDict ds). rewrite Hout. reflexivity.
    + constructor; [now exists v | exact Hall].
Qed.

(** C10. [read_json_to_segments] returns the [segments] array of the
    document with [speaker_id] copied to the key [speakerId] on every
    element, the other keys as they were; the sample document yields the
    sample segment; without the key [segments] it fails (with a
    [KeyError]). *)
Theorem C10_read_json_to_segments_copies_speaker_id :
  (forall (path content : string) (w : world)
          (doc : gmap string pyval) (ds : list (gmap string pyval)),
      w_fs w !! path = Some content ->
      json_loads content = Ok (PyDict doc) ->
      doc !! "segments" = Some (PyList (PyDict <$> ds)) ->
      Forall (fun d => is_Some (d !! "speaker_id")) ds ->
      exists out,
        read_json_to_segments' path w = (w, Return (PyList (PyDict <$> out))) /\
        Forall2 (fun d d' : gmap string pyval =>
                   exists v, d !! "speaker_id" = Some v /\
                             d' = <["speakerId" := v]> d /\
                             d' !! "speakerId" = Some v /\
                             forall k : string, k <> "speakerId" -> d' !! k = d !! k)
                ds out)
  /\ (forall (path content : string) (w : world),
         w_fs w !! path = Some content ->
         json_loads content
         = Ok (PyDict {[ "segments" :=
                           PyList [PyDict {[ "speaker_id" := PyStr "0";
                                             "text" := PyStr "hi" ]}] ]}) ->
         read_json_to_segments' path w
         = (w, Return (PyList [PyDict {[ "speaker_id" := PyStr "0";
                                         "text" := PyStr "hi";
                                         "speakerId" := PyStr "0" ]}])))
  /\ (forall (path content : string) (w : world) (doc : gmap string pyval),
         w_fs w !! path = Some content ->
         json_loads content = Ok (PyDict doc) ->
         doc !! "segments" = None ->
         read_json_to_segments' path w = (w, Raise (KeyError "segments"))).
Proof.
  split; [|split].
  - intros path content w doc ds Hfs Hdoc Hsegs Hall.
    destruct (json_loop_dicts ds Hall) as (out & Hout & Hcopy).
    exists out. split.
    + rewrite (read_json_to_segments_run _ _ _ Hfs), Hdoc. cbn.
      rewrite Hsegs. cbn. now rewrite Hout.
    + eapply Forall2_impl; [exact Hcopy|].
      intros d d' (v & Hv & ->). exists v.
      repeat split; [exact Hv | apply lookup_insert_eq |].
      intros k Hk. now apply lookup_insert_ne.
  - intros path content w Hfs Hdoc.
    rewrite (read_json_to_segments_run _ _ _ Hfs), Hdoc.
    vm_compute. reflexivity.
  - intros path content w doc Hfs Hdoc Hnone.
    rewrite (read_json_to_segments_run _ _ _ Hfs), Hdoc. cbn.
    now rewrite Hnone.
Qed.

Implicit Types (w : world) (model : pyval).

(** The world after [send_request] has been entered and the events [more]
    have followed. *)
Local Abbreviation entered path model w more :=
  (World (w_fs w) (w_trace w ++ Call "send_request" [PyStr path; model] :: more)
         (w_gets w)).

Lemma send_request_unfold path model w :
  send_request' path model w =
    try_except
      (segments <~ read_segments' path ;
       response <~ requests_post post_oracle (summary_request' segments model) ;
       response <~ lift response ;
       request_id <~ lift (PyVal.get response "request_id" PyNone) ;
       ret request_id)
      (fun ex => _ <~ print_exn ex ; ret PyNone)
      (entered path model w []).
Proof. reflexivity. Qed.

(** When the parser raises, [send_request] logs the exception and returns
    [None]; nothing is posted. *)
Lemma send_request_parse_fails path model w e :
  read_segments' path (entered path model w []) = (entered path model w [], Raise e) ->
  is_Exception e = true ->
  send_request' path model w = (entered path model w [PrintExn e], Return PyNone).
Proof.
  intros H He. rewrite send_request_unfold. unfold try_except, bind at 1.
  rewrite H, He. unfold bind, print_exn, emit, ret. cbn.
  now rewrite <- app_assoc.
Qed.

(** What [send_request] does once the parser has delivered [segments]. *)
Lemma send_request_posts path model w segments :
  read_segments' path (entered path model w []) = (entered path model w [], Return segments) ->
  let rq := summary_request' segments model in
  send_request' path model w =
    match post_oracle rq with
    | Ok (Ok response) =>
        match PyVal.get response "request_id" PyNone with
        | Ok request_id => (entered path model w [Http rq], Return request_id)
        | Err e =>
            if is_Exception e
            then (entered path model w [Http rq; PrintExn e], Return PyNone)
            else (entered path model w [Http rq], Raise e)
        end
    | Ok (Err e) | Err e =>
        if is_Exception e
        then (entered path model w [Http rq; PrintExn e], Return PyNone)
        else (entered path model w [Http rq], Raise e)
    end.
Proof.
  intros H rq. rewrite send_request_unfold. unfold try_except, bind at 1.
  rewrite H. unfold requests_post, bind, emit, lift. cbn. fold rq.
  rewrite <- app_assoc. cbn.
  destruct (post_oracle rq) as [[response|e]|e]; cbn.
  - destruct (PyVal.get response "request_id" PyNone) as [v|e]; cbn; [reflexivity|].
    destruct (is_Exception e); [|reflexivity].
    unfold print_exn, emit, ret. cbn. now rewrite <- app_assoc.
  - destruct (is_Exception e); [|reflexivity].
    unfold print_exn, emit, ret. cbn. now rewrite <- app_assoc.
  - destruct (is_Exception e); [|reflexivity].
    unfold print_exn, emit, ret. cbn. now rewrite <- app_assoc.
Qed.

(** The parsers read the file system and change nothing. *)
Lemma read_segments_reads path w w' :
  w_fs w' = w_fs w ->
  read_segments' path w' = (w', snd (read_segments' path w))
  /\ fst (read_segments' path w) = w.
Proof.
  intros Hfs.
  unfold read_segments.
  destruct (String.eqb _ _);
    unfold read_json_to_segments, read_text_to_segments, bind, open_read;
    rewrite Hfs; destruct (w_fs w !! path) as [content|];
    try (split; reflexivity).
  - destruct (json_loads content) as [document|]; [|split; reflexivity]. cbn.
    destruct (PyVal.getitem document "segments") as [segs|]; [|split; reflexivity]. cbn.
    destruct (PyVal.iter segs) as [xs|]; [|split; reflexivity]. cbn.
    destruct (json_loop xs); split; reflexivity.
  - destruct (text_loop _ _); split; reflexivity.
Qed.

Lemma read_segments_entered path model w o :
  read_segments' path w = (w, o) ->
  read_segments' path (entered path model w []) = (entered path model w [], o).
Proof.
  intros H. destruct (read_segments_reads path w (entered path model w []) eq_refl)
    as [-> _].
  now rewrite H.
Qed.

Lemma send_request_body_halts path model :
  halts (segments <~ read_segments' path ;
         response <~ requests_post post_oracle (summary_request' segments model) ;
         response <~ lift response ;
         request_id <~ lift (PyVal.get response "request_id" PyNone) ;
         ret request_id).
Proof.
  apply halts_bind.
  - unfold read_segments, read_json_to_segments, read_text_to_segments.
    destruct (String.eqb _ _);
      repeat (apply halts_bind; [|intros ?]);
      auto using halts_ret, halts_lift, halts_open_read.
  - intros segments. unfold requests_post.
    repeat (apply halts_bind; [|intros ?]);
      auto using halts_ret, halts_lift, halts_emit.
Qed.

(** [send_request] never runs out of fuel and lets no [Exception] out. *)
Lemma send_request_catches path model w :
  exists w', (exists v, send_request' path model w = (w', Return v))
             \/ (exists e, send_request' path model w = (w', Raise e)
                           /\ is_Exception e = false).
Proof.
  rewrite send_request_unfold. unfold try_except.
  destruct (bind _ _ _) as [w1 [v|e|]] eqn:Hbody.
  - exists w1. left. now exists v.
  - destruct (is_Exception e) eqn:He.
    + eexists. left. eexists. reflexivity.
    + exists w1. right. now exists e.
  - exfalso. eapply send_request_body_halts. now rewrite Hbody.
Qed.

(** C6. [send_request] returns [None], after logging the exception, when
    the post raises (network, HTTP) and when decoding the answer raises
    (JSON); no [Exception] leaves it, whatever the file and the service do;
    when the answer decodes to a dict, it returns the value of its
    [request_id] key, or [None] without that key. *)
Theorem C6_send_request_returns_none_on_failure :
  (forall path model w segments e,
      read_segments' path w = (w, Return segments) ->
      is_Exception e = true ->
      post_oracle (summary_request' segments model) = Err e
      \/ post_oracle (summary_request' segments model) = Ok (Err e) ->
      send_request' path model w
      = (entered path model w [Http (summary_request' segments model); PrintExn e],
         Return PyNone))
  /\ (forall path model w,
         (forall e, snd (send_request' path model w) = Raise e -> is_Exception e = false)
         /\ snd (send_request' path model w) <> OutOfFuel)
  /\ (forall path model w segments (d : gmap string pyval),
         read_segments' path w = (w, Return segments) ->
         post_oracle (summary_request' segments model) = Ok (Ok (PyDict d)) ->
         send_request' path model w
         = (entered path model w [Http (summary_request' segments model)],
            Return (default PyNone (d !! "request_id")))).
Proof.
  split; [|split].
  - intros path model w segments e Hread He Hpost.
    apply (read_segments_entered _ model) in Hread.
    pose proof (send_request_posts _ _ _ _ Hread) as Hrun. cbv zeta in Hrun.
    rewrite Hrun. destruct Hpost as [-> | ->]; now rewrite He.
  - intros path model w.
    destruct (send_request_catches path model w) as [w' [[v Hv] | (e' & He' & Hex)]].
    + rewrite Hv. split; [intros e [=] | discriminate].
    + rewrite He'. split; [intros e [= <-]; exact Hex | discriminate].
  - intros path model w segments d Hread Hpost.
    apply (read_segments_entered _ model) in Hread.
    pose proof (send_request_posts _ _ _ _ Hread) as Hrun. cbv zeta in Hrun.
    rewrite Hrun, Hpost. cbn. now destruct (d !! "request_id").
Qed.

End Submitter.

(** ** The driver *)

Section Driver.

Variable APIKEY : string.
Variable json_loads : string -> result pyval.
Variable json_dumps : pyval -> string.
Variable post_oracle : request -> result (result pyval).
Variable get_oracle : nat -> request -> result (result pyval).
Variable writable : string -> bool.

Local Abbreviation send_request' := (send_request APIKEY json_loads post_oracle).
Local Abbreviation poll_loop' := (poll_loop APIKEY json_dumps get_oracle writable).
Local Abbreviation process_summary_request' :=
  (process_summary_request APIKEY json_loads json_dumps post_oracle get_oracle writable).

Lemma read_text_malformed (path content : string) (w : world) :
  w_fs w !! path = Some content ->
  (exists line, In line (PyString.file_lines content) /\ malformed_line line) ->
  read_text_to_segments path w = (w, Raise IndexError).
Proof.
  intros Hfs Hbad. rewrite (TextParser.read_text_to_segments_run _ _ _ Hfs).
  now rewrite (TextFacts.text_loop_malformed _ [] Hbad).
Qed.

(** C4, as the code has it.  A non-blank line without separator in a
    ".txt" file makes [read_text_to_segments] raise an [IndexError]; the
    handler of [send_request] catches it, logs it and returns [None]
    without posting; [process_summary_request] goes on into the polling
    loop with the request id [None]. *)
Theorem C4_malformed_line_caught_by_send_request
        (path content : string) (model : pyval) (w : world) :
  PyString.endswith ".txt" path = true ->
  w_fs w !! path = Some content ->
  (exists line, In line (PyString.file_lines content) /\ malformed_line line) ->
  read_text_to_segments path w = (w, Raise IndexError)
  /\ send_request' path model w
     = (World (w_fs w)
              (w_trace w ++ [Call "send_request" [PyStr path; model];
                             PrintExn IndexError])
              (w_gets w),
        Return PyNone)
  /\ (forall fuel out_folder,
         process_summary_request' fuel path out_folder model w
         = poll_loop' fuel PyNone path out_folder
             (World (w_fs w)
                    (w_trace w ++ [Call "process_summary_request"
                                        [PyStr path; PyStr out_folder; model];
                                   Print "Processing file : {}" [PyStr path];
                                   Call "send_request" [PyStr path; model];
                                   PrintExn IndexError])
                    (w_gets w))).
Proof.
  intros Htxt Hfs Hbad.
  assert (Hsend : forall w0, w_fs w0 = w_fs w ->
            send_request' path model w0
            = (World (w_fs w0)
                     (w_trace w0 ++ [Call "send_request" [PyStr path; model];
                                     PrintExn IndexError])
                     (w_gets w0),
               Return PyNone)).
  { intros w0 Hw0. apply send_request_parse_fails; [|reflexivity].
    unfold read_segments. rewrite (ExtFacts.txt_not_json _ Htxt).
    apply (read_text_malformed _ content); [|exact Hbad]. cbn [w_fs]. now rewrite Hw0. }
  split; [now apply (read_text_malformed _ content)|].
  split; [now apply Hsend|].
  intros fuel out_folder. unfold process_summary_request, bind at 1 2, print, emit.
  cbn. unfold bind at 1. rewrite Hsend; [|reflexivity]. cbn.
  now rewrite <- !app_assoc.
Qed.

End Driver.

(** ** The argument parser *)

Module GetoptFacts.
Import PyString PyStringFacts Getopt.

Lemma short_has_arg_main (c : ascii) (b : bool) :
  short_has_arg c main_shortopts = Ok b ->
  (c = "i"%char \/ c = "o"%char) /\ b = true.
Proof.
  destruct c as [[] [] [] [] [] [] [] []]; vm_compute; intros [=]; subst; auto.
Qed.

Lemma short_has_arg_error (c : ascii) (e : exn) (shortopts : string) :
  short_has_arg c shortopts = Err e -> is_getopt_error e = true.
Proof.
  induction shortopts as [|d rest IH]; cbn [short_has_arg].
  - now intros [= <-].
  - destruct (_ && _); [discriminate | exact IH].
Qed.

Lemma known_snoc (opts : optlist) (name arg : string) :
  Forall (fun oa => known_option oa = true) opts ->
  known_option (name, arg) = true ->
  Forall (fun oa => known_option oa = true) (opts ++ [(name, arg)]).
Proof. intros H1 H2. apply Forall_app. split; [exact H1 | now constructor]. Qed.

Lemma do_shorts_main (optstring : string) (opts : optlist) (args : list string) r :
  Forall (fun oa => known_option oa = true) opts ->
  do_shorts opts optstring main_shortopts args = r ->
  match r with
  | Ok (opts', args') =>
      Forall (fun oa => known_option oa = true) opts'
      /\ (length args' <= length args)%nat
  | Err e => is_getopt_error e = true
  end.
Proof.
  revert opts. induction optstring as [|c optstring IH]; intros opts Hk <-.
  - cbn. split; [exact Hk | lia].
  - cbn [do_shorts]. destruct (short_has_arg c main_shortopts) as [b|e] eqn:Hc.
    + apply short_has_arg_main in Hc as [Hc ->]. cbn [rbind].
      assert (known_option ("-" +:+ String c "", "") = true) as Hname.
      { destruct Hc as [-> | ->]; reflexivity. }
      destruct (String.eqb optstring "").
      * destruct args as [|optarg args]; [reflexivity|].
        split; [now apply known_snoc | cbn; lia].
      * split; [now apply known_snoc | lia].
    + cbn [rbind]. eapply short_has_arg_error, Hc.
Qed.

Lemma find_char_lacks (c : ascii) (s : string) :
  match find (String c "") s with
  | None => lacks c s = true
  | Some i => lacks c (take i s) = true
  end.
Proof.
  induction s as [|d s IH]; [reflexivity|].
  cbn [find startswith]. destruct (Ascii.eqb c d) eqn:Hd.
  - destruct s; reflexivity.
  - rewrite andb_false_l. destruct (find (String c "") s) as [i|]; cbn.
    + now rewrite Hd, IH.
    + now rewrite Hd, IH.
Qed.

Lemma append_eq_inv (a b : string) : a +:+ "=" = b +:+ "=" -> lacks "=" a = true -> a = b.
Proof.
  revert b. induction a as [|c a IH]; intros [|d b]; cbn; intros H Ha.
  - reflexivity.
  - injection H as <- H. destruct b; discriminate.
  - injection H as -> H. apply andb_true_iff in Ha as [Ha _].
    now rewrite Ascii.eqb_refl in Ha.
  - injection H as -> H. apply andb_true_iff in Ha as [_ Ha].
    f_equal. now apply IH.
Qed.

Lemma lacks_not_registered (opt : string) :
  lacks "=" opt = true ->
  String.eqb opt "input_file_path=" = false
  /\ String.eqb opt "output_folder=" = false.
Proof.
  intros H. split; apply String.eqb_neq; intros ->; discriminate.
Qed.

Lemma long_has_args_main (opt : string) r :
  lacks "=" opt = true ->
  long_has_args opt main_longopts = r ->
  match r with
  | Ok (has_arg, name) =>
      has_arg = true /\ (name = "input_file_path" \/ name = "output_folder")
  | Err e => is_getopt_error e = true
  end.
Proof.
  intros Hl <-. destruct (lacks_not_registered _ Hl) as [Hi Ho].
  unfold long_has_args, main_longopts. cbn [List.filter].
  assert (Hin : String.eqb (opt +:+ "=") "input_file_path=" = true ->
                opt = "input_file_path").
  { intros He. apply String.eqb_eq in He.
    now apply (append_eq_inv opt "input_file_path"). }
  assert (Hout : String.eqb (opt +:+ "=") "output_folder=" = true ->
                 opt = "output_folder").
  { intros He. apply String.eqb_eq in He.
    now apply (append_eq_inv opt "output_folder"). }
  destruct (startswith opt "input_file_path=");
    destruct (startswith opt "output_folder=");
    cbn [existsb]; rewrite ?Hi, ?Ho; cbn [orb]; rewrite ?orb_false_r;
    try reflexivity;
    destruct (String.eqb (opt +:+ "=") "input_file_path=");
    try destruct (String.eqb (opt +:+ "=") "output_folder=");
    cbn [orb]; try reflexivity;
    try (split; [reflexivity | now (left + right); (apply Hin + apply Hout)]);
    vm_compute; auto.
Qed.

Lemma do_longs_main (opt : string) (opts : optlist) (args : list string) r :
  Forall (fun oa => known_option oa = true) opts ->
  do_longs opts opt main_longopts args = r ->
  match r with
  | Ok (opts', args') =>
      Forall (fun oa => known_option oa = true) opts'
      /\ (length args' <= length args)%nat
  | Err e => is_getopt_error e = true
  end.
Proof.
  intros Hk <-. unfold do_longs.
  pose proof (find_char_lacks "=" opt) as Hl.
  destruct (find "=" opt) as [i|];
    (match goal with
     | |- context [long_has_args ?o main_longopts] =>
         pose proof (long_has_args_main o _ Hl eq_refl) as Hlong;
         destruct (long_has_args o main_longopts) as [[has_arg name]|e]
     end; cbn [rbind]; [|exact Hlong]);
    destruct Hlong as [-> Hname];
    assert (forall arg, known_option ("--" +:+ name, arg) = true) as Hknown
      by (intros arg; destruct Hname as [-> | ->]; reflexivity).
  - split; [now apply known_snoc | lia].
  - destruct args as [|optarg args]; [reflexivity|].
    split; [now apply known_snoc | cbn; lia].
Qed.

(** With enough fuel the loop of [getopt] ends; it ends with an error of
    [getopt] or with options the option loop knows. *)
Lemma getopt_loop_main (fuel : nat) (opts : optlist) (args : list string) :
  (length args <= fuel)%nat ->
  Forall (fun oa => known_option oa = true) opts ->
  (exists e, getopt_loop fuel opts args main_shortopts main_longopts = Some (Err e)
             /\ is_getopt_error e = true)
  \/ (exists opts' args',
         getopt_loop fuel opts args main_shortopts main_longopts
         = Some (Ok (opts', args'))
         /\ Forall (fun oa => known_option oa = true) opts').
Proof.
  revert opts args. induction fuel as [|fuel IH]; intros opts args Hlen Hk.
  - destruct args; [|cbn in Hlen; lia]. right. now exists opts, [].
  - destruct args as [|arg0 rest]; [right; now exists opts, []|].
    cbn [getopt_loop]. destruct (_ && _); [|right; now exists opts, (arg0 :: rest)].
    destruct (String.eqb arg0 "--"); [right; now exists opts, rest|].
    cbn in Hlen.
    destruct (startswith "--" arg0).
    + pose proof (do_longs_main (drop 2 arg0) opts rest _ Hk eq_refl) as Hstep.
      destruct (do_longs _ _ _ _) as [[opts1 args1]|e].
      * destruct Hstep as [Hk1 Hlen1]. apply IH; [lia | exact Hk1].
      * left. now exists e.
    + pose proof (do_shorts_main (drop 1 arg0) opts rest _ Hk eq_refl) as Hstep.
      destruct (do_shorts _ _ _ _) as [[opts1 args1]|e].
      * destruct Hstep as [Hk1 Hlen1]. apply IH; [lia | exact Hk1].
      * left. now exists e.
Qed.

Lemma getopt_main (args : list string) :
  (exists msg opt, getopt args main_shortopts main_longopts
                   = Some (Err (GetoptError msg opt)))
  \/ (exists opts args',
         getopt args main_shortopts main_longopts = Some (Ok (opts, args'))
         /\ Forall (fun oa => known_option oa = true) opts).
Proof.
  unfold getopt.
  destruct (getopt_loop_main (length args) [] args (le_n _) ltac:(constructor))
    as [(e & He & Hg) | H]; [left | right; exact H].
  destruct e; try discriminate. eauto.
Qed.

(** A first word [-m...] is refused. *)
Lemma getopt_short_m (s : string) (rest : list string) :
  getopt (("-m" +:+ s) :: rest) main_shortopts main_longopts
  = Some (Err (GetoptError "option -m not recognized" "m")).
Proof. reflexivity. Qed.

(** A first word [--m...], so [--model] and [--model=...], is refused. *)
Lemma getopt_long_m (s : string) (rest : list string) :
  exists msg opt,
    getopt (("--m" +:+ s) :: rest) main_shortopts main_longopts
    = Some (Err (GetoptError msg opt)).
Proof.
  unfold getopt. cbn [length getopt_loop].
  change (startswith "-" ("--m" +:+ s)) with true.
  change (String.eqb ("--m" +:+ s) "-") with false.
  change (String.eqb ("--m" +:+ s) "--") with false.
  change (startswith "--" ("--m" +:+ s)) with true.
  change (drop 2 ("--m" +:+ s)) with (String "m" s).
  cbn [andb negb]. unfold do_longs.
  change (find "=" (String "m" s)) with (option_map S (find "=" s)).
  destruct (find "=" s) as [i|]; cbn [option_map take];
    unfold long_has_args; cbn; eauto.
Qed.

Lemma known_option_cases (oa : string * string) :
  known_option oa = true ->
  str_in (fst oa) ["-i"; "--input_file_path"] = true
  \/ (str_in (fst oa) ["-i"; "--input_file_path"] = false
      /\ str_in (fst oa) ["-o"; "--output_folder"] = true).
Proof.
  destruct oa as [name arg]. unfold known_option, str_in. cbn [fst existsb].
  rewrite !orb_false_r, !orb_true_iff, !String.eqb_eq.
  intros [-> | [-> | [-> | ->]]]; auto.
Qed.

(** The option loop never assigns [model]. *)
Lemma scan_options_model (opts : optlist) (o : options) :
  Forall (fun oa => known_option oa = true) opts ->
  model (fold_left set_option opts o) = model o.
Proof.
  intros H. revert o. induction H as [|[name arg] opts Hk _ IH]; intros o.
  - reflexivity.
  - cbn [fold_left]. rewrite IH. unfold set_option.
    destruct (known_option_cases _ Hk) as [H1 | [H1 H2]]; cbn [fst] in *.
    + now rewrite H1.
    + now rewrite H1, H2.
Qed.

End GetoptFacts.

(** ** The main block *)

Section Main.

Variable APIKEY : string.
Variable json_loads : string -> result pyval.
Variable json_dumps : pyval -> string.
Variable post_oracle : request -> result (result pyval).
Variable get_oracle : nat -> request -> result (result pyval).
Variable isdir : string -> bool.
Variable writable : string -> bool.

Local Abbreviation main_block' :=
  (main_block APIKEY json_loads json_dumps post_oracle get_oracle isdir writable).
Local Abbreviation call_process_summary_request' :=
  (call_process_summary_request APIKEY json_loads json_dumps post_oracle get_oracle
                                writable).

(** The world after the messages [more] have been printed. *)
Local Abbreviation printed w more := (World (w_fs w) (w_trace w ++ more) (w_gets w)).

Lemma usage_run (argv0 : string) (w : world) :
  exists more,
    usage argv0 w = (printed w more, Return tt)
    /\ Forall (fun e => is_print e = true) more
    /\ In (Print "-m --model=              [default: iamus]. Must be iamus or cassandra" [])
          more.
Proof.
  eexists. unfold usage, bind, print, emit. cbn. rewrite <- !app_assoc. cbn.
  split; [reflexivity|]. split; [repeat constructor | cbn; auto 10].
Qed.

(** With [model] still [None] the checks end in [sys.exit(2)]. *)
Lemma validate_run (argv0 : string) (o : options) (w : world) :
  model o = None ->
  exists more,
    validate isdir argv0 o w = (printed w more, Raise (SystemExit 2))
    /\ Forall (fun e => is_print e = true) more.
Proof.
  intros Hm. unfold validate.
  destruct (_ || _).
  - destruct (usage_run argv0 w) as (more & Hu & Hp & _).
    exists more. unfold bind. now rewrite Hu.
  - destruct (negb _).
    + eexists. unfold bind, print, emit. cbn. split; [reflexivity | repeat constructor].
    + rewrite Hm. cbn [model_not_in].
      eexists. unfold bind, print, emit. cbn. split; [reflexivity | repeat constructor].
Qed.

(** Every run of the main block prints and exits: with status 0 when the
    key guard fires, with status 2 otherwise. *)
Lemma main_block_run (fuel : nat) (argv0 : string) (args : list string) (w : world) :
  exists more,
    main_block' fuel argv0 args w
    = (printed w more,
       Raise (SystemExit (if PyString.contains APIKEY "YOUR_API_KEY" then 0 else 2)))
    /\ Forall (fun e => is_print e = true) more.
Proof.
  unfold main_block. destruct (PyString.contains APIKEY "YOUR_API_KEY").
  - eexists. unfold bind, print, emit. cbn. split; [reflexivity | repeat constructor].
  - destruct (GetoptFacts.getopt_main args)
      as [(msg & opt & ->) | (opts & rest & -> & Hk)].
    + destruct args as [|arg1 args].
      * exists []. unfold bind, ret. cbn. rewrite app_nil_r.
        split; [now destruct w | constructor].
      * destruct (negb _).
        -- eexists. unfold bind, print, emit. cbn. rewrite <- app_assoc.
           split; [reflexivity | repeat constructor].
        -- destruct (usage_run argv0 w) as (more & Hu & Hp & _).
           exists more. unfold bind. now rewrite Hu.
    + destruct (validate_run argv0 (scan_options opts) w) as (more & Hv & Hp).
      { unfold scan_options. now rewrite GetoptFacts.scan_options_model. }
      exists more. unfold bind. now rewrite Hv.
Qed.

Lemma prints_are_silent (more : list event) :
  Forall (fun e => is_print e = true) more ->
  Forall (fun e => is_call e = false /\ is_http e = false /\ is_write e = false) more.
Proof. intros H. eapply Forall_impl; [exact H|]. now intros []. Qed.

Lemma call_with_two_arguments (fuel : nat) (a b : pyval) (w : world) :
  call_process_summary_request' fuel [a; b] w
  = (w, Raise (TypeError "process_summary_request() missing 1 required positional argument: 'model'")).
Proof. destruct a, b; reflexivity. Qed.

(** C1. When the key guard does not fire, the main block ends with exit
    status 2 for every argument vector, having only printed: no call of
    [process_summary_request], no request, no write.  A first word
    [-m...] or [--model...] is refused by [getopt]; otherwise [getopt] fails
    or delivers options that leave [model] at [None], which the membership
    check rejects.  The final call, with its two arguments, would raise a
    [TypeError]. *)
Theorem C1_main_block_exits_2_before_any_call
        (fuel : nat) (argv0 : string) (args : list string) (w : world) :
  PyString.contains APIKEY "YOUR_API_KEY" = false ->
  (exists more,
      main_block' fuel argv0 args w = (printed w more, Raise (SystemExit 2))
      /\ exit_status (snd (main_block' fuel argv0 args w)) = Some 2%Z
      /\ Forall (fun e => is_call e = false /\ is_http e = false /\ is_write e = false)
                more)
  /\ ((exists msg opt, Getopt.getopt args main_shortopts main_longopts
                       = Some (Err (GetoptError msg opt)))
      \/ (exists opts rest,
             Getopt.getopt args main_shortopts main_longopts = Some (Ok (opts, rest))
             /\ model (scan_options opts) = None
             /\ model_not_in (model (scan_options opts)) = true))
  /\ (forall s rest,
         exists msg opt,
           Getopt.getopt (("-m" +:+ s) :: rest) main_shortopts main_longopts
           = Some (Err (GetoptError msg opt)))
  /\ (forall s rest,
         exists msg opt,
           Getopt.getopt (("--model" +:+ s) :: rest) main_shortopts main_longopts
           = Some (Err (GetoptError msg opt)))
  /\ (forall a b w0,
         call_process_summary_request' fuel [a; b] w0
         = (w0, Raise (TypeError "process_summary_request() missing 1 required positional argument: 'model'"))).
Proof.
  intros Hkey. split; [|split; [|split; [|split]]].
  - destruct (main_block_run fuel argv0 args w) as (more & Hrun & Hp).
    rewrite Hkey in Hrun. exists more. rewrite Hrun.
    split; [reflexivity|]. split; [reflexivity | now apply prints_are_silent].
  - destruct (GetoptFacts.getopt_main args) as [H | (opts & rest & H & Hk)].
    + left. exact H.
    + right. exists opts, rest. split; [exact H|].
      unfold scan_options. rewrite GetoptFacts.scan_options_model; [|exact Hk].
      split; reflexivity.
  - intros s rest. eexists _, _. apply GetoptFacts.getopt_short_m.
  - intros s rest. apply (GetoptFacts.getopt_long_m ("odel" +:+ s)).
  - apply call_with_two_arguments.
Qed.

(** C2, as the code has it.  The usage text advertises [-m --model=]; the
    option strings given to [getopt] register neither [m] nor [model], so
    every option [getopt] delivers is one of the input and output options
    and [model] keeps its default [None]; that [None] is never passed on:
    no run of the main block enters [process_summary_request] or
    [send_request], and the final call hands over the input path and the
    output folder only. *)
Theorem C2_model_advertised_not_registered_never_passed :
  (forall argv0 w,
      In (Print "-m --model=              [default: iamus]. Must be iamus or cassandra" [])
         (w_trace (fst (usage argv0 w))))
  /\ PyString.contains "m" main_shortopts = false
  /\ List.filter (fun o => PyString.startswith "m" o) main_longopts = []
  /\ (forall args opts rest,
         Getopt.getopt args main_shortopts main_longopts = Some (Ok (opts, rest)) ->
         Forall (fun oa => known_option oa = true) opts
         /\ model (scan_options opts) = None)
  /\ (forall fuel argv0 args w,
         exists more,
           w_trace (fst (main_block' fuel argv0 args w)) = w_trace w ++ more
           /\ Forall (fun e => is_call e = false) more)
  /\ (forall fuel a b w,
         exists e, call_process_summary_request' fuel [a; b] w = (w, Raise e)).
Proof.
  split; [|split; [|split; [|split; [|split]]]].
  - intros argv0 w. destruct (usage_run argv0 w) as (more & -> & _ & Hin).
    cbn. apply in_or_app. now right.
  - reflexivity.
  - reflexivity.
  - intros args opts rest H.
    destruct (GetoptFacts.getopt_main args) as [(msg & opt & H') | (opts' & rest' & H' & Hk)];
      rewrite H' in H; [discriminate|].
    injection H as <- <-. split; [exact Hk|].
    unfold scan_options. now rewrite GetoptFacts.scan_options_model.
  - intros fuel argv0 args w.
    destruct (main_block_run fuel argv0 args w) as (more & -> & Hp).
    exists more. split; [reflexivity|].
    eapply Forall_impl; [exact Hp|]. now intros [] H.
  - intros fuel a b w. eexists. apply call_with_two_arguments.
Qed.

End Main.

(** ** The properties on the sample installation *)

Module Instances.
Import PyString.

(** C1 on the sample installation: input and output given, model left
    out. *)
Lemma C1_witness :
  contains Sample.apikey "YOUR_API_KEY" = false
  /\ exists more,
       main_block Sample.apikey Sample.json_loads Sample.json_dumps
                  Sample.post_oracle Sample.get_oracle Sample.isdir Sample.writable
                  5 "deepaffects_summary_api.py"
                  ["-i"; "calls/call1.txt"; "-o"; "/tmp/out"] Sample.world0
       = (World (w_fs Sample.world0) (w_trace Sample.world0 ++ more)
                (w_gets Sample.world0),
          Raise (SystemExit 2)).
Proof.
  split; [reflexivity|].
  destruct (C1_main_block_exits_2_before_any_call
              Sample.apikey Sample.json_loads Sample.json_dumps
              Sample.post_oracle Sample.get_oracle Sample.isdir Sample.writable
              5 "deepaffects_summary_api.py"
              ["-i"; "calls/call1.txt"; "-o"; "/tmp/out"] Sample.world0 eq_refl)
    as [(more & Hrun & _) _].
  exists more. exact Hrun.
Defined.

(** The claim C2 as it is stated fails: in no run of the main block is
    [None] passed to a function. *)
Lemma C2_counterexample :
  ~ (exists APIKEY json_loads json_dumps post_oracle get_oracle isdir writable
            fuel argv0 args fs,
        Exists (fun e => passes_none e = true)
               (w_trace (fst (main_block APIKEY json_loads json_dumps post_oracle
                                         get_oracle isdir writable fuel argv0 args
                                         (initial_world fs))))).
Proof.
  intros (APIKEY & json_loads & json_dumps & post_oracle & get_oracle & isdir
          & writable & fuel & argv0 & args & fs & H).
  destruct (main_block_run APIKEY json_loads json_dumps post_oracle get_oracle
                           isdir writable fuel argv0 args (initial_world fs))
    as (more & Hrun & Hp).
  rewrite Hrun in H. cbn in H.
  apply Exists_exists in H as (e & Hin & He).
  rewrite Forall_forall in Hp. specialize (Hp e Hin).
  destruct e; discriminate.
Qed.

(** C2 on the sample installation: the options [getopt] delivers for an
    input and an output option leave [model] at [None]. *)
Lemma C2_witness :
  Getopt.getopt ["-i"; "calls/call1.txt"; "--output_folder=/tmp/out"]
                main_shortopts main_longopts
  = Some (Ok ([("-i", "calls/call1.txt"); ("--output_folder", "/tmp/out")], []))
  /\ model (scan_options [("-i", "calls/call1.txt"); ("--output_folder", "/tmp/out")])
     = None.
Proof.
  split; [reflexivity|].
  destruct (C2_model_advertised_not_registered_never_passed
              Sample.apikey Sample.json_loads Sample.json_dumps
              Sample.post_oracle Sample.get_oracle Sample.isdir Sample.writable)
    as (_ & _ & _ & Hopts & _).
  exact (proj2 (Hopts ["-i"; "calls/call1.txt"; "--output_folder=/tmp/out"]
                      [("-i", "calls/call1.txt"); ("--output_folder", "/tmp/out")]
                      [] eq_refl)).
Defined.

(** C3 where it fails: the status service cannot be reached. *)
Lemma C3_witness :
  Sample.get_down (w_gets Sample.world0) (status_request Sample.apikey (PyStr "req-1"))
  = Err RequestException
  /\ get_response Sample.apikey Sample.get_down (PyStr "req-1") Sample.world0
     = (after_get (status_request Sample.apikey (PyStr "req-1")) Sample.world0 [],
        Raise RequestException).
Proof.
  split; [reflexivity|].
  exact (proj1 (C3_get_response_call_exception_propagates
                  Sample.apikey Sample.get_down (PyStr "req-1") Sample.world0
                  RequestException eq_refl)).
Defined.

Lemma bad_transcript_line :
  exists line, In line (file_lines "hello") /\ malformed_line line.
Proof. exists "hello". split; [now left | split; reflexivity]. Defined.

Lemma sample_lookup_bad : w_fs Sample.world0 !! "calls/bad.txt" = Some "hello".
Proof. vm_compute. reflexivity. Defined.

(** The claim C4 as it is stated fails: the [IndexError] of the malformed
    line does not leave [process_summary_request]. *)
Lemma C4_counterexample :
  ~ (forall APIKEY json_loads json_dumps post_oracle get_oracle writable
            fuel path out_folder model_value content (w : world),
        endswith ".txt" path = true ->
        w_fs w !! path = Some content ->
        (exists line, In line (file_lines content) /\ malformed_line line) ->
        snd (process_summary_request APIKEY json_loads json_dumps post_oracle
                                     get_oracle writable fuel path out_folder
                                     model_value w)
        = Raise IndexError).
Proof.
  intros H.
  specialize (H Sample.apikey Sample.json_loads Sample.json_dumps Sample.post_oracle
                Sample.get_errored Sample.writable 3%nat "calls/bad.txt" "/tmp/out"
                (PyStr "iamus") "hello" Sample.world0
                eq_refl sample_lookup_bad bad_transcript_line).
  vm_compute in H. discriminate.
Qed.

(** C4 as the code has it, on the sample file with the line [hello]. *)
Lemma C4_witness :
  endswith ".txt" "calls/bad.txt" = true
  /\ w_fs Sample.world0 !! "calls/bad.txt" = Some "hello"
  /\ send_request Sample.apikey Sample.json_loads Sample.post_oracle
                  "calls/bad.txt" (PyStr "iamus") Sample.world0
     = (World (w_fs Sample.world0)
              (w_trace Sample.world0
               ++ [Call "send_request" [PyStr "calls/bad.txt"; PyStr "iamus"];
                   PrintExn IndexError])
              (w_gets Sample.world0),
        Return PyNone).
Proof.
  split; [reflexivity|]. split; [exact sample_lookup_bad|].
  exact (proj1 (proj2 (C4_malformed_line_caught_by_send_request
                         Sample.apikey Sample.json_loads Sample.json_dumps
                         Sample.post_oracle Sample.get_errored Sample.writable
                         "calls/bad.txt" "hello" (PyStr "iamus") Sample.world0
                         eq_refl sample_lookup_bad bad_transcript_line))).
Defined.

Lemma sample_lookup_transcript :
  w_fs Sample.world0 !! "calls/call1.txt" = Some Sample.transcript.
Proof. vm_compute. reflexivity. Defined.

Lemma sample_transcript_well_formed :
  Forall well_formed_line (file_lines Sample.transcript).
Proof.
  let lines := eval vm_compute in (file_lines Sample.transcript) in
  change (file_lines Sample.transcript) with lines.
  repeat constructor; intros Hnb; vm_compute in Hnb |- *;
    first [reflexivity | discriminate].
Defined.

(** C5 on the sample transcript: three lines, the second of them blank,
    give the two segments of the two utterances, in the order of the
    lines. *)
Lemma C5_witness :
  w_fs Sample.world0 !! "calls/call1.txt"
  = Some (unlines ["speaker_3 : 00:00:01.0 - 00:00:02.0 : hello world"; "";
                   "speaker_1 : hi there"])
  /\ Forall (fun line => one_line line = true)
            ["speaker_3 : 00:00:01.0 - 00:00:02.0 : hello world"; "";
             "speaker_1 : hi there"]
  /\ Forall2 utters
             (List.filter nonblank
                ["speaker_3 : 00:00:01.0 - 00:00:02.0 : hello world"; "";
                 "speaker_1 : hi there"])
             [("3", Some "00:00:01.0 - 00:00:02.0", "hello world");
              ("1", None, "hi there")]
  /\ read_text_to_segments "calls/call1.txt" Sample.world0
     = (Sample.world0,
        Return (PyList [PyDict {[ "speakerId" := PyStr "3"; "text" := PyStr "hello world" ]};
                        PyDict {[ "speakerId" := PyStr "1"; "text" := PyStr "hi there" ]}])).
Proof.
  assert (Hlines : Forall (fun line => one_line line = true)
                          ["speaker_3 : 00:00:01.0 - 00:00:02.0 : hello world"; "";
                           "speaker_1 : hi there"]).
  { repeat constructor. }
  assert (Hus : Forall2 utters
                  (List.filter nonblank
                     ["speaker_3 : 00:00:01.0 - 00:00:02.0 : hello world"; "";
                      "speaker_1 : hi there"])
                  [("3", Some "00:00:01.0 - 00:00:02.0", "hello world");
                   ("1", None, "hi there")]).
  { change (List.filter nonblank
              ["speaker_3 : 00:00:01.0 - 00:00:02.0 : hello world"; "";
               "speaker_1 : hi there"])
      with ["speaker_3 : 00:00:01.0 - 00:00:02.0 : hello world"; "speaker_1 : hi there"].
    repeat constructor. }
  split; [exact sample_lookup_transcript|].
  split; [exact Hlines|].
  split; [exact Hus|].
  destruct TextParser.C5_read_text_to_segments_per_line
    as (_ & _ & _ & Hfile & _).
  exact (Hfile "calls/call1.txt"
               ["speaker_3 : 00:00:01.0 - 00:00:02.0 : hello world"; "";
                "speaker_1 : hi there"]
               _ Sample.world0 sample_lookup_transcript Hlines Hus).
Defined.

(** The claim C5 as it is stated fails on a text that holds a separator:
    of the line [speaker_1 : note: hi there] the parser keeps [hi there]
    only. *)
Lemma C5_counterexample :
  ~ (forall (path L text : string) (w : world),
        lacks ":" L = true -> rstrip L = L ->
        nonblank text = true -> strip text = text -> one_line text = true ->
        w_fs w !! path = Some ("speaker_" +:+ L +:+ " : " +:+ text) ->
        read_text_to_segments path w
        = (w, Return (PyList [PyDict {[ "speakerId" := PyStr L; "text" := PyStr text ]}]))).
Proof.
  intros H.
  specialize (H "calls/note.txt" "1" "note: hi there"
                (initial_world {[ "calls/note.txt" := "speaker_1 : note: hi there" ]})
                eq_refl eq_refl eq_refl eq_refl eq_refl eq_refl).
  apply (f_equal snd) in H. vm_compute in H. discriminate.
Qed.

Lemma sample_read_segments :
  exists segments,
    read_segments Sample.json_loads "calls/call1.txt" Sample.world0
    = (Sample.world0, Return segments).
Proof. eexists. vm_compute. reflexivity. Defined.

(** C6 on the sample installation with a service that cannot be reached. *)
Lemma C6_witness :
  is_Exception RequestException = true
  /\ exists segments,
       read_segments Sample.json_loads "calls/call1.txt" Sample.world0
       = (Sample.world0, Return segments)
       /\ Sample.post_down (summary_request Sample.apikey segments (PyStr "iamus"))
       = Err RequestException
       /\ send_request Sample.apikey Sample.json_loads Sample.post_down
                       "calls/call1.txt" (PyStr "iamus") Sample.world0
          = (World (w_fs Sample.world0)
                   (w_trace Sample.world0
                    ++ [Call "send_request" [PyStr "calls/call1.txt"; PyStr "iamus"];
                        Http (summary_request Sample.apikey segments (PyStr "iamus"));
                        PrintExn RequestException])
                   (w_gets Sample.world0),
             Return PyNone).
Proof.
  split; [reflexivity|].
  destruct sample_read_segments as [segments Hread].
  exists segments. split; [exact Hread|]. split; [reflexivity|].
  exact (proj1 (C6_send_request_returns_none_on_failure
                  Sample.apikey Sample.json_loads Sample.post_down)
               "calls/call1.txt" (PyStr "iamus") Sample.world0 segments
               RequestException Hread eq_refl (or_introl eq_refl)).
Defined.

Lemma sample_in_progress (request_id : pyval) (i : nat) :
  (i < 2)%nat ->
  in_progress (Sample.get_oracle (w_gets Sample.world0 + i)
                                 (status_request Sample.apikey request_id)) = true.
Proof.
  intros Hi. destruct i as [|[|i]]; [reflexivity | reflexivity | lia].
Defined.

Lemma sample_completed (request_id : pyval) (n : nat) :
  (2 <= n)%nat ->
  completed_with (Sample.get_oracle n (status_request Sample.apikey request_id))
                 (PyDict Sample.summary).
Proof.
  intros Hn. unfold Sample.get_oracle.
  apply Nat.ltb_ge in Hn. rewrite Hn.
  eexists _, _. split; [reflexivity|].
  split; [vm_compute; reflexivity|].
  repeat split; vm_compute; reflexivity.
Defined.

Lemma sample_writable :
  Sample.writable (out_filename "calls/call1.txt" "/tmp/out") = true.
Proof. reflexivity. Defined.

(** C7 on the sample service: in progress, in progress, completed. *)
Lemma C7_witness :
  (forall i, (i < 2)%nat ->
     in_progress (Sample.get_oracle (w_gets Sample.world0 + i)
                    (status_request Sample.apikey (PyStr "req-1"))) = true)
  /\ completed_with (Sample.get_oracle (w_gets Sample.world0 + 2)
                       (status_request Sample.apikey (PyStr "req-1")))
                    (PyDict Sample.summary)
  /\ Sample.writable (out_filename "calls/call1.txt" "/tmp/out") = true
  /\ List.filter is_write
       (progress_trace (status_request Sample.apikey (PyStr "req-1")) 2
        ++ completed_turn (status_request Sample.apikey (PyStr "req-1"))
             "calls/call1.txt" (out_filename "calls/call1.txt" "/tmp/out")
             (Sample.json_dumps (PyDict {[ "response" := PyDict Sample.summary ]})))
     = [FileWrite (out_filename "calls/call1.txt" "/tmp/out")
                  (Sample.json_dumps (PyDict {[ "response" := PyDict Sample.summary ]}))].
Proof.
  split; [apply sample_in_progress|].
  split; [apply sample_completed; cbn; lia|].
  split; [exact sample_writable|].
  exact (proj1 (proj2 (proj1 (C7_poll_loop_writes_once_after_completed
                                Sample.apikey Sample.json_dumps Sample.get_oracle
                                Sample.writable)
                             2%nat 0%nat (PyStr "req-1") "calls/call1.txt" "/tmp/out"
                             Sample.world0 Sample.summary
                             (sample_in_progress (PyStr "req-1"))
                             (sample_completed (PyStr "req-1") _ (le_n 2))
                             sample_writable))).
Defined.

(** C8 on the sample service, from a world in which two polls have been
    made: the result of the input [calls/call1.txt] is written to
    [/tmp/out/call1.txt.output.json]. *)
Lemma C8_witness :
  completed_with (Sample.get_oracle 2 (status_request Sample.apikey (PyStr "req-1")))
                 (PyDict Sample.summary)
  /\ Sample.writable (out_filename "calls/call1.txt" "/tmp/out") = true
  /\ exists w',
       poll_loop Sample.apikey Sample.json_dumps Sample.get_oracle Sample.writable
                 1 (PyStr "req-1") "calls/call1.txt" "/tmp/out"
                 (World Sample.files [] 2)
       = (w', Return tt)
       /\ w_fs w'
          = <["/tmp/out/call1.txt.output.json" :=
                Sample.json_dumps
                  (PyDict {[ "response" :=
                               PyDict {[ "summary" := PyStr "greetings" ]} ]})]>
              Sample.files
       /\ w_fs w' !! "/tmp/out/call1.txt.output.json"
          = Some (Sample.json_dumps
                    (PyDict {[ "response" :=
                                 PyDict {[ "summary" := PyStr "greetings" ]} ]}))
       /\ List.filter is_write (w_trace w')
          = [FileWrite "/tmp/out/call1.txt.output.json"
               (Sample.json_dumps
                  (PyDict {[ "response" :=
                               PyDict {[ "summary" := PyStr "greetings" ]} ]}))].
Proof.
  split; [apply sample_completed; lia|].
  split; [exact sample_writable|].
  destruct (C8_result_written_and_overwritten
              Sample.apikey Sample.json_dumps Sample.get_oracle Sample.writable
              0%nat (PyStr "req-1") "calls/call1.txt" "/tmp/out"
              (World Sample.files [] 2) Sample.summary
              (sample_completed (PyStr "req-1") 2 (le_n 2)) sample_writable)
    as (w' & Hrun & Hfs & Hlook & _ & Hwrites & _).
  exists w'. split; [exact Hrun|]. split; [exact Hfs|]. split; [exact Hlook|].
  exact Hwrites.
Defined.

(** C9 on the service that is never done: after seven turns, seven
    requests and still running. *)
Lemma C9_witness :
  (forall n, in_progress (Sample.get_busy n (status_request Sample.apikey (PyStr "req-1")))
             = true)
  /\ poll_loop Sample.apikey Sample.json_dumps Sample.get_busy Sample.writable
               7 (PyStr "req-1") "calls/call1.txt" "/tmp/out" Sample.world0
     = (World (w_fs Sample.world0)
              (w_trace Sample.world0
               ++ progress_trace (status_request Sample.apikey (PyStr "req-1")) 7)
              (w_gets Sample.world0 + 7),
        OutOfFuel).
Proof.
  split; [intros n; reflexivity|].
  exact (proj1 (C9_poll_loop_unbounded Sample.apikey Sample.json_dumps Sample.get_busy
                                       Sample.writable)
               (PyStr "req-1") "calls/call1.txt" "/tmp/out" Sample.world0
               (fun n => eq_refl) 7%nat).
Defined.

Lemma sample_lookup_json :
  w_fs Sample.world0 !! "calls/call1.json" = Some Sample.json_text.
Proof. vm_compute. reflexivity. Defined.

Lemma sample_lookup_empty : w_fs Sample.world0 !! "calls/empty.json" = Some "{}".
Proof. vm_compute. reflexivity. Defined.

(** C10 on the sample document, and on a document without [segments]. *)
Lemma C10_witness :
  (w_fs Sample.world0 !! "calls/call1.json" = Some Sample.json_text
   /\ Sample.json_loads Sample.json_text = Ok Sample.json_document
   /\ read_json_to_segments Sample.json_loads "calls/call1.json" Sample.world0
      = (Sample.world0,
         Return (PyList [PyDict {[ "speaker_id" := PyStr "0";
                                   "text" := PyStr "hi";
                                   "speakerId" := PyStr "0" ]}])))
  /\ (w_fs Sample.world0 !! "calls/empty.json" = Some "{}"
      /\ Sample.json_loads "{}" = Ok (PyDict ∅)
      /\ read_json_to_segments Sample.json_loads "calls/empty.json" Sample.world0
         = (Sample.world0, Raise (KeyError "segments"))).
Proof.
  destruct (C10_read_json_to_segments_copies_speaker_id Sample.json_loads)
    as (_ & Hsample & Habsent).
  split.
  - split; [exact sample_lookup_json|]. split; [reflexivity|].
    exact (Hsample "calls/call1.json" Sample.json_text Sample.world0
                   sample_lookup_json eq_refl).
  - split; [exact sample_lookup_empty|]. split; [reflexivity|].
    exact (Habsent "calls/empty.json" "{}" Sample.world0 ∅
                   sample_lookup_empty eq_refl eq_refl).
Defined.

End Instances.

(** * Further properties *)

(** ** More on the text transcript parser *)

Module TextMore.
Import PyString PyStringFacts TextFacts.

Lemma lstrip_idem (s : string) : lstrip (lstrip s) = lstrip s.
Proof.
  induction s as [|c s IH]; [reflexivity|].
  cbn [lstrip]. destruct (isspace c) eqn:Hc; [exact IH|].
  cbn [lstrip]. now rewrite Hc.
Qed.

Lemma strip_idem (s : string) : strip (strip s) = strip s.
Proof.
  unfold strip. now rewrite lstrip_rstrip, lstrip_idem, rstrip_idem.
Qed.

Lemma nonblank_strip_eq (line : string) : nonblank (strip line) = nonblank line.
Proof. unfold nonblank. now rewrite strip_idem. Qed.

Lemma rfind_None_find (sep s : string) : rfind sep s = None -> find sep s = None.
Proof.
  induction s as [|c s IH].
  - cbn. now destruct (startswith sep "").
  - rewrite rfind_cons. destruct (rfind sep s); [discriminate|].
    cbn [find]. destruct (startswith sep (String c s)); [discriminate|].
    intros _. now rewrite IH.
Qed.

(** Nothing after the last separator holds a separator. *)
Lemma rfind_sep_tail (s : string) (i : nat) :
  rfind ": " s = Some i -> find ": " (drop (i + 2) s) = None.
Proof.
  revert i. induction s as [|c s IH]; intros i; [discriminate|].
  rewrite rfind_cons. destruct (rfind ": " s) as [j|] eqn:Hs.
  - intros [= <-]. cbn [Nat.add drop]. now apply IH.
  - destruct (startswith ": " (String c s)) eqn:Hp; [|discriminate].
    intros [= <-]. cbn [Nat.add drop].
    destruct s as [|d s]; [reflexivity|]. cbn [drop].
    rewrite rfind_cons in Hs. destruct (rfind ": " s) eqn:Hs'; [discriminate|].
    now apply rfind_None_find.
Qed.

Lemma last_rsplit1_no_sep (s : string) :
  find ": " (List.last (rsplit1 ": " s) "") = None.
Proof.
  unfold rsplit1. destruct (rfind ": " s) as [i|] eqn:Hs; cbn [List.last].
  - now apply rfind_sep_tail.
  - now apply rfind_None_find.
Qed.

(** A string splits at its last separator. *)
Lemma rfind_sep_split (s : string) (j : nat) :
  rfind ": " s = Some j -> s = take j s +:+ ": " +:+ drop (j + 2) s.
Proof.
  revert j. induction s as [|c s IH]; intros j; [discriminate|].
  rewrite rfind_cons. destruct (rfind ": " s) as [k|] eqn:Hs.
  - intros [= <-]. cbn [take drop Nat.add].
    change (String c (take k s) +:+ ": " +:+ drop (k + 2) s)
      with (String c (take k s +:+ ": " +:+ drop (k + 2) s)).
    f_equal. now apply IH.
  - destruct (startswith ": " (String c s)) eqn:Hp; [|discriminate].
    intros [= <-]. cbn [take drop Nat.add].
    destruct s as [|d s]; cbn [startswith] in Hp.
    + rewrite andb_false_r in Hp. discriminate.
    + rewrite andb_true_r in Hp. apply andb_true_iff in Hp as [Hc Hd].
      apply Ascii.eqb_eq in Hc, Hd. subst c d. reflexivity.
Qed.

(** The first separator of a line and the last separator of what follows
    it: the text is what follows the last separator of the line. *)
Lemma last_after_first_sep (before after : string) :
  find ": " after = None ->
  exists i,
    find ": " (before +:+ ": " +:+ after) = Some i
    /\ List.last (rsplit1 ": " (drop (i + 2) (before +:+ ": " +:+ after))) "" = after.
Proof.
  intros H. induction before as [|c b IH].
  - exists 0%nat. split; [reflexivity|].
    change (drop (0 + 2) ("" +:+ ": " +:+ after)) with after.
    unfold rsplit1. now rewrite (rfind_None _ _ H).
  - change (String c b +:+ ": " +:+ after) with (String c (b +:+ ": " +:+ after)).
    destruct (startswith ": " (String c (b +:+ ": " +:+ after))) eqn:Hp.
    + exists 0%nat. split; [cbn [find]; now rewrite Hp|].
      cbn [startswith] in Hp. destruct b as [|d b].
      * change ("" +:+ ": " +:+ after) with (String ":" (String " " after)) in Hp.
        change (Ascii.eqb " " ":") with false in Hp.
        rewrite andb_false_r in Hp. discriminate.
      * change (drop (0 + 2) (String c (String d b +:+ ": " +:+ after)))
          with (b +:+ ": " +:+ after).
        unfold rsplit1. rewrite (rfind_last_sep b after H). cbn [List.last].
        now rewrite drop_app.
    + destruct IH as (i & Hi & Hlast). exists (S i).
      split; [cbn [find]; now rewrite Hp, Hi|]. exact Hlast.
Qed.

(** The segment of a line, from its last separator. *)
Lemma line_segment_last_sep (before after : string) :
  contains ": " after = false ->
  exists speaker_id,
    line_segment (before +:+ ": " +:+ after)
    = Ok (PyDict {[ "speakerId" := PyStr speaker_id; "text" := PyStr (strip after) ]}).
Proof.
  intros H. apply contains_false in H.
  destruct (last_after_first_sep before after H) as (i & Hi & Hlast).
  exists (get_speaker_id (take i (before +:+ ": " +:+ after))).
  unfold line_segment, split1, PyVal.index. rewrite Hi.
  cbn [nth_error rbind]. change (String.length ": ") with 2%nat.
  set (r := drop (i + 2) (before +:+ ": " +:+ after)) in *.
  assert (Hlen : (1 <=? length (rsplit1 ": " r))%nat = true).
  { unfold rsplit1. now destruct (rfind _ _). }
  now rewrite Hlen, Hlast.
Qed.

(** X10. The text of a segment is what follows the last separator of the
    line, stripped: a line that splits into [before], a separator and an
    [after] without separator yields the text [strip after], whatever
    [before] holds; every line that yields a segment splits so, and its
    text carries no blank at either end and no separator. *)
Theorem line_segment_text_is_clean :
  (forall before after : string,
      contains ": " after = false ->
      exists speaker_id,
        line_segment (before +:+ ": " +:+ after)
        = Ok (PyDict {[ "speakerId" := PyStr speaker_id;
                        "text" := PyStr (strip after) ]}))
  /\ (forall (line : string) (seg : pyval),
         line_segment line = Ok seg ->
         exists speaker_id before after,
           line = before +:+ ": " +:+ after
           /\ contains ": " after = false
           /\ seg = PyDict {[ "speakerId" := PyStr speaker_id;
                              "text" := PyStr (strip after) ]}
           /\ strip (strip after) = strip after
           /\ contains ": " (strip after) = false).
Proof.
  split; [apply line_segment_last_sep|].
  intros line seg Hseg.
  destruct (rfind ": " line) as [j|] eqn:Hj.
  - pose proof (rfind_sep_split _ _ Hj) as Hsplit.
    pose proof (rfind_sep_tail _ _ Hj) as Htail.
    destruct (line_segment_last_sep (take j line) (drop (j + 2) line)) as [sid Hrun];
      [now apply contains_false|].
    rewrite <- Hsplit, Hseg in Hrun. injection Hrun as ->.
    exists sid, (take j line), (drop (j + 2) line).
    split; [exact Hsplit|]. split; [now apply contains_false|].
    split; [reflexivity|]. split; [apply strip_idem|].
    now apply contains_false, find_strip_None.
  - apply rfind_None_find in Hj.
    rewrite (line_segment_no_sep _ Hj) in Hseg. discriminate.
Qed.

(** X11. Blanks around a line do not matter: the parser gives the same
    result on the lines and on the stripped lines. *)
Theorem text_loop_ignores_surrounding_blanks (lines : list string) (acc : list pyval) :
  text_loop (List.map strip lines) acc = text_loop lines acc.
Proof.
  revert acc. induction lines as [|l lines IH]; intros acc; [reflexivity|].
  cbn [List.map]. rewrite !text_loop_cons, nonblank_strip_eq, strip_idem.
  destruct (nonblank l); [|apply IH].
  destruct (line_segment (strip l)); cbn; [apply IH | reflexivity].
Qed.

Lemma length_lstrip (s : string) : (String.length (lstrip s) <= String.length s)%nat.
Proof.
  induction s as [|c s IH]; [reflexivity|].
  cbn [lstrip]. destruct (isspace c); cbn; lia.
Qed.

Lemma lstrip_fixed_app (a b : string) :
  a <> "" -> lstrip a = a -> lstrip (a +:+ b) = a +:+ b.
Proof.
  destruct a as [|c a]; [congruence|]. intros _ H.
  cbn [lstrip] in H. simpl. cbn [lstrip].
  destruct (isspace c); [|reflexivity].
  pose proof (length_lstrip a) as Hlen. rewrite H in Hlen. cbn in Hlen. lia.
Qed.

(** X12. A label without the prefix "speaker_" is kept whole: a line
    [label : text] yields the label as speakerId. *)
Theorem line_segment_keeps_plain_label (label text : string) :
  label <> "" -> lstrip label = label -> rstrip label = label ->
  lacks ":" label = true ->
  startswith "speaker_" label = false ->
  contains ": " text = false -> nonblank text = true ->
  line_segment (strip (label +:+ " : " +:+ text)) = Ok (segment label (strip text)).
Proof.
  intros Hne Hl Hr Hc Hp Hsep Hnb.
  apply TextParser.nonblank_strip, rstrip_nonblank in Hnb.
  apply contains_false in Hsep.
  assert (Hstrip : strip (label +:+ " : " +:+ text) = label +:+ " : " +:+ rstrip text).
  { unfold strip. rewrite (lstrip_fixed_app _ _ Hne Hl).
    assert (label +:+ " : " +:+ text = (label +:+ " : ") +:+ text) as ->
        by now rewrite !append_assoc.
    rewrite rstrip_app. destruct (rstrip text); [congruence|].
    now rewrite !append_assoc. }
  rewrite Hstrip. unfold line_segment, split1.
  assert (label +:+ " : " +:+ rstrip text = (label +:+ " ") +:+ ": " +:+ rstrip text) as ->
      by now rewrite !append_assoc.
  rewrite find_after_colonless; [|now rewrite lacks_app, Hc].
  rewrite take_app, drop_app. cbn [PyVal.index nth_error rbind].
  change (drop (String.length ": ") (": " +:+ rstrip text)) with (rstrip text).
  unfold rsplit1.
  rewrite (rfind_None _ _ (find_rstrip_None _ _ Hsep)). cbn [length Nat.leb List.last].
  rewrite strip_rstrip. do 2 f_equal.
  unfold get_speaker_id, strip.
  rewrite (lstrip_fixed_app _ _ Hne Hl), rstrip_app.
  change (rstrip " ") with "". now rewrite Hr, Hp.
Qed.

End TextMore.

(** ** More on the JSON transcript parser and the submitter *)

Section SubmitMore.

Variable APIKEY : string.
Variable json_loads : string -> result pyval.
Variable post_oracle : request -> result (result pyval).

Local Abbreviation read_json_to_segments' := (read_json_to_segments json_loads).
Local Abbreviation read_segments' := (read_segments json_loads).
Local Abbreviation send_request' := (send_request APIKEY json_loads post_oracle).

Implicit Types (w : world) (model : pyval) (doc d : gmap string pyval).

Lemma json_loop_stops (before : list (gmap string pyval)) (x : pyval)
      (rest : list pyval) (e : exn) :
  Forall (fun d => is_Some (d !! "speaker_id")) before ->
  PyVal.getitem x "speaker_id" = Err e ->
  json_loop ((PyDict <$> before) ++ x :: rest) = Err e.
Proof.
  intros Hall Hx. induction Hall as [|d before [v Hv] _ IH].
  - cbn. now rewrite Hx.
  - cbn. rewrite Hv. cbn. fold (fmap (M:=list) PyDict before).
    now rewrite IH.
Qed.

(** X8. An element of [segments] without the key [speaker_id] makes
    [read_json_to_segments] raise [KeyError('speaker_id')], whatever the
    elements after it; nothing is returned for the elements before it. *)
Theorem read_json_to_segments_missing_speaker_id
        (path content : string) w doc
        (before : list (gmap string pyval)) d (rest : list pyval) :
  w_fs w !! path = Some content ->
  json_loads content = Ok (PyDict doc) ->
  doc !! "segments" = Some (PyList ((PyDict <$> before) ++ PyDict d :: rest)) ->
  Forall (fun d => is_Some (d !! "speaker_id")) before ->
  d !! "speaker_id" = None ->
  read_json_to_segments' path w = (w, Raise (KeyError "speaker_id")).
Proof.
  intros Hfs Hdoc Hsegs Hall Hd.
  rewrite (read_json_to_segments_run _ _ _ _ Hfs), Hdoc. cbn. rewrite Hsegs. cbn.
  rewrite (json_loop_stops before (PyDict d) rest (KeyError "speaker_id") Hall);
    [reflexivity|].
  cbn. now rewrite Hd.
Qed.

Lemma getitem_non_dict (x : pyval) (k : string) :
  PyVal.is_dict x = false -> exists msg, PyVal.getitem x k = Err (TypeError msg).
Proof. destruct x; try discriminate; intros _; eexists; reflexivity. Qed.

(** X9. A document of the wrong shape makes [read_json_to_segments] raise a
    [TypeError]: a top-level value that is not an object, a [segments] value
    that is null, a boolean or a number, and a [segments] array with an
    element that is not an object. *)
Theorem read_json_to_segments_type_errors :
  (forall (path content : string) w (document : pyval),
      w_fs w !! path = Some content ->
      json_loads content = Ok document ->
      PyVal.is_dict document = false ->
      exists msg, read_json_to_segments' path w = (w, Raise (TypeError msg)))
  /\ (forall (path content : string) w doc (v : pyval),
         w_fs w !! path = Some content ->
         json_loads content = Ok (PyDict doc) ->
         doc !! "segments" = Some v ->
         match v with
         | PyNone | PyBool _ | PyInt _ | PyFloat _ => True
         | _ => False
         end ->
         exists msg, read_json_to_segments' path w = (w, Raise (TypeError msg)))
  /\ (forall (path content : string) w doc
             (before : list (gmap string pyval)) (x : pyval) (rest : list pyval),
         w_fs w !! path = Some content ->
         json_loads content = Ok (PyDict doc) ->
         doc !! "segments" = Some (PyList ((PyDict <$> before) ++ x :: rest)) ->
         Forall (fun d => is_Some (d !! "speaker_id")) before ->
         PyVal.is_dict x = false ->
         exists msg, read_json_to_segments' path w = (w, Raise (TypeError msg))).
Proof.
  split; [|split].
  - intros path content w document Hfs Hdoc Hnd.
    destruct (getitem_non_dict document "segments" Hnd) as [msg Hmsg].
    exists msg. rewrite (read_json_to_segments_run _ _ _ _ Hfs), Hdoc. cbn.
    now rewrite Hmsg.
  - intros path content w doc v Hfs Hdoc Hsegs Hv.
    rewrite (read_json_to_segments_run _ _ _ _ Hfs), Hdoc. cbn. rewrite Hsegs. cbn.
    destruct v; try contradiction; eexists; reflexivity.
  - intros path content w doc before x rest Hfs Hdoc Hsegs Hall Hx.
    destruct (getitem_non_dict x "speaker_id" Hx) as [msg Hmsg].
    exists msg. rewrite (read_json_to_segments_run _ _ _ _ Hfs), Hdoc. cbn.
    rewrite Hsegs. cbn.
    now rewrite (json_loop_stops before x rest _ Hall Hmsg).
Qed.

Lemma read_segments_missing_file (path : string) w :
  w_fs w !! path = None -> read_segments' path w = (w, Raise OSError).
Proof.
  intros H. unfold read_segments, read_json_to_segments, read_text_to_segments,
    bind, open_read.
  destruct (String.eqb _ _); now rewrite H.
Qed.

(** X6. Whenever the parser raises an [Exception], [send_request] posts
    nothing, prints the exception and returns [None]; so it does for an
    input file that does not exist, whatever its extension. *)
Theorem send_request_parser_exception_gives_none :
  (forall (path : string) model w (e : exn),
      snd (read_segments' path w) = Raise e ->
      is_Exception e = true ->
      send_request' path model w
      = (World (w_fs w)
               (w_trace w ++ [Call "send_request" [PyStr path; model]; PrintExn e])
               (w_gets w),
         Return PyNone))
  /\ (forall (path : string) model w,
         w_fs w !! path = None ->
         send_request' path model w
         = (World (w_fs w)
                  (w_trace w ++ [Call "send_request" [PyStr path; model];
                                 PrintExn OSError])
                  (w_gets w),
            Return PyNone)).
Proof.
  assert (Hgen : forall (path : string) model w (e : exn),
             snd (read_segments' path w) = Raise e ->
             is_Exception e = true ->
             send_request' path model w
             = (World (w_fs w)
                      (w_trace w ++ [Call "send_request" [PyStr path; model]; PrintExn e])
                      (w_gets w),
                Return PyNone)).
  { intros path model w e Hread He.
    apply send_request_parse_fails; [|exact He].
    apply read_segments_entered.
    destruct (read_segments_reads json_loads path w w eq_refl) as [_ Hw].
    destruct (read_segments' path w) as [w1 o]. cbn in *. now subst. }
  split; [exact Hgen|].
  intros path model w Hfs. apply Hgen; [|reflexivity].
  now rewrite (read_segments_missing_file _ _ Hfs).
Qed.

(** X18. An exception that is no [Exception] (an interrupt) raised by the
    post is not swallowed: it leaves [send_request], and nothing is
    printed. *)
Theorem send_request_lets_interrupt_through
        (path : string) model w (segments : pyval) (e : exn) :
  read_segments' path w = (w, Return segments) ->
  post_oracle (summary_request APIKEY segments model) = Err e ->
  is_Exception e = false ->
  send_request' path model w
  = (World (w_fs w)
           (w_trace w ++ [Call "send_request" [PyStr path; model];
                          Http (summary_request APIKEY segments model)])
           (w_gets w),
     Raise e).
Proof.
  intros Hread Hpost He.
  apply (read_segments_entered json_loads _ model) in Hread.
  pose proof (send_request_posts APIKEY json_loads post_oracle _ _ _ _ Hread) as Hrun.
  cbv zeta in Hrun. now rewrite Hrun, Hpost, He.
Qed.

End SubmitMore.

(** ** More on the status poller *)

Module LowerFacts.
Import PyString PyStringFacts.

Lemma isspace_lower_char (c : ascii) : isspace (lower_char c) = isspace c.
Proof. destruct c as [[] [] [] [] [] [] [] []]; vm_compute; reflexivity. Qed.

Lemma lower_char_idem (c : ascii) : lower_char (lower_char c) = lower_char c.
Proof. destruct c as [[] [] [] [] [] [] [] []]; vm_compute; reflexivity. Qed.

Lemma lower_idem (s : string) : lower (lower s) = lower s.
Proof.
  induction s as [|c s IH]; [reflexivity|].
  cbn [lower]. now rewrite lower_char_idem, IH.
Qed.

Lemma lower_lstrip (s : string) : lower (lstrip s) = lstrip (lower s).
Proof.
  induction s as [|c s IH]; [reflexivity|].
  cbn [lstrip lower]. rewrite isspace_lower_char.
  destruct (isspace c); [exact IH | reflexivity].
Qed.

Lemma lower_rstrip (s : string) : lower (rstrip s) = rstrip (lower s).
Proof.
  induction s as [|c s IH]; [reflexivity|].
  cbn [rstrip lower]. rewrite <- IH, isspace_lower_char.
  destruct (rstrip s); cbn [lower]; [now destruct (isspace c) | reflexivity].
Qed.

Lemma lower_strip (s : string) : lower (strip s) = strip (lower s).
Proof. unfold strip. now rewrite lower_rstrip, lower_lstrip. Qed.

(** The status as [get_response] reads it is a fixed point of the
    reading. *)
Lemma status_normal_form (s : string) :
  strip (lower (strip (lower s))) = strip (lower s).
Proof. now rewrite lower_strip, lower_idem, TextMore.strip_idem. Qed.

End LowerFacts.

Section PollMore.

Variable APIKEY : string.
Variable json_dumps : pyval -> string.
Variable get_oracle : nat -> request -> result (result pyval).
Variable writable : string -> bool.

Local Abbreviation get_response' := (get_response APIKEY get_oracle).
Local Abbreviation status_request' := (status_request APIKEY).
Local Abbreviation poll_loop' := (poll_loop APIKEY json_dumps get_oracle writable).

Implicit Types (w : world) (request_id : pyval).

Lemma getitem_error_is_exception (v : pyval) (k : string) (e : exn) :
  PyVal.getitem v k = Err e -> is_Exception e = true.
Proof.
  destruct v; cbn; try (intros [= <-]; reflexivity).
  destruct (_ !! _); [discriminate | intros [= <-]; reflexivity].
Qed.

Lemma status_error_is_exception (response : pyval) (e : exn) :
  (s <-? PyVal.getitem response "status"; PyVal.lower_strip s) = Err e ->
  is_Exception e = true.
Proof.
  destruct (PyVal.getitem response "status") as [s|e'] eqn:Hs; cbn.
  - destruct s; cbn; intros [= <-]; reflexivity.
  - intros [= <-]. eapply getitem_error_is_exception, Hs.
Qed.

Lemma result_error_is_exception (response : pyval) (e : exn) :
  (r <-? PyVal.getitem response "response"; PyVal.getitem r "response") = Err e ->
  is_Exception e = true.
Proof.
  destruct (PyVal.getitem response "response") as [r|e'] eqn:Hr; cbn.
  - apply getitem_error_is_exception.
  - intros [= <-]. eapply getitem_error_is_exception, Hr.
Qed.

(** X1. Once the status call has returned, every failure to read the
    answer gives the failed sentinel, with the exception printed: an answer
    that does not decode, an answer without a usable [status] (no such key,
    not an object, not a string), and a completed answer without
    [response.response]. *)
Theorem get_response_unreadable_answer_gives_failed :
  (forall request_id w (e : exn),
      get_oracle (w_gets w) (status_request' request_id) = Ok (Err e) ->
      is_Exception e = true ->
      get_response' request_id w
      = (after_get (status_request' request_id) w [PrintExn e], Return (PyStr "FAILED")))
  /\ (forall request_id w (response : pyval) (e : exn),
         get_oracle (w_gets w) (status_request' request_id) = Ok (Ok response) ->
         (s <-? PyVal.getitem response "status"; PyVal.lower_strip s) = Err e ->
         get_response' request_id w
         = (after_get (status_request' request_id) w [PrintExn e],
            Return (PyStr "FAILED")))
  /\ (forall request_id w (response : pyval) (status : string) (e : exn),
         get_oracle (w_gets w) (status_request' request_id) = Ok (Ok response) ->
         (s <-? PyVal.getitem response "status"; PyVal.lower_strip s) = Ok status ->
         PyString.contains "progress" status = false ->
         PyString.contains "completed" status = true ->
         (r <-? PyVal.getitem response "response"; PyVal.getitem r "response") = Err e ->
         get_response' request_id w
         = (after_get (status_request' request_id) w [PrintExn e],
            Return (PyStr "FAILED"))).
Proof.
  split; [|split].
  - intros request_id w e H He. now apply get_response_decode_fails.
  - intros request_id w response e H Hs.
    rewrite get_response_unfold, H. unfold try_except, bind, lift. cbn.
    rewrite Hs. cbn. rewrite (status_error_is_exception _ _ Hs).
    unfold after_get, print_exn, emit, ret. cbn. now rewrite <- app_assoc.
  - intros request_id w response status e H Hs Hp Hc Hr.
    rewrite get_response_unfold, H. unfold try_except, bind, lift. cbn.
    rewrite Hs. cbn. rewrite Hp, Hc, Hr. cbn.
    rewrite (result_error_is_exception _ _ Hr).
    unfold after_get, print_exn, emit, ret. cbn. now rewrite <- app_assoc.
Qed.

(** The answer [d] with its status replaced by [s]. *)
Local Abbreviation with_status d s :=
  (Ok (Ok (PyDict (<["status" := PyStr s]> d))) : result (result pyval)).

(** X2. The status is read without regard to case and to blanks around it:
    two services whose answers differ only in the case and the surrounding
    blanks of the status make [get_response] behave alike; in particular
    the status [s] and its lower-case, stripped form do. *)
Theorem get_response_ignores_case_and_blanks :
  (forall (other : nat -> request -> result (result pyval))
          request_id w (d : gmap string pyval) (s1 s2 : string),
      get_oracle (w_gets w) (status_request' request_id) = with_status d s1 ->
      other (w_gets w) (status_request' request_id) = with_status d s2 ->
      PyString.strip (PyString.lower s1) = PyString.strip (PyString.lower s2) ->
      get_response' request_id w = get_response APIKEY other request_id w)
  /\ (forall s : string,
         PyString.strip (PyString.lower (PyString.strip (PyString.lower s)))
         = PyString.strip (PyString.lower s)).
Proof.
  split; [|apply LowerFacts.status_normal_form].
  intros other request_id w d s1 s2 H1 H2 Heq.
  rewrite get_response_unfold, H1.
  rewrite (get_response_unfold APIKEY other), H2.
  unfold try_except, bind, lift. cbn.
  rewrite !lookup_insert_eq. cbn. rewrite Heq.
  rewrite !lookup_insert_ne by discriminate. reflexivity.
Qed.

(** What [get_response] adds to the trace after its request holds no
    request and no write. *)
Lemma get_response_quiet request_id w :
  exists more o,
    get_response' request_id w = (after_get (status_request' request_id) w more, o)
    /\ Forall (fun e => is_write e = false /\ is_http e = false) more
    /\ o <> OutOfFuel.
Proof.
  rewrite get_response_unfold.
  destruct (get_oracle _ _) as [[response|e]|e].
  - unfold try_except, bind, lift. cbn.
    destruct (rbind _ _) as [status|e].
    + cbn. destruct (PyString.contains "progress" status).
      * exists [Sleep 10], (Return (PyStr "IN PROGRESS")).
        unfold after_get, sleep, emit, ret. cbn. rewrite <- app_assoc.
        repeat split; [repeat constructor | discriminate].
      * destruct (PyString.contains "completed" status).
        -- destruct (rbind _ _) as [v|e]; cbn.
           ++ exists [], (Return v). repeat split; [constructor | discriminate].
           ++ destruct (is_Exception e).
              ** exists [PrintExn e], (Return (PyStr "FAILED")).
                 unfold after_get, print_exn, emit, bind, ret. cbn. rewrite <- app_assoc.
                 repeat split; [repeat constructor | discriminate].
              ** exists [], (Raise e). repeat split; [constructor | discriminate].
        -- eexists [_], (Return (PyStr "FAILED")).
           unfold after_get, print, emit, ret. cbn. rewrite <- app_assoc.
           repeat split; [repeat constructor | discriminate].
    + cbn. destruct (is_Exception e).
      * exists [PrintExn e], (Return (PyStr "FAILED")).
        unfold after_get, print_exn, emit, bind, ret. cbn. rewrite <- app_assoc.
        repeat split; [repeat constructor | discriminate].
      * exists [], (Raise e). repeat split; [constructor | discriminate].
  - unfold try_except, bind, lift, raise. cbn. destruct (is_Exception e).
    + exists [PrintExn e], (Return (PyStr "FAILED")).
      unfold after_get, print_exn, emit, bind, ret. cbn. rewrite <- app_assoc.
      repeat split; [repeat constructor | discriminate].
    + exists [], (Raise e). repeat split; [constructor | discriminate].
  - exists [], (Raise e). repeat split; [constructor | discriminate].
Qed.

Lemma quiet_writes (more : list event) :
  Forall (fun e => is_write e = false /\ is_http e = false) more ->
  writes_of more = [] /\ List.filter is_http more = [].
Proof.
  induction 1 as [|e more [Hw Hh] _ [IH1 IH2]]; [split; reflexivity|].
  split.
  - unfold writes_of in *. destruct e; try discriminate; exact IH1.
  - cbn. rewrite Hh. exact IH2.
Qed.

Lemma writes_of_app (a b : list event) : writes_of (a ++ b) = writes_of a ++ writes_of b.
Proof. apply omap_app. Qed.

(** The requests and the writes of the polling loop, for every service and
    every number of turns. *)
Lemma poll_loop_effect (fuel : nat) request_id (file_name out_folder : string) w :
  exists (more : list event) (n : nat) (fs' : gmap string string) (o : outcome unit),
    poll_loop' fuel request_id file_name out_folder w
    = (World fs' (w_trace w ++ more) (w_gets w + n), o)
    /\ (n <= fuel)%nat
    /\ List.filter is_http more
       = List.repeat (Http (status_request' request_id)) n
    /\ ((writes_of more = [] /\ fs' = w_fs w)
        \/ (exists content,
               writes_of more = [(out_filename file_name out_folder, content)]
               /\ fs' = <[out_filename file_name out_folder := content]> (w_fs w)
               /\ o = Return tt)).
Proof.
  revert w. induction fuel as [|fuel IH]; intros w.
  - exists [], 0%nat, (w_fs w), OutOfFuel. cbn.
    rewrite app_nil_r, Nat.add_0_r. destruct w. repeat split; auto.
  - rewrite poll_loop_unfold.
    destruct (get_response_quiet request_id w) as (more0 & o0 & -> & Hq & Ho0).
    destruct (quiet_writes _ Hq) as [Hw0 Hh0].
    destruct o0 as [response|e|]; [| |congruence].
    + destruct (PyVal.is_dict response).
      * cbv zeta. unfold bind, dump_to_file, print, emit, ret, after_get. cbn.
        destruct (writable _).
        -- eexists _, 1%nat, _, (Return tt). cbn. rewrite <- !app_assoc. cbn.
           rewrite Nat.add_1_r. split; [reflexivity|]. split; [lia|].
           split.
           { cbn. rewrite List.filter_app, Hh0. reflexivity. }
           right. eexists. split; [|split; reflexivity].
           change (Http (status_request' request_id) :: more0 ++ ?x)
             with ([Http (status_request' request_id)] ++ more0 ++ x).
           now rewrite !writes_of_app, Hw0.
        -- eexists _, 1%nat, _, (Raise OSError). cbn.
           rewrite Nat.add_1_r. split; [reflexivity|]. split; [lia|].
           split.
           { cbn. rewrite Hh0. reflexivity. }
           left. split; [|reflexivity].
           change (Http (status_request' request_id) :: more0)
             with ([Http (status_request' request_id)] ++ more0).
           now rewrite writes_of_app, Hw0.
      * destruct (PyVal.eq_str response "FAILED").
        -- eexists _, 1%nat, _, (Return tt). unfold after_get.
           rewrite Nat.add_1_r. split; [reflexivity|]. split; [lia|].
           split.
           { cbn. rewrite Hh0. reflexivity. }
           left. split; [|reflexivity].
           change (Http (status_request' request_id) :: more0)
             with ([Http (status_request' request_id)] ++ more0).
           now rewrite writes_of_app, Hw0.
        -- unfold bind at 1, print, emit, after_get. cbn.
           match goal with
           | |- context [poll_loop' fuel request_id file_name out_folder ?w1] =>
               destruct (IH w1) as (more & n & fs' & o & -> & Hn & Hh & Hfs)
           end.
           cbn [w_fs w_trace w_gets] in *.
           exists ((Http (status_request' request_id) :: more0)
                   ++ [Print "Summarization is in progress" []] ++ more),
                  (S n), fs', o.
           rewrite <- !app_assoc, Nat.add_succ_r. cbn.
           split; [reflexivity|]. split; [lia|].
           split.
           { rewrite List.filter_app, Hh0. cbn. now rewrite Hh. }
           change (Http (status_request' request_id)
                     :: more0 ++ Print "Summarization is in progress" [] :: more)
             with ([Http (status_request' request_id)] ++ more0
                   ++ [Print "Summarization is in progress" []] ++ more).
           rewrite !writes_of_app, Hw0. exact Hfs.
    + eexists _, 1%nat, _, (Raise e). unfold after_get.
      rewrite Nat.add_1_r. split; [reflexivity|]. split; [lia|].
      split.
      { cbn. rewrite Hh0. reflexivity. }
      left. split; [|reflexivity].
      change (Http (status_request' request_id) :: more0)
        with ([Http (status_request' request_id)] ++ more0).
      now rewrite writes_of_app, Hw0.
Qed.

(** One turn of the loop: either the loop ends in it, however many turns
    are allowed, or it goes round, one request later. *)
Lemma poll_loop_turn request_id (file_name out_folder : string) w :
  (snd (poll_loop' 1 request_id file_name out_folder w) <> OutOfFuel
   /\ w_gets (fst (poll_loop' 1 request_id file_name out_folder w)) = S (w_gets w)
   /\ forall k, poll_loop' (S k) request_id file_name out_folder w
                = poll_loop' 1 request_id file_name out_folder w)
  \/ (exists w1,
         w_gets w1 = S (w_gets w)
         /\ forall k, poll_loop' (S k) request_id file_name out_folder w
                      = poll_loop' k request_id file_name out_folder w1).
Proof.
  destruct (get_response_quiet request_id w) as (more0 & o0 & Hget & _ & Ho0).
  destruct o0 as [response|e|]; [| |congruence].
  - destruct (PyVal.is_dict response) eqn:Hd.
    + left.
      assert (Hk : forall k, poll_loop' (S k) request_id file_name out_folder w
                             = poll_loop' 1 request_id file_name out_folder w).
      { intros k. now rewrite !poll_loop_unfold, Hget, Hd. }
      split; [|split; [|exact Hk]];
        rewrite poll_loop_unfold, Hget, Hd; cbv zeta;
        unfold bind, dump_to_file, print, emit, ret, after_get; cbn;
        destruct (writable _); cbn; first [discriminate | reflexivity].
    + destruct (PyVal.eq_str response "FAILED") eqn:Hf.
      * left.
        assert (Hk : forall k, poll_loop' (S k) request_id file_name out_folder w
                               = poll_loop' 1 request_id file_name out_folder w).
        { intros k. now rewrite !poll_loop_unfold, Hget, Hd, Hf. }
        split; [|split; [|exact Hk]];
          rewrite poll_loop_unfold, Hget, Hd, Hf; cbn;
          first [discriminate | reflexivity].
      * right. eexists. split; cycle 1.
        -- intros k. rewrite poll_loop_unfold, Hget, Hd, Hf.
           unfold bind at 1, print, emit, after_get. cbn. reflexivity.
        -- reflexivity.
  - left.
    assert (Hk : forall k, poll_loop' (S k) request_id file_name out_folder w
                           = poll_loop' 1 request_id file_name out_folder w).
    { intros k. now rewrite !poll_loop_unfold, Hget. }
    split; [|split; [|exact Hk]];
      rewrite poll_loop_unfold, Hget; cbn; first [discriminate | reflexivity].
Qed.

(** The turns of the loop and its requests: a loop that is still running
    after [fuel] turns has sent [fuel] requests; a loop that has ended has
    ended in some turn [n], with [n] requests. *)
Lemma poll_loop_turns (fuel : nat) request_id (file_name out_folder : string) w :
  (snd (poll_loop' fuel request_id file_name out_folder w) = OutOfFuel
   /\ w_gets (fst (poll_loop' fuel request_id file_name out_folder w))
      = (w_gets w + fuel)%nat)
  \/ (snd (poll_loop' fuel request_id file_name out_folder w) <> OutOfFuel
      /\ exists n : nat,
           (1 <= n <= fuel)%nat
           /\ w_gets (fst (poll_loop' fuel request_id file_name out_folder w))
              = (w_gets w + n)%nat
           /\ (forall j : nat, (j < n)%nat ->
                 snd (poll_loop' j request_id file_name out_folder w) = OutOfFuel)
           /\ (forall j : nat, (n <= j)%nat ->
                 poll_loop' j request_id file_name out_folder w
                 = poll_loop' fuel request_id file_name out_folder w)).
Proof.
  revert w. induction fuel as [|fuel IH]; intros w.
  - left. split; [reflexivity | cbn; lia].
  - destruct (poll_loop_turn request_id file_name out_folder w)
      as [(Hend & Hg & Hk) | (w1 & Hg & Hk)].
    + right. rewrite (Hk fuel). split; [exact Hend|].
      exists 1%nat. split; [lia|]. split; [rewrite Hg; lia|]. split.
      * intros j Hj. assert (j = 0%nat) as -> by lia. reflexivity.
      * intros j Hj. destruct j as [|j]; [lia|]. apply Hk.
    + rewrite (Hk fuel).
      destruct (IH w1) as [(Ho & Hgets) | (Ho & n & Hn & Hgets & Hlt & Hge)].
      * left. split; [exact Ho|]. rewrite Hgets, Hg. lia.
      * right. split; [exact Ho|]. exists (S n). split; [lia|].
        split; [rewrite Hgets, Hg; lia|]. split.
        -- intros j Hj. destruct j as [|j]; [reflexivity|]. rewrite Hk. apply Hlt. lia.
        -- intros j Hj. destruct j as [|j]; [lia|]. rewrite Hk. apply Hge. lia.
Qed.

(** X3. Whatever the service answers and however long the loop is
    followed, the polling loop sends one status request per turn and nothing
    else: a loop that is still running after [fuel] turns has sent [fuel]
    requests; a loop that has ended has ended in the turn of its last
    request, the [n]-th, being still running after every smaller number of
    turns and giving the same result with every larger one.  The loop
    touches the file system at most once: either no file is written and the
    files are as before, or the loop has ended normally after writing the
    one file [out_filename file_name out_folder]. *)
Theorem poll_loop_footprint (fuel : nat) request_id (file_name out_folder : string) w :
  exists (more : list event) (n : nat) (fs' : gmap string string) (o : outcome unit),
    poll_loop' fuel request_id file_name out_folder w
    = (World fs' (w_trace w ++ more) (w_gets w + n), o)
    /\ (n <= fuel)%nat
    /\ List.filter is_http more
       = List.repeat (Http (status_request' request_id)) n
    /\ (o = OutOfFuel -> n = fuel)
    /\ (o <> OutOfFuel ->
        (1 <= n)%nat
        /\ (forall j : nat, (j < n)%nat ->
              snd (poll_loop' j request_id file_name out_folder w) = OutOfFuel)
        /\ (forall j : nat, (n <= j)%nat ->
              poll_loop' j request_id file_name out_folder w
              = poll_loop' fuel request_id file_name out_folder w))
    /\ ((writes_of more = [] /\ fs' = w_fs w)
        \/ (exists content,
               writes_of more = [(out_filename file_name out_folder, content)]
               /\ fs' = <[out_filename file_name out_folder := content]> (w_fs w)
               /\ o = Return tt)).
Proof.
  destruct (poll_loop_effect fuel request_id file_name out_folder w)
    as (more & n & fs' & o & Hrun & Hle & Hh & Hw).
  exists more, n, fs', o.
  split; [exact Hrun|]. split; [exact Hle|]. split; [exact Hh|].
  split; [|split; [|exact Hw]].
  - intros ->.
    destruct (poll_loop_turns fuel request_id file_name out_folder w)
      as [(_ & Hgets) | (Ho & _)];
      rewrite Hrun in *; cbn [fst snd w_gets] in *; [lia | congruence].
  - intros Hne.
    destruct (poll_loop_turns fuel request_id file_name out_folder w)
      as [(Ho & _) | (_ & n0 & Hn0 & Hgets & Hlt & Hge)].
    + rewrite Hrun in Ho. cbn [snd] in Ho. congruence.
    + rewrite Hrun in Hgets. cbn [fst w_gets] in Hgets.
      assert (n = n0) as -> by lia.
      split; [lia|]. split; [exact Hlt | exact Hge].
Qed.

End PollMore.

(** ** More on the driver *)

Section DriverMore.

Variable APIKEY : string.
Variable json_loads : string -> result pyval.
Variable json_dumps : pyval -> string.
Variable post_oracle : request -> result (result pyval).
Variable get_oracle : nat -> request -> result (result pyval).
Variable writable : string -> bool.

Local Abbreviation read_segments' := (read_segments json_loads).
Local Abbreviation summary_request' := (summary_request APIKEY).
Local Abbreviation status_request' := (status_request APIKEY).
Local Abbreviation send_request' := (send_request APIKEY json_loads post_oracle).
Local Abbreviation poll_loop' := (poll_loop APIKEY json_dumps get_oracle writable).
Local Abbreviation process_summary_request' :=
  (process_summary_request APIKEY json_loads json_dumps post_oracle get_oracle writable).

Implicit Types (w : world) (model : pyval).

(** The events at the start of [process_summary_request]. *)
Local Abbreviation opening file_name out_folder model :=
  [Call "process_summary_request" [PyStr file_name; PyStr out_folder; model];
   Print "Processing file : {}" [PyStr file_name]].

Lemma bind_emit {B} (e : event) (k : unit -> M B) w :
  bind (emit e) k w = k tt (World (w_fs w) (w_trace w ++ [e]) (w_gets w)).
Proof. reflexivity. Qed.

Lemma process_summary_request_unfold fuel (file_name out_folder : string) model w :
  process_summary_request' fuel file_name out_folder model w =
    match send_request' file_name model
            (World (w_fs w) (w_trace w ++ opening file_name out_folder model) (w_gets w))
    with
    | (w1, Return request_id) => poll_loop' fuel request_id file_name out_folder w1
    | (w1, Raise e) => (w1, Raise e)
    | (w1, OutOfFuel) => (w1, OutOfFuel)
    end.
Proof.
  unfold process_summary_request. rewrite bind_emit. unfold print.
  rewrite bind_emit. cbn [w_fs w_trace w_gets]. rewrite <- app_assoc. cbn [app].
  unfold bind at 1.
  now destruct (send_request' _ _ _) as [w1 [| |]].
Qed.

Lemma read_segments_elsewhere (path : string) w w' o :
  read_segments' path w = (w, o) -> w_fs w' = w_fs w ->
  read_segments' path w' = (w', o).
Proof.
  intros H Hfs. destruct (read_segments_reads json_loads path w w' Hfs) as [-> _].
  now rewrite H.
Qed.

(** What [send_request] does after a parse that delivered [segments], seen
    from [process_summary_request]. *)
Lemma send_request_after_opening (path out_folder : string) model w (segments : pyval) :
  read_segments' path w = (w, Return segments) ->
  let rq := summary_request' segments model in
  let before := opening path out_folder model ++ [Call "send_request" [PyStr path; model]] in
  send_request' path model
    (World (w_fs w) (w_trace w ++ opening path out_folder model) (w_gets w)) =
    match post_oracle rq with
    | Ok (Ok response) =>
        match PyVal.get response "request_id" PyNone with
        | Ok request_id =>
            (World (w_fs w) (w_trace w ++ before ++ [Http rq]) (w_gets w),
             Return request_id)
        | Err e =>
            if is_Exception e
            then (World (w_fs w) (w_trace w ++ before ++ [Http rq; PrintExn e]) (w_gets w),
                  Return PyNone)
            else (World (w_fs w) (w_trace w ++ before ++ [Http rq]) (w_gets w), Raise e)
        end
    | Ok (Err e) | Err e =>
        if is_Exception e
        then (World (w_fs w) (w_trace w ++ before ++ [Http rq; PrintExn e]) (w_gets w),
              Return PyNone)
        else (World (w_fs w) (w_trace w ++ before ++ [Http rq]) (w_gets w), Raise e)
    end.
Proof.
  intros Hread rq before.
  pose (w0 := World (w_fs w) (w_trace w ++ opening path out_folder model) (w_gets w)).
  assert (Hread0 : read_segments' path w0 = (w0, Return segments))
    by (eapply read_segments_elsewhere; [exact Hread | reflexivity]).
  pose proof (send_request_posts APIKEY json_loads post_oracle path model w0 segments
                (read_segments_entered json_loads path model w0 _ Hread0)) as Hrun.
  cbv zeta in Hrun. fold w0. rewrite Hrun. subst w0 before rq.
  cbn [w_fs w_trace w_gets].
  destruct (post_oracle _) as [[response|e]|e];
    [destruct (PyVal.get response "request_id" PyNone) as [v|e]| |];
    try destruct (is_Exception e);
    rewrite <- !app_assoc; reflexivity.
Qed.




(** X7. A submission that fails is not noticed by the driver: when the post
    raises an [Exception], and likewise when the answer has no
    [request_id], [process_summary_request] goes on into the polling loop
    with the request id [None]. *)
Theorem process_summary_request_polls_without_id
        (fuel : nat) (path out_folder : string) model w (segments : pyval) :
  read_segments' path w = (w, Return segments) ->
  (forall e : exn,
      post_oracle (summary_request' segments model) = Err e
      \/ post_oracle (summary_request' segments model) = Ok (Err e) ->
      is_Exception e = true ->
      process_summary_request' fuel path out_folder model w
      = poll_loop' fuel PyNone path out_folder
          (World (w_fs w)
                 (w_trace w ++ opening path out_folder model
                  ++ [Call "send_request" [PyStr path; model];
                      Http (summary_request' segments model); PrintExn e])
                 (w_gets w)))
  /\ (forall answer : gmap string pyval,
         post_oracle (summary_request' segments model) = Ok (Ok (PyDict answer)) ->
         answer !! "request_id" = None ->
         process_summary_request' fuel path out_folder model w
         = poll_loop' fuel PyNone path out_folder
             (World (w_fs w)
                    (w_trace w ++ opening path out_folder model
                     ++ [Call "send_request" [PyStr path; model];
                         Http (summary_request' segments model)])
                    (w_gets w))).
Proof.
  intros Hread.
  pose proof (send_request_after_opening path out_folder model w segments Hread) as Hs.
  cbv zeta in Hs. split.
  - intros e Hpost He. rewrite process_summary_request_unfold, Hs.
    destruct Hpost as [-> | ->]; rewrite He; rewrite <- ?app_assoc; reflexivity.
  - intros answer Hpost Hid. rewrite process_summary_request_unfold, Hs, Hpost.
    cbn. rewrite Hid. rewrite <- ?app_assoc. reflexivity.
Qed.

End DriverMore.

(** ** More on the main block *)

Section MainMore.

Variable APIKEY : string.
Variable json_loads : string -> result pyval.
Variable json_dumps : pyval -> string.
Variable post_oracle : request -> result (result pyval).
Variable get_oracle : nat -> request -> result (result pyval).
Variable isdir : string -> bool.
Variable writable : string -> bool.

Local Abbreviation main_block' :=
  (main_block APIKEY json_loads json_dumps post_oracle get_oracle isdir writable).

Local Abbreviation printed w more := (World (w_fs w) (w_trace w ++ more) (w_gets w)).

Lemma usage_prints (argv0 : string) (w : world) :
  usage argv0 w = (printed w (usage_lines argv0), Return tt).
Proof.
  unfold usage, usage_lines, bind, print, emit. cbn. now rewrite <- !app_assoc.
Qed.

(** X13. When the key guard does not fire and the first argument is [-h]
    or [--help], the main block prints the usage text and ends with exit
    status 2, whatever follows: help is reached through the error path of
    [getopt]. *)
Theorem main_block_help_prints_usage
        (fuel : nat) (argv0 first : string) (rest : list string) (w : world) :
  PyString.contains APIKEY "YOUR_API_KEY" = false ->
  first = "-h" \/ first = "--help" ->
  main_block' fuel argv0 (first :: rest) w
  = (printed w (usage_lines argv0), Raise (SystemExit 2)).
Proof.
  intros Hkey Hfirst. unfold main_block. rewrite Hkey.
  destruct Hfirst as [-> | ->].
  - change (Getopt.getopt ("-h" :: rest) main_shortopts main_longopts)
      with (Some (Err (A:=Getopt.optlist * list string)
                      (GetoptError "option -h not recognized" "h"))).
    cbn [str_in existsb negb]. change (String.eqb "-h" "-h") with true. cbn [orb negb].
    unfold bind. now rewrite usage_prints.
  - change (Getopt.getopt ("--help" :: rest) main_shortopts main_longopts)
      with (Some (Err (A:=Getopt.optlist * list string)
                      (GetoptError "option --help not recognized" "help"))).
    cbn [str_in existsb negb]. change (String.eqb "--help" "-h") with false.
    change (String.eqb "--help" "--help") with true. cbn [orb negb].
    unfold bind. now rewrite usage_prints.
Qed.

(** The messages the checks print for the input path [input] and the
    output folder [output] when [model] is [None]. *)
Local Abbreviation verdict argv0 input output :=
  (if Nat.leb (String.length input) 0 || Nat.leb (String.length output) 0
   then usage_lines argv0
   else if negb (PyString.endswith ".json" input || PyString.endswith ".txt" input)
        then [Print "Invalid input file. Should be either json or txt file" []]
        else [Print "Invalid model param. Should be either cassandra or iamus" []]).

Lemma validate_without_model (argv0 input output : string) (w : world) :
  validate isdir argv0 (Options (Some input) (Some output) None) w
  = (printed w (verdict argv0 input output), Raise (SystemExit 2)).
Proof.
  unfold validate. cbn [input_file_path output_folder model none_or_empty default].
  destruct (_ || _).
  - unfold bind. now rewrite usage_prints.
  - destruct (negb _); reflexivity.
Qed.

(** X14. The invocation with an input path and an output folder, in the
    short or in the long form: the main block prints the usage text when
    one of them is empty, else the complaint about the input file when the
    path ends neither in ".json" nor in ".txt", else the complaint about the
    model; it ends with exit status 2 in each case and never looks at the
    output folder. *)
Theorem main_block_input_output_verdict
        (fuel : nat) (argv0 input output : string) (w : world) :
  PyString.contains APIKEY "YOUR_API_KEY" = false ->
  main_block' fuel argv0 ["-i"; input; "-o"; output] w
  = (printed w (verdict argv0 input output), Raise (SystemExit 2))
  /\ main_block' fuel argv0
       ["--input_file_path=" +:+ input; "--output_folder=" +:+ output] w
     = (printed w (verdict argv0 input output), Raise (SystemExit 2)).
Proof.
  intros Hkey. unfold main_block. rewrite Hkey. split.
  - change (Getopt.getopt ["-i"; input; "-o"; output] main_shortopts main_longopts)
      with (Some (Ok ([("-i", input); ("-o", output)], @nil string))).
    cbv beta iota.
    change (scan_options [("-i", input); ("-o", output)])
      with (Options (Some input) (Some output) None).
    unfold bind at 1. now rewrite validate_without_model.
  - change (Getopt.getopt ["--input_file_path=" +:+ input; "--output_folder=" +:+ output]
                          main_shortopts main_longopts)
      with (Some (Ok ([("--input_file_path", input); ("--output_folder", output)],
                      @nil string))).
    cbv beta iota.
    change (scan_options [("--input_file_path", input); ("--output_folder", output)])
      with (Options (Some input) (Some output) None).
    unfold bind at 1. now rewrite validate_without_model.
Qed.

(** X15. The exit status of the main block is 0 when the key is a part of
    the placeholder (the placeholder itself, the empty key) and 2 otherwise,
    for every argument vector; in the first case the only thing done is to
    print the request to update the key; in both cases the files are left
    alone and no request is made. *)
Theorem main_block_exit_status
        (fuel : nat) (argv0 : string) (args : list string) (w : world) :
  exit_status (snd (main_block' fuel argv0 args w))
  = Some (if PyString.contains APIKEY "YOUR_API_KEY" then 0 else 2)%Z
  /\ w_fs (fst (main_block' fuel argv0 args w)) = w_fs w
  /\ w_gets (fst (main_block' fuel argv0 args w)) = w_gets w
  /\ (PyString.contains APIKEY "YOUR_API_KEY" = true ->
      main_block' fuel argv0 args w
      = (printed w [Print "Please update your valid api key" []], Raise (SystemExit 0)))
  /\ PyString.contains "YOUR_API_KEY" "YOUR_API_KEY" = true
  /\ PyString.contains "" "YOUR_API_KEY" = true.
Proof.
  assert (Hguard : PyString.contains APIKEY "YOUR_API_KEY" = true ->
            main_block' fuel argv0 args w
            = (printed w [Print "Please update your valid api key" []],
               Raise (SystemExit 0))).
  { intros Hkey. unfold main_block. now rewrite Hkey. }
  destruct (main_block_run APIKEY json_loads json_dumps post_oracle get_oracle isdir
                           writable fuel argv0 args w) as (more & Hrun & _).
  split; [now rewrite Hrun|]. split; [now rewrite Hrun|]. split; [now rewrite Hrun|].
  split; [exact Hguard|]. split; reflexivity.
Qed.

End MainMore.

(** ** More on paths: the choice of the parser and the output path *)

Module PathMore.
Import PyString PyStringFacts PosixPath PathFacts ExtFacts TextFacts.

Lemma all_dots_no_slash (s : string) : has_non_dot s = false -> lacks "/" s = true.
Proof.
  induction s as [|c s IH]; [reflexivity|].
  cbn [has_non_dot lacks]. intros [Hc Hs]%orb_false_iff.
  apply negb_false_iff, Ascii.eqb_eq in Hc. subst c. now rewrite IH.
Qed.

(** The index after the last slash of [pre +:+ rest], for a directory part
    [pre] (empty, or ending in a slash) and a slash-free [rest]. *)
Lemma filename_index (dir : option string) (rest : string) :
  lacks "/" rest = true ->
  let pre := match dir with None => "" | Some d => d +:+ "/" end in
  match rfind "/" (pre +:+ rest) with None => 0%nat | Some i => S i end
  = String.length pre.
Proof.
  intros Hr pre. subst pre. destruct dir as [d|].
  - rewrite append_assoc. change ("/" +:+ rest) with (String "/" rest).
    rewrite (rfind_char_last "/" d rest Hr), length_append. cbn. lia.
  - change ("" +:+ rest) with rest. now rewrite (lacks_rfind _ _ Hr).
Qed.

(** [splitext] on a path whose last component is [stem] followed by
    ".json": the extension is ".json" unless [stem] consists of dots. *)
Lemma splitext_json (dir : option string) (stem : string) :
  lacks "/" stem = true ->
  let pre := match dir with None => "" | Some d => d +:+ "/" end in
  splitext (pre +:+ stem +:+ ".json")
  = if has_non_dot stem then (pre +:+ stem, ".json")
    else (pre +:+ stem +:+ ".json", "").
Proof.
  intros Hs pre. unfold splitext.
  assert (Hdot : rfind "." (pre +:+ stem +:+ ".json")
                 = Some (String.length (pre +:+ stem))).
  { rewrite <- append_assoc. apply (rfind_char_last "." (pre +:+ stem) "json").
    reflexivity. }
  rewrite Hdot.
  pose proof (filename_index dir (stem +:+ ".json")) as Hidx. cbv zeta in Hidx.
  fold pre in Hidx. rewrite Hidx; [|now rewrite lacks_app, Hs].
  rewrite length_append.
  assert ((String.length pre <=? String.length pre + String.length stem)%nat = true)
    as -> by (apply Nat.leb_le; lia).
  replace (String.length pre + String.length stem - String.length pre)%nat
    with (String.length stem) by lia.
  replace (String.length pre) with (String.length pre + 0)%nat at 1 by lia.
  rewrite drop_app. cbn [drop]. rewrite take_app. cbn [andb].
  destruct (has_non_dot stem); [|reflexivity].
  rewrite <- length_append, <- append_assoc, take_app.
  replace (String.length (pre +:+ stem)) with (String.length (pre +:+ stem) + 0)%nat
    by lia.
  now rewrite drop_app.
Qed.

(** X16. How [send_request] chooses the parser.  A path that ends in ".txt"
    goes to the text parser.  A path whose last component is a stem followed
    by ".json" goes to the JSON parser when the stem has a character other
    than a dot; when the stem is empty or made of dots (a file named
    ".json"), the path goes to the text parser, although it ends in ".json"
    as the check of the main block asks. *)
Theorem read_segments_choice (json_loads : string -> result pyval) :
  (forall path : string,
      endswith ".txt" path = true ->
      read_segments json_loads path = read_text_to_segments path)
  /\ (forall (dir : option string) (stem : string),
         lacks "/" stem = true ->
         let path := match dir with None => "" | Some d => d +:+ "/" end
                     +:+ stem +:+ ".json" in
         endswith ".json" path = true
         /\ read_segments json_loads path
            = if has_non_dot stem
              then read_json_to_segments json_loads path
              else read_text_to_segments path).
Proof.
  split.
  - intros path H. unfold read_segments. now rewrite (txt_not_json _ H).
  - intros dir stem Hs path. split.
    + subst path. rewrite <- append_assoc, endswith_app; [reflexivity | cbn; lia].
    + unfold read_segments. subst path. rewrite (splitext_json dir stem Hs).
      now destruct (has_non_dot stem).
Qed.

(** X17. The output path keeps the last component of the input path only:
    the directories of the input are dropped, so that inputs of the same
    name from different directories share one output file.  For an output
    folder that is not empty the file lies in that folder, whether or not
    the folder name ends in a slash. *)
Theorem out_filename_keeps_last_component (dir name : string) :
  lacks "/" name = true ->
  (forall out_folder : string,
      out_filename (dir +:+ "/" +:+ name) out_folder = out_filename name out_folder)
  /\ (forall out_folder : string,
         out_folder <> "" -> endswith "/" out_folder = false ->
         out_filename (dir +:+ "/" +:+ name) out_folder
         = out_folder +:+ "/" +:+ name +:+ ".output.json")
  /\ (forall folder : string,
         out_filename (dir +:+ "/" +:+ name) (folder +:+ "/")
         = folder +:+ "/" +:+ name +:+ ".output.json").
Proof.
  intros H. unfold out_filename.
  rewrite (basename_under_directory _ _ H), (basename_plain _ H).
  split; [reflexivity|]. split.
  - intros out_folder Hne Hend. apply PathFacts.join_plain; try assumption.
    now apply PathFacts.lacks_output_name.
  - intros folder. unfold join.
    assert (startswith "/" (name +:+ ".output.json") = false) as ->.
    { destruct name as [|c name]; [reflexivity|]. cbn [lacks] in H.
      simpl. cbn [startswith]. apply andb_true_iff in H as [Hc _].
      apply negb_true_iff in Hc. now rewrite Hc. }
    rewrite endswith_app; [|cbn; lia].
    change (endswith "/" "/") with true. rewrite orb_true_r.
    now rewrite append_assoc.
Qed.

End PathMore.

(** ** What a run of the driver can touch *)

Section Footprint.

Variable APIKEY : string.
Variable json_loads : string -> result pyval.
Variable json_dumps : pyval -> string.
Variable post_oracle : request -> result (result pyval).
Variable get_oracle : nat -> request -> result (result pyval).
Variable writable : string -> bool.

Local Abbreviation read_segments' := (read_segments json_loads).
Local Abbreviation send_request' := (send_request APIKEY json_loads post_oracle).
Local Abbreviation poll_loop' := (poll_loop APIKEY json_dumps get_oracle writable).
Local Abbreviation process_summary_request' :=
  (process_summary_request APIKEY json_loads json_dumps post_oracle get_oracle writable).

Implicit Types (w : world) (model : pyval).

Import MonadFacts.

Lemma read_segments_halts (path : string) : halts (read_segments' path).
Proof.
  unfold read_segments, read_json_to_segments, read_text_to_segments.
  destruct (String.eqb _ _);
    repeat (apply halts_bind; [|intros ?]);
    auto using halts_ret, halts_lift, halts_open_read.
Qed.

(** [send_request] leaves the files and the poll count alone; it posts at
    most once and does not run out of fuel. *)
Lemma send_request_footprint (path : string) model w :
  exists (more : list event) (o : outcome pyval),
    send_request' path model w = (World (w_fs w) (w_trace w ++ more) (w_gets w), o)
    /\ writes_of more = []
    /\ requests_of "GET" more = []
    /\ (length (requests_of "POST" more) <= 1)%nat
    /\ o <> OutOfFuel.
Proof.
  destruct (read_segments_reads json_loads path w w eq_refl) as [_ Hw].
  pose proof (read_segments_halts path w) as Hh.
  destruct (read_segments' path w) as [w0 o0] eqn:Hread. cbn in Hw, Hh. subst w0.
  destruct o0 as [segments|e|]; [| |congruence].
  - apply (read_segments_entered json_loads _ model) in Hread.
    pose proof (send_request_posts APIKEY json_loads post_oracle _ _ _ _ Hread) as Hrun.
    cbv zeta in Hrun. rewrite Hrun.
    destruct (post_oracle _) as [[response|e]|e];
      [destruct (PyVal.get response "request_id" PyNone) as [v|e]| |];
      try destruct (is_Exception e);
      eexists _, _; (split; [reflexivity|]);
      repeat split; cbn; first [reflexivity | lia | discriminate].
  - apply (read_segments_entered json_loads _ model) in Hread.
    destruct (is_Exception e) eqn:He.
    + rewrite (send_request_parse_fails APIKEY json_loads post_oracle _ _ _ _ Hread He).
      eexists _, _. split; [reflexivity|].
      repeat split; cbn; first [reflexivity | lia | discriminate].
    + rewrite send_request_unfold. unfold try_except, bind at 1.
      rewrite Hread, He.
      eexists _, _. split; [reflexivity|].
      repeat split; cbn; first [reflexivity | lia | discriminate].
Qed.

Lemma requests_of_app (method : string) (a b : list event) :
  requests_of method (a ++ b) = requests_of method a ++ requests_of method b.
Proof. apply omap_app. Qed.

Lemma requests_of_filter (method : string) (t : list event) :
  requests_of method (List.filter is_http t) = requests_of method t.
Proof.
  induction t as [|e t IH]; [reflexivity|].
  destruct e; cbn; try exact IH.
  unfold requests_of in *. cbn. now rewrite IH.
Qed.

Lemma requests_of_status (method : string) (request_id : pyval) (n : nat) :
  requests_of method (List.repeat (Http (status_request APIKEY request_id)) n)
  = if String.eqb "GET" method
    then List.repeat (status_request APIKEY request_id) n
    else [].
Proof.
  induction n as [|n IH]; [now destruct (String.eqb _ _)|].
  cbn [List.repeat]. unfold requests_of in *. cbn [omap list_omap].
  change (rq_method (status_request APIKEY request_id)) with "GET".
  destruct (String.eqb "GET" method); [f_equal|]; exact IH.
Qed.

(** X4. What a run of [process_summary_request] can do, whatever the
    files, the service and the number of turns followed: it posts at most
    once, sends as many status requests as it makes polls and no more than
    the turns followed, and touches the file system at most once: either the
    files are as before, or the run has ended normally after writing the one
    file [out_filename file_name out_folder]. *)
Theorem process_summary_request_footprint
        (fuel : nat) (file_name out_folder : string) model w :
  exists (more : list event) (n : nat) (fs' : gmap string string) (o : outcome unit),
    process_summary_request' fuel file_name out_folder model w
    = (World fs' (w_trace w ++ more) (w_gets w + n), o)
    /\ (n <= fuel)%nat
    /\ (length (requests_of "POST" more) <= 1)%nat
    /\ length (requests_of "GET" more) = n
    /\ ((writes_of more = [] /\ fs' = w_fs w)
        \/ (exists content,
               writes_of more = [(out_filename file_name out_folder, content)]
               /\ fs' = <[out_filename file_name out_folder := content]> (w_fs w)
               /\ o = Return tt)).
Proof.
  rewrite process_summary_request_unfold.
  match goal with
  | |- context [send_request' file_name model ?w0] =>
      destruct (send_request_footprint file_name model w0)
        as (more0 & o0 & -> & Hw0 & Hg0 & Hp0 & Ho0)
  end.
  cbn [w_fs w_trace w_gets]. rewrite <- app_assoc.
  destruct o0 as [request_id|e|]; [| |congruence].
  - match goal with
    | |- context [poll_loop' fuel request_id file_name out_folder ?w1] =>
        destruct (poll_loop_effect APIKEY json_dumps get_oracle writable
                    fuel request_id file_name out_folder w1)
          as (more & n & fs' & o & -> & Hn & Hh & Hfs)
    end.
    cbn [w_fs w_trace w_gets] in *. rewrite <- app_assoc.
    eexists _, n, fs', o. split; [reflexivity|]. split; [exact Hn|].
    assert (Hpost : requests_of "POST" more = []).
    { rewrite <- requests_of_filter, Hh. now rewrite requests_of_status. }
    assert (Hget : requests_of "GET" more
                   = List.repeat (status_request APIKEY request_id) n).
    { rewrite <- requests_of_filter, Hh. now rewrite requests_of_status. }
    split; [|split].
    + rewrite !requests_of_app, Hpost, app_nil_r. cbn. exact Hp0.
    + rewrite !requests_of_app, Hg0, Hget. cbn. apply repeat_length.
    + rewrite !writes_of_app, Hw0. cbn. exact Hfs.
  - eexists _, 0%nat, _, (Raise e). rewrite Nat.add_0_r.
    split; [reflexivity|]. split; [lia|].
    split; [|split].
    + rewrite requests_of_app. cbn. exact Hp0.
    + rewrite requests_of_app, Hg0. reflexivity.
    + left. split; [|reflexivity]. rewrite writes_of_app, Hw0. reflexivity.
Qed.

End Footprint.

(** ** Blank transcripts and repeated options *)

Section BlankAndOptions.

Variable APIKEY : string.
Variable json_loads : string -> result pyval.
Variable post_oracle : request -> result (result pyval).

Local Abbreviation send_request' := (send_request APIKEY json_loads post_oracle).



Lemma scan_options_snoc (opts : Getopt.optlist) (oa : string * string) :
  scan_options (opts ++ [oa]) = set_option (scan_options opts) oa.
Proof. unfold scan_options. now rewrite fold_left_app. Qed.

(** X20. In the option loop the last occurrence of an option wins, the
    short and the long form of an option are one, and an input option
    leaves the output folder as it was (and the other way round). *)
Theorem scan_options_last_wins (opts : Getopt.optlist) (name arg : string) :
  (name = "-i" \/ name = "--input_file_path" ->
   input_file_path (scan_options (opts ++ [(name, arg)])) = Some arg
   /\ output_folder (scan_options (opts ++ [(name, arg)]))
      = output_folder (scan_options opts))
  /\ (name = "-o" \/ name = "--output_folder" ->
      output_folder (scan_options (opts ++ [(name, arg)])) = Some arg
      /\ input_file_path (scan_options (opts ++ [(name, arg)]))
         = input_file_path (scan_options opts)).
Proof.
  rewrite scan_options_snoc. split; intros [-> | ->]; split; reflexivity.
Qed.

End BlankAndOptions.

(** ** The further properties on the sample installation *)

Module InstancesMore.
Import PyString.

(** X1 on a service whose answer has no status. *)
Lemma get_response_unreadable_witness :
  SampleMore.get_no_status (w_gets Sample.world0)
                           (status_request Sample.apikey (PyStr "req-1"))
  = Ok (Ok (PyDict ∅))
  /\ (s <-? PyVal.getitem (PyDict ∅) "status"; PyVal.lower_strip s)
     = Err (KeyError "status")
  /\ get_response Sample.apikey SampleMore.get_no_status (PyStr "req-1") Sample.world0
     = (after_get (status_request Sample.apikey (PyStr "req-1")) Sample.world0
                  [PrintExn (KeyError "status")],
        Return (PyStr "FAILED")).
Proof.
  split; [reflexivity|]. split; [reflexivity|].
  exact (proj1 (proj2 (get_response_unreadable_answer_gives_failed
                         Sample.apikey SampleMore.get_no_status))
               (PyStr "req-1") Sample.world0 (PyDict ∅) (KeyError "status")
               eq_refl eq_refl).
Defined.

(** X2 on a service that shouts and one that whispers. *)
Lemma get_response_case_witness :
  strip (lower "  IN PROGRESS ") = strip (lower "in progress")
  /\ get_response Sample.apikey SampleMore.get_shouting (PyStr "req-1") Sample.world0
     = get_response Sample.apikey SampleMore.get_whispering (PyStr "req-1") Sample.world0.
Proof.
  split; [reflexivity|].
  exact (proj1 (get_response_ignores_case_and_blanks Sample.apikey SampleMore.get_shouting)
               SampleMore.get_whispering (PyStr "req-1") Sample.world0 ∅
               "  IN PROGRESS " "in progress" eq_refl eq_refl eq_refl).
Defined.


Lemma sample_missing_file : w_fs Sample.world0 !! "calls/nothing.txt" = None.
Proof. vm_compute. reflexivity. Defined.

(** X6 on a path that names no file. *)
Lemma send_request_missing_file_witness :
  w_fs Sample.world0 !! "calls/nothing.txt" = None
  /\ send_request Sample.apikey Sample.json_loads Sample.post_oracle
                  "calls/nothing.txt" (PyStr "iamus") Sample.world0
     = (World (w_fs Sample.world0)
              (w_trace Sample.world0
               ++ [Call "send_request" [PyStr "calls/nothing.txt"; PyStr "iamus"];
                   PrintExn OSError])
              (w_gets Sample.world0),
        Return PyNone).
Proof.
  split; [exact sample_missing_file|].
  exact (proj2 (send_request_parser_exception_gives_none
                  Sample.apikey Sample.json_loads Sample.post_oracle)
               "calls/nothing.txt" (PyStr "iamus") Sample.world0 sample_missing_file).
Defined.

(** X7 on a service that cannot be reached for the post. *)
Lemma process_summary_request_polls_without_id_witness :
  exists segments,
    read_segments Sample.json_loads "calls/call1.txt" Sample.world0
    = (Sample.world0, Return segments)
    /\ process_summary_request Sample.apikey Sample.json_loads Sample.json_dumps
         Sample.post_down Sample.get_errored Sample.writable
         4 "calls/call1.txt" "/tmp/out" (PyStr "iamus") Sample.world0
       = poll_loop Sample.apikey Sample.json_dumps Sample.get_errored Sample.writable
           4 PyNone "calls/call1.txt" "/tmp/out"
           (World (w_fs Sample.world0)
                  (w_trace Sample.world0
                   ++ [Call "process_summary_request"
                            [PyStr "calls/call1.txt"; PyStr "/tmp/out"; PyStr "iamus"];
                       Print "Processing file : {}" [PyStr "calls/call1.txt"]]
                   ++ [Call "send_request" [PyStr "calls/call1.txt"; PyStr "iamus"];
                       Http (summary_request Sample.apikey segments (PyStr "iamus"));
                       PrintExn RequestException])
                  (w_gets Sample.world0)).
Proof.
  destruct Instances.sample_read_segments as [segments Hread].
  exists segments. split; [exact Hread|].
  exact (proj1 (process_summary_request_polls_without_id
                  Sample.apikey Sample.json_loads Sample.json_dumps
                  Sample.post_down Sample.get_errored Sample.writable
                  4%nat "calls/call1.txt" "/tmp/out" (PyStr "iamus") Sample.world0
                  segments Hread)
               RequestException (or_introl eq_refl) eq_refl).
Defined.

Lemma more_lookup_missing : w_fs SampleMore.world0 !! "calls/missing.json" = Some "missing".
Proof. vm_compute. reflexivity. Defined.

Lemma more_lookup_bad : w_fs SampleMore.world0 !! "calls/bad.json" = Some "bad".
Proof. vm_compute. reflexivity. Defined.

(** X8 on the transcript whose second element has no [speaker_id]. *)
Lemma read_json_missing_speaker_id_witness :
  w_fs SampleMore.world0 !! "calls/missing.json" = Some "missing"
  /\ SampleMore.json_loads "missing" = Ok SampleMore.doc_missing_id
  /\ read_json_to_segments SampleMore.json_loads "calls/missing.json" SampleMore.world0
     = (SampleMore.world0, Raise (KeyError "speaker_id")).
Proof.
  split; [exact more_lookup_missing|]. split; [reflexivity|].
  refine (read_json_to_segments_missing_speaker_id
            SampleMore.json_loads "calls/missing.json" "missing" SampleMore.world0
            {[ "segments" :=
                 PyList [PyDict {[ "speaker_id" := PyStr "0"; "text" := PyStr "hi" ]};
                         PyDict {[ "text" := PyStr "there" ]}] ]}
            [{[ "speaker_id" := PyStr "0"; "text" := PyStr "hi" ]}]
            {[ "text" := PyStr "there" ]} []
            more_lookup_missing eq_refl _ _ _).
  - vm_compute. reflexivity.
  - repeat constructor. eexists. vm_compute. reflexivity.
  - vm_compute. reflexivity.
Defined.

(** X9 on the transcript whose element is a string. *)
Lemma read_json_type_error_witness :
  w_fs SampleMore.world0 !! "calls/bad.json" = Some "bad"
  /\ SampleMore.json_loads "bad" = Ok SampleMore.doc_bad_element
  /\ exists msg,
       read_json_to_segments SampleMore.json_loads "calls/bad.json" SampleMore.world0
       = (SampleMore.world0, Raise (TypeError msg)).
Proof.
  split; [exact more_lookup_bad|]. split; [reflexivity|].
  refine (proj2 (proj2 (read_json_to_segments_type_errors SampleMore.json_loads))
                "calls/bad.json" "bad" SampleMore.world0
                {[ "segments" := PyList [PyStr "hi"] ]} [] (PyStr "hi") []
                more_lookup_bad eq_refl _ _ eq_refl).
  - vm_compute. reflexivity.
  - constructor.
Defined.

(** X10 on a line whose text holds a separator: what stands before the
    last separator does not reach the text. *)
Lemma line_segment_text_witness :
  contains ": " "hi there" = false
  /\ (exists speaker_id,
        line_segment "speaker_1 : note: hi there"
        = Ok (PyDict {[ "speakerId" := PyStr speaker_id; "text" := PyStr "hi there" ]}))
  /\ line_segment "speaker_1 : note: hi there"
     = Ok (PyDict {[ "speakerId" := PyStr "1"; "text" := PyStr "hi there" ]}).
Proof.
  split; [reflexivity|]. split; [|vm_compute; reflexivity].
  destruct TextMore.line_segment_text_is_clean as [Hlast _].
  exact (Hlast "speaker_1 : note" "hi there" eq_refl).
Defined.

(** X12 on a line with the label [agent]. *)
Lemma line_segment_plain_label_witness :
  ("agent" <> "" /\ lstrip "agent" = "agent" /\ rstrip "agent" = "agent"
   /\ lacks ":" "agent" = true /\ startswith "speaker_" "agent" = false
   /\ contains ": " "good morning" = false /\ nonblank "good morning" = true)
  /\ line_segment (strip ("agent" +:+ " : " +:+ "good morning"))
     = Ok (segment "agent" (strip "good morning")).
Proof.
  assert (Hne : "agent" <> "") by discriminate.
  split; [repeat split; first [exact Hne | reflexivity]|].
  exact (TextMore.line_segment_keeps_plain_label "agent" "good morning"
           Hne eq_refl eq_refl eq_refl eq_refl eq_refl eq_refl).
Defined.

(** X13 on the sample installation: [--help] followed by more words. *)
Lemma main_block_help_witness :
  contains Sample.apikey "YOUR_API_KEY" = false
  /\ main_block Sample.apikey Sample.json_loads Sample.json_dumps Sample.post_oracle
                Sample.get_oracle Sample.isdir Sample.writable
                5 "summary.py" ["--help"; "-i"; "calls/call1.txt"] Sample.world0
     = (World (w_fs Sample.world0) (w_trace Sample.world0 ++ usage_lines "summary.py")
              (w_gets Sample.world0),
        Raise (SystemExit 2)).
Proof.
  split; [reflexivity|].
  exact (main_block_help_prints_usage
           Sample.apikey Sample.json_loads Sample.json_dumps Sample.post_oracle
           Sample.get_oracle Sample.isdir Sample.writable
           5%nat "summary.py" "--help" ["-i"; "calls/call1.txt"] Sample.world0
           eq_refl (or_intror eq_refl)).
Defined.

(** X14 on the sample installation: a complete invocation is answered with
    the complaint about the model. *)
Lemma main_block_verdict_witness :
  contains Sample.apikey "YOUR_API_KEY" = false
  /\ main_block Sample.apikey Sample.json_loads Sample.json_dumps Sample.post_oracle
                Sample.get_oracle Sample.isdir Sample.writable
                5 "summary.py" ["-i"; "calls/call1.txt"; "-o"; "/tmp/out"] Sample.world0
     = (World (w_fs Sample.world0)
              (w_trace Sample.world0
               ++ [Print "Invalid model param. Should be either cassandra or iamus" []])
              (w_gets Sample.world0),
        Raise (SystemExit 2)).
Proof.
  split; [reflexivity|].
  exact (proj1 (main_block_input_output_verdict
                  Sample.apikey Sample.json_loads Sample.json_dumps Sample.post_oracle
                  Sample.get_oracle Sample.isdir Sample.writable
                  5%nat "summary.py" "calls/call1.txt" "/tmp/out" Sample.world0 eq_refl)).
Defined.

(** X15 on the script as it is shipped, with the placeholder key. *)
Lemma main_block_exit_status_witness :
  contains "YOUR_API_KEY" "YOUR_API_KEY" = true
  /\ main_block "YOUR_API_KEY" Sample.json_loads Sample.json_dumps Sample.post_oracle
                Sample.get_oracle Sample.isdir Sample.writable
                5 "summary.py" ["-i"; "calls/call1.txt"; "-o"; "/tmp/out"] Sample.world0
     = (World (w_fs Sample.world0)
              (w_trace Sample.world0 ++ [Print "Please update your valid api key" []])
              (w_gets Sample.world0),
        Raise (SystemExit 0)).
Proof.
  split; [reflexivity|].
  exact (proj1 (proj2 (proj2 (proj2 (main_block_exit_status
                  "YOUR_API_KEY" Sample.json_loads Sample.json_dumps Sample.post_oracle
                  Sample.get_oracle Sample.isdir Sample.writable
                  5%nat "summary.py" ["-i"; "calls/call1.txt"; "-o"; "/tmp/out"]
                  Sample.world0)))) eq_refl).
Defined.

(** X16 on a transcript in a directory and on a file named ".json". *)
Lemma read_segments_choice_witness :
  (lacks "/" "call1" = true
   /\ read_segments Sample.json_loads ("calls" +:+ "/" +:+ "call1" +:+ ".json")
      = read_json_to_segments Sample.json_loads ("calls" +:+ "/" +:+ "call1" +:+ ".json"))
  /\ (lacks "/" "" = true
      /\ read_segments Sample.json_loads ("calls" +:+ "/" +:+ "" +:+ ".json")
         = read_text_to_segments ("calls" +:+ "/" +:+ "" +:+ ".json")).
Proof.
  destruct (PathMore.read_segments_choice Sample.json_loads) as [_ Hjson].
  split.
  - split; [reflexivity|].
    exact (proj2 (Hjson (Some "calls") "call1" eq_refl)).
  - split; [reflexivity|].
    exact (proj2 (Hjson (Some "calls") "" eq_refl)).
Defined.

(** X17 on two inputs of the same name. *)
Lemma out_filename_witness :
  lacks "/" "call1.txt" = true
  /\ out_filename ("monday" +:+ "/" +:+ "call1.txt") "/tmp/out"
     = out_filename "call1.txt" "/tmp/out"
  /\ out_filename ("monday" +:+ "/" +:+ "call1.txt") "/tmp/out"
     = "/tmp/out" +:+ "/" +:+ "call1.txt" +:+ ".output.json".
Proof.
  destruct (PathMore.out_filename_keeps_last_component "monday" "call1.txt" eq_refl)
    as (Hsame & Hplain & _).
  split; [reflexivity|]. split; [apply Hsame|].
  apply Hplain; [discriminate | reflexivity].
Defined.

(** X18 on a post that is interrupted. *)
Lemma send_request_interrupt_witness :
  exists segments,
    read_segments Sample.json_loads "calls/call1.txt" Sample.world0
    = (Sample.world0, Return segments)
    /\ SampleMore.post_interrupted (summary_request Sample.apikey segments (PyStr "iamus"))
       = Err KeyboardInterrupt
    /\ is_Exception KeyboardInterrupt = false
    /\ send_request Sample.apikey Sample.json_loads SampleMore.post_interrupted
                    "calls/call1.txt" (PyStr "iamus") Sample.world0
       = (World (w_fs Sample.world0)
                (w_trace Sample.world0
                 ++ [Call "send_request" [PyStr "calls/call1.txt"; PyStr "iamus"];
                     Http (summary_request Sample.apikey segments (PyStr "iamus"))])
                (w_gets Sample.world0),
          Raise KeyboardInterrupt).
Proof.
  destruct Instances.sample_read_segments as [segments Hread].
  exists segments. split; [exact Hread|]. split; [reflexivity|]. split; [reflexivity|].
  exact (send_request_lets_interrupt_through
           Sample.apikey Sample.json_loads SampleMore.post_interrupted
           "calls/call1.txt" (PyStr "iamus") Sample.world0 segments KeyboardInterrupt
           Hread eq_refl eq_refl).
Defined.




(** X20 on an input option given twice. *)
Lemma scan_options_witness :
  input_file_path (scan_options ([("-i", "a.txt"); ("-o", "out")]
                                 ++ [("--input_file_path", "b.txt")]))
  = Some "b.txt".
Proof.
  exact (proj1 (proj1 (scan_options_last_wins [("-i", "a.txt"); ("-o", "out")]
                                              "--input_file_path" "b.txt")
                      (or_intror eq_refl))).
Defined.

End InstancesMore.
